(** * vscode-test-cli: configuration resolution, provisioning and in-host run

    A shallow embedding of the orchestration core of [vscode-test-cli]
    ([src/vscode-tests.ts], [src/mocha-tests.ts] and [src/nyc-coverage.ts])
    together with the properties its specification states about it.

    - JavaScript values loaded from configuration files are the inductive
      [JsValue]; a configuration object ([Record<string, unknown>]) is a
      [gmap string JsValue] read with [prop].
    - A function that may [throw] returns a [Result]; the error carries the
      message of the JavaScript [Error].
    - Code that talks to the outside world (file system writes, subprocesses,
      the host launcher, mocha, glob, console) runs in the monad [Eff]: it
      threads the chronological trace of the calls made so far, and every
      answer of the outside world is given by an environment that may depend
      on that trace. *)

From Stdlib Require Import String Ascii List Bool Arith Lia.
From stdpp Require Import base option list strings gmap pretty.
From stdpp Require Import sorting.

Open Scope string_scope.
Open Scope list_scope.
Set Warnings "-register-all".

(** ** JavaScript values and exceptions *)

Inductive JsValue : Type :=
| JsUndefined
| JsNull
| JsBool (b : bool)
| JsNumber (n : Z)
| JsString (s : string)
| JsArray (items : list JsValue)
| JsObject (fields : list (string * JsValue)).

(** [config.key] on a plain object: a key that is not there reads as
    [undefined]. The map holds what the properties of the object read as;
    [__proto__], which names the prototype of an object and not a property
    of its own, is not a key of it. *)
Definition prop (o : gmap string JsValue) (key : string) : JsValue :=
  default JsUndefined (o !! key).

(** String conversion, as done by [+] between a string and a value. A
    number is an integer here, and its decimal form is the one JavaScript
    prints for the integers that a double holds exactly (below [2^53] in
    absolute value); see [printsPlainly]. *)
Fixpoint toJsString (v : JsValue) : string :=
  match v with
  | JsUndefined => "undefined"
  | JsNull => "null"
  | JsBool true => "true"
  | JsBool false => "false"
  | JsNumber n => pretty n
  | JsString s => s
  | JsArray items =>
      String.concat ","
        (List.map (fun item =>
                     match item with
                     | JsUndefined | JsNull => ""
                     | _ => toJsString item
                     end) items)
  | JsObject _ => "[object Object]"
  end.

(** The outcome of a call: a value, or a thrown [Error] with its message. *)
Inductive Result (A : Type) : Type :=
| Ok (a : A)
| Throw (message : string).
Arguments Ok {A} a.
Arguments Throw {A} message.

#[global] Instance Result_ret : MRet Result := fun _ a => Ok a.
#[global] Instance Result_bind : MBind Result := fun _ _ f r =>
  match r with
  | Ok a => f a
  | Throw m => Throw m
  end.

Definition isOk {A} (r : Result A) : bool :=
  match r with Ok _ => true | Throw _ => false end.

(** [String.prototype.includes]. *)
Fixpoint includes (s sub : string) : bool :=
  String.prefix sub s
  || match s with
     | EmptyString => false
     | String _ s' => includes s' sub
     end.

(** [String.prototype.endsWith]. *)
Definition endsWith (s suffix : string) : bool :=
  let n := String.length s in
  let m := String.length suffix in
  Nat.leb m n && String.eqb (String.substring (n - m)%nat m s) suffix.

(** A failed call whose error message mentions [field]; this is what the
    test-suite checks with [rejectedWith(field)]. *)
Definition failsNaming {A} (field : string) (r : Result A) : Prop :=
  exists message, r = Throw message /\ includes message field = true.

(** ** Node's [path] module (POSIX flavour)

    [path.resolve] and [path.join] are library functions of the platform.
    They are modelled here after their documented POSIX behaviour: a path is
    cut into segments at ["/"], empty and ["."] segments are dropped, a
    [".."] segment removes the segment before it, and [resolve] prepends
    its arguments from right to left until an absolute path is reached,
    falling back on the working directory. *)
Module Path.

Definition isAbsolute (p : string) : bool :=
  match p with
  | String c _ => Ascii.eqb c "/"
  | EmptyString => false
  end.

(** Cut at every ["/"]; [split "" = [""]]. *)
Fixpoint split (s : string) : list string :=
  match s with
  | EmptyString => [EmptyString]
  | String c s' =>
      if Ascii.eqb c "/" then EmptyString :: split s'
      else match split s' with
           | seg :: rest => String c seg :: rest
           | [] => [String c EmptyString]
           end
  end.

(** One segment against the stack of segments kept so far (innermost
    first). *)
Definition normalizeStep (allowAboveRoot : bool)
    (kept : list string) (seg : string) : list string :=
  if String.eqb seg "" || String.eqb seg "." then kept
  else if String.eqb seg ".." then
    match kept with
    | top :: below =>
        if String.eqb top ".."
        then (if allowAboveRoot then seg :: kept else kept)
        else below
    | [] => if allowAboveRoot then [seg] else []
    end
  else seg :: kept.

Definition normalizeSegments (allowAboveRoot : bool)
    (segs : list string) : list string :=
  List.rev (List.fold_left (normalizeStep allowAboveRoot) segs []).

Definition normalizeString (p : string) (allowAboveRoot : bool) : string :=
  String.concat "/" (normalizeSegments allowAboveRoot (split p)).

(** The last character is a separator. *)
Definition hasTrailingSeparator (p : string) : bool :=
  match String.get (String.length p - 1) p with
  | Some c => Ascii.eqb c "/"
  | None => false
  end.

Definition normalize (p : string) : string :=
  if String.eqb p "" then "."
  else
    let absolute := isAbsolute p in
    let trailing := hasTrailingSeparator p in
    let body := normalizeString p (negb absolute) in
    if String.eqb body "" then
      (if absolute then "/" else if trailing then "./" else ".")
    else
      let body := if trailing then body +:+ "/" else body in
      if absolute then "/" +:+ body else body.

(** [path.join(...args)]: glue the non-empty arguments with ["/"], then
    normalise. *)
Definition join (args : list string) : string :=
  match List.filter (fun a => negb (String.eqb a "")) args with
  | [] => "."
  | parts => normalize (String.concat "/" parts)
  end.

(** The right-to-left loop of [path.resolve]: [candidates] are the
    arguments, last one first, followed by the working directory. *)
Fixpoint resolveLoop (candidates : list string) (resolvedPath : string)
  : string * bool :=
  match candidates with
  | [] => (resolvedPath, false)
  | p :: earlier =>
      if String.eqb p "" then resolveLoop earlier resolvedPath
      else
        let resolvedPath := p +:+ "/" +:+ resolvedPath in
        if isAbsolute p then (resolvedPath, true)
        else resolveLoop earlier resolvedPath
  end.

(** [path.resolve(...args)] in a process whose working directory is
    [cwd]. *)
Definition resolve (cwd : string) (args : list string) : string :=
  let '(resolvedPath, resolvedAbsolute) :=
    resolveLoop (List.rev args ++ [cwd]) "" in
  let body := normalizeString resolvedPath (negb resolvedAbsolute) in
  if resolvedAbsolute then "/" +:+ body
  else if String.eqb body "" then "." else body.

(** The backwards scan of [path.dirname] over the characters at
    positions [i], [i-1], ... (down to position 1): the position of the
    separator that ends the directory part, if there is one. *)
Fixpoint dirnameScan (backwards : list ascii) (i : nat)
    (matchedSlash : bool) : option nat :=
  match backwards with
  | [] => None
  | c :: more =>
      if Ascii.eqb c "/" then
        (if matchedSlash then dirnameScan more (i - 1) true else Some i)
      else dirnameScan more (i - 1) false
  end.

(** [path.dirname]. *)
Definition dirname (p : string) : string :=
  match p with
  | EmptyString => "."
  | String _ rest =>
      let hasRoot := isAbsolute p in
      match dirnameScan (List.rev (list_ascii_of_string rest))
              (String.length p - 1) true with
      | None => if hasRoot then "/" else "."
      | Some last =>
          if hasRoot && Nat.eqb last 1 then "//"
          else String.substring 0 last p
      end
  end.

End Path.

(** ** Effects

    [Eff L Ev A] is a computation with mutable local variables of type [L]
    that records the calls it makes to the outside world as events of type
    [Ev], in the order they happen, and ends with an [A] or a thrown error. *)

Definition Eff (L Ev A : Type) : Type :=
  L * list Ev -> Result A * (L * list Ev).

#[global] Instance Eff_ret {L Ev} : MRet (Eff L Ev) :=
  fun _ a st => (Ok a, st).
#[global] Instance Eff_bind {L Ev} : MBind (Eff L Ev) :=
  fun _ _ f m st =>
    match m st with
    | (Ok a, st') => f a st'
    | (Throw e, st') => (Throw e, st')
    end.

Section EffOps.
Context {L Ev : Type}.

Definition throw {A} (message : string) : Eff L Ev A :=
  fun st => (Throw message, st).

Definition getLocal : Eff L Ev L := fun st => (Ok (fst st), st).
Definition setLocal (l : L) : Eff L Ev unit :=
  fun st => (Ok tt, (l, snd st)).

(** A call to the outside world that cannot throw: [answer] is what the
    world returns after the calls made so far, [record] the event kept. *)
Definition perform {R} (answer : list Ev -> R) (record : R -> Ev)
  : Eff L Ev R :=
  fun st =>
    let r := answer (snd st) in (Ok r, (fst st, snd st ++ [record r])).

(** A call to the outside world that may throw (or reject). *)
Definition attempt {R} (answer : list Ev -> Result R)
    (record : Result R -> Ev) : Eff L Ev R :=
  fun st =>
    let r := answer (snd st) in (r, (fst st, snd st ++ [record r])).

(** [try { body } catch (e) { handler e }]. *)
Definition tryCatch {A} (body : Eff L Ev A)
    (handler : string -> Eff L Ev A) : Eff L Ev A :=
  fun st =>
    match body st with
    | (Ok a, st') => (Ok a, st')
    | (Throw e, st') => handler e st'
    end.

(** [try { body } finally { cleanup }]: the cleanup always runs; the
    outcome is that of the body unless the cleanup itself throws. *)
Definition tryFinally {A} (body : Eff L Ev A) (cleanup : Eff L Ev unit)
  : Eff L Ev A :=
  fun st =>
    let '(r, st') := body st in
    match cleanup st' with
    | (Ok _, st'') => (r, st'')
    | (Throw e, st'') => (Throw e, st'')
    end.

(** Calling a function that has locals [L'] of its own, initially
    [locals]; they are gone when it returns. *)
Definition call {L' A} (locals : L') (callee : Eff L' Ev A) : Eff L Ev A :=
  fun st =>
    let '(r, (_, trace)) := callee (locals, snd st) in (r, (fst st, trace)).

End EffOps.

(** Modelled from the spec: [src/constants.ts] is not among the sources. The
    environment-variable keys live in one reserved namespace (prefix
    [VSCODE_TEST_CLI_]); the values are those the test-suite spells out. *)
Definition ENV_VAR_MOCHA_CWD : string := "VSCODE_TEST_CLI_MOCHA_CWD".
Definition ENV_VAR_MOCHA_CONFIG_PATH : string :=
  "VSCODE_TEST_CLI_MOCHA_CONFIG_PATH".
Definition ENV_VAR_NYC_CWD : string := "VSCODE_TEST_CLI_NYC_CWD".
Definition ENV_VAR_NYC_CONFIG_PATH : string :=
  "VSCODE_TEST_CLI_NYC_CONFIG_PATH".
Definition ENV_VAR_BASE_TEST_PATH : string := "VSCODE_TEST_CLI_BASE_TEST_PATH".

(** ** [src/vscode-tests.ts] *)
Module VscodeTests.

Definition USER_DATA_DIR_PARAM : string := "--user-data-dir".

Record ResolvedConfiguration : Type := {
  extensionDevelopmentPath : string;
  workspacePath : string;
  initWorkspace : bool;
  mochaConfigPath : string;
  nycConfigPath : option string;
  userDataDir : option string;
  vscodeVersion : option string;
  additionalExtensionFolders : option (list string);
  uninstallExtensionIDs : option (list string);
  disabledExtensionIDs : option (list string);
  disableAllExtensions : bool
}.

(** [asserts value is string | undefined]: the narrowed value is returned,
    [None] standing for [undefined]. *)
Definition assertStringOrUndefinedParameter (name : string) (value : JsValue)
  : Result (option string) :=
  match value with
  | JsUndefined => Ok None
  | JsString s => Ok (Some s)
  | _ => Throw ("Configuration error: " +:+ name +:+ " must be a string")
  end.

(** The loop over the entries of an array that must hold strings only. *)
Fixpoint assertStringEntries (name : string) (entries : list JsValue)
  : Result (list string) :=
  match entries with
  | [] => Ok []
  | JsString s :: rest =>
      strings ← assertStringEntries name rest; Ok (s :: strings)
  | _ :: _ =>
      Throw ("Configuration error: " +:+ name +:+ " must be a string array")
  end.

(** [asserts arrayValue is string[] | undefined]. *)
Definition assertStringArrayOrUndefinedParameter (name : string)
    (arrayValue : JsValue) : Result (option (list string)) :=
  match arrayValue with
  | JsUndefined => Ok None
  | JsArray entries =>
      strings ← assertStringEntries name entries; Ok (Some strings)
  | _ => Throw ("Configuration error: " +:+ name +:+ " must be a string array")
  end.

(** [fs.Stats], as far as the resolver looks at it. *)
Record Stats : Type := { isDirectory : bool }.

(** lodash [isEmpty] on [string[] | undefined]. *)
Definition isEmpty (folders : option (list string)) : bool :=
  match folders with
  | None | Some [] => true
  | Some (_ :: _) => false
  end.

(** *** The configuration resolver *)
Section Resolver.

(** The process working directory and the file system as it is while the
    configuration is resolved. *)
Variable cwd : string.
Variable pathExists : string -> bool.
Variable stat : string -> Result Stats.

Definition resolve (args : list string) : string := Path.resolve cwd args.

Definition validateNycConfigPath (isCoverage : bool)
    (config : gmap string JsValue) (configRelPath : string)
  : Result (option string) :=
  if isCoverage then
    nyc ← assertStringOrUndefinedParameter "nycConfigPath"
            (prop config "nycConfigPath");
    match nyc with
    | None =>
        Throw "Configuration error: nycConfigPath must be defined when coverage is enabled"
    | Some p => Ok (Some (resolve [configRelPath; p]))
    end
  else Ok None.

Definition validateInitWorkspace (config : gmap string JsValue)
    (isWorkspaceFile : bool) (workspacePath : string) : Result bool :=
  match prop config "initWorkspace" with
  | JsUndefined =>
      (* By default - only create the workspace file if it doesn't exist *)
      Ok (isWorkspaceFile && negb (pathExists workspacePath))
  | JsBool initWorkspace =>
      if initWorkspace && negb isWorkspaceFile then
        Throw "Configuration error: initWorkspace can be true only for a workspace file and not a folder"
      else Ok initWorkspace
  | _ => Throw "Configuration error: initWorkspace must be a boolean"
  end.

(** The check made on a [workspacePath] that is not a workspace file. *)
Definition checkWorkspaceFolder (workspacePath : string) : Result unit :=
  if negb (pathExists workspacePath) then
    Throw "Configuration error: workspacePath must end with .code-workspace or be an existing folder"
  else
    stats ← stat workspacePath;
    if negb (isDirectory stats) then
      Throw "Configuration error: workspacePath must end with .code-workspace or be an existing folder"
    else Ok tt.

Definition validateDisableAllExtensions (config : gmap string JsValue)
    (additionalExtensionFolders : option (list string)) : Result bool :=
  (* By default - all extensions are disabled unless there are extensions
     we need to install for the tests *)
  let disableAllExtensions := isEmpty additionalExtensionFolders in
  match prop config "disableAllExtensions" with
  | JsUndefined => Ok disableAllExtensions
  | JsBool explicit => Ok explicit
  | _ => Throw "Configuration error: disableAllExtensions must be a boolean"
  end.

Definition validateAndResolveConfiguration (configPath : string)
    (config : gmap string JsValue) (isCoverage : bool)
  : Result ResolvedConfiguration :=
  (* Paths in the config file are relative to the configuration file folder *)
  let configRelPath := resolve [configPath; ".."] in
  edp ← assertStringOrUndefinedParameter "extensionDevelopmentPath"
          (prop config "extensionDevelopmentPath");
  let extensionDevelopmentPath :=
    resolve [configRelPath; default "." edp] in
  udd ← assertStringOrUndefinedParameter "userDataDir"
          (prop config "userDataDir");
  let userDataDir := (fun p => resolve [configRelPath; p]) <$> udd in
  vscodeVersion ← assertStringOrUndefinedParameter "vscodeVersion"
                    (prop config "vscodeVersion");
  uninstallExtensionIDs ←
    assertStringArrayOrUndefinedParameter "uninstallExtensionIDs"
      (prop config "uninstallExtensionIDs");
  disabledExtensionIDs ←
    assertStringArrayOrUndefinedParameter "disabledExtensionIDs"
      (prop config "disabledExtensionIDs");
  aef ← assertStringArrayOrUndefinedParameter "additionalExtensionFolders"
          (prop config "additionalExtensionFolders");
  let additionalExtensionFolders :=
    List.map (fun p => resolve [configRelPath; p]) <$> aef in
  mcp ← assertStringOrUndefinedParameter "mochaConfigPath"
          (prop config "mochaConfigPath");
  match mcp with
  | None => Throw "Configuration error: mochaConfigPath must be defined"
  | Some mcp =>
      let mochaConfigPath := resolve [configRelPath; mcp] in
      nycConfigPath ← validateNycConfigPath isCoverage config configRelPath;
      wp ← assertStringOrUndefinedParameter "workspacePath"
             (prop config "workspacePath");
      let workspacePath :=
        resolve [configRelPath; default "test.code-workspace" wp] in
      let isWorkspaceFile := endsWith workspacePath ".code-workspace" in
      (if negb isWorkspaceFile then checkWorkspaceFolder workspacePath
       else Ok tt);;
      initWorkspace ←
        validateInitWorkspace config isWorkspaceFile workspacePath;
      disableAllExtensions ←
        validateDisableAllExtensions config additionalExtensionFolders;
      Ok {| extensionDevelopmentPath := extensionDevelopmentPath;
            workspacePath := workspacePath;
            initWorkspace := initWorkspace;
            mochaConfigPath := mochaConfigPath;
            nycConfigPath := nycConfigPath;
            userDataDir := userDataDir;
            vscodeVersion := vscodeVersion;
            additionalExtensionFolders := additionalExtensionFolders;
            uninstallExtensionIDs := uninstallExtensionIDs;
            disabledExtensionIDs := disabledExtensionIDs;
            disableAllExtensions := disableAllExtensions |}
  end.

End Resolver.


(** *** The launcher and the extension provisioner *)

Inductive Stdio : Type := Pipe | Inherit.

(** What [spawnSync] hands back, as far as it is looked at; [None] stands
    for [undefined]. *)
Record SpawnSyncReturns : Type := {
  stdout : option string;
  stderr : option string
}.

(** The options object given to [runTests]. *)
Record RunTestsOptions : Type := {
  rt_vscodeExecutablePath : string;
  rt_extensionDevelopmentPath : string;
  rt_extensionTestsPath : string;
  rt_launchArgs : list string;
  rt_extensionTestsEnv : gmap string string
}.

(** The calls made to the outside world, each with the answer it got. *)
Inductive HostEvent : Type :=
| EDownloadAndUnzipVSCode (version : option string) (r : Result string)
| ESpawnSync (command : string) (args : list string) (stdio : Stdio)
    (r : SpawnSyncReturns)
| EPathExists (path : string) (r : bool)
| EReaddir (path : string) (r : Result (list string))
| EMkdirs (path : string) (r : Result unit)
| EWriteJson (path : string) (content : JsValue) (r : Result unit)
| EUnlink (path : string) (r : Result unit)
| ERunTests (options : RunTestsOptions) (r : Result unit)
| EConsoleLog (args : list JsValue)
| EConsoleError (args : list JsValue).

(** The outside world of the launcher. Every answer may depend on all the
    calls made before it. *)
Record World : Type := {
  w_platform : string;
  w_cwd : string;
  w_dirname : string;
  w_resolveCliPathFromVSCodeExecutablePath : string -> string;
  w_downloadAndUnzipVSCode :
    list HostEvent -> option string -> Result string;
  w_spawnSync :
    list HostEvent -> string -> list string -> Stdio -> SpawnSyncReturns;
  w_pathExists : list HostEvent -> string -> bool;
  w_readdir : list HostEvent -> string -> Result (list string);
  w_mkdirs : list HostEvent -> string -> Result unit;
  w_writeJson : list HostEvent -> string -> JsValue -> Result unit;
  w_unlink : list HostEvent -> string -> Result unit;
  w_runTests : list HostEvent -> RunTestsOptions -> Result unit
}.

Definition optionToJs (s : option string) : JsValue :=
  match s with
  | Some text => JsString text
  | None => JsUndefined
  end.

(** The JSON document [{ folders: [] }]. *)
Definition emptyWorkspace : JsValue := JsObject [("folders", JsArray [])].

Definition isUpperCaseLetter (c : ascii) : bool :=
  let n := nat_of_ascii c in Nat.leb 65 n && Nat.leb n 90.

Definition toLowerCase (c : ascii) : ascii :=
  if isUpperCaseLetter c then ascii_of_nat (nat_of_ascii c + 32) else c.

Section Launcher.

Variable world : World.
Context {L : Type}.

Definition downloadAndUnzipVSCode (version : option string)
  : Eff L HostEvent string :=
  attempt (fun trace => w_downloadAndUnzipVSCode world trace version)
    (EDownloadAndUnzipVSCode version).

Definition spawnSync (command : string) (args : list string)
    (stdio : Stdio) : Eff L HostEvent SpawnSyncReturns :=
  perform (fun trace => w_spawnSync world trace command args stdio)
    (ESpawnSync command args stdio).

Definition pathExists (path : string) : Eff L HostEvent bool :=
  perform (fun trace => w_pathExists world trace path) (EPathExists path).

Definition readdir (path : string) : Eff L HostEvent (list string) :=
  attempt (fun trace => w_readdir world trace path) (EReaddir path).

Definition mkdirs (path : string) : Eff L HostEvent unit :=
  attempt (fun trace => w_mkdirs world trace path) (EMkdirs path).

Definition writeJson (path : string) (content : JsValue)
  : Eff L HostEvent unit :=
  attempt (fun trace => w_writeJson world trace path content)
    (EWriteJson path content).

Definition unlink (path : string) : Eff L HostEvent unit :=
  attempt (fun trace => w_unlink world trace path) (EUnlink path).

Definition runTests (options : RunTestsOptions) : Eff L HostEvent unit :=
  attempt (fun trace => w_runTests world trace options) (ERunTests options).

Definition consoleLog (args : list JsValue) : Eff L HostEvent unit :=
  perform (fun _ => tt) (fun _ => EConsoleLog args).

Definition consoleError (args : list JsValue) : Eff L HostEvent unit :=
  perform (fun _ => tt) (fun _ => EConsoleError args).

Definition toLowerDriveLetter (path : string) : string :=
  match path with
  | String drive (String ":" rest) =>
      if String.eqb (w_platform world) "win32" && isUpperCaseLetter drive
      then String (toLowerCase drive) (String ":" rest)
      else path
  | _ => path
  end.

(** The loop of [getInstallArgsFromInstallationFolders]; [installArgs]
    is the array filled so far. *)
Fixpoint getInstallArgsLoop (installExtensionFoldersArray : list string)
    (installArgs : list string) : Eff L HostEvent (list string) :=
  match installExtensionFoldersArray with
  | [] => mret installArgs
  | vsixFolder :: folders =>
      (* Find the vsix file in the folder *)
      found ← pathExists vsixFolder;
      if negb found then
        throw ("Folder " +:+ vsixFolder
               +:+ " which contains *.vsix dependencies does not exist")
      else
        files ← readdir vsixFolder;
        let vsixFiles :=
          List.filter (fun fileName => endsWith fileName ".vsix") files in
        if Nat.eqb (List.length vsixFiles) 0 then
          throw ("Could not find *.vsix files in " +:+ vsixFolder)
        else
          getInstallArgsLoop folders
            (installArgs ++
             List.flat_map
               (fun vsixFile =>
                  ["--install-extension"; Path.join [vsixFolder; vsixFile]])
               vsixFiles)
  end.

Definition getInstallArgsFromInstallationFolders
    (installExtensionFoldersArray : list string)
  : Eff L HostEvent (list string) :=
  getInstallArgsLoop installExtensionFoldersArray [].

(** [list === undefined || list.length === 0]. *)
Definition isUndefinedOrEmpty (list : option (list string)) : bool :=
  match list with
  | None => true
  | Some entries => Nat.eqb (List.length entries) 0
  end.

(** The transient failure of the host's extension manager, read off the
    captured [stderr]. *)
Definition installFailedAskingForRestart (installResult : SpawnSyncReturns)
  : bool :=
  match stderr installResult with
  | None => false
  | Some text => includes text "Failed" && includes text "restart"
  end.

Definition installExtensions (vscodeExecutablePath : string)
    (userDataDir : option string)
    (uninstallExtensionIDs installExtensionFolders : option (list string))
  : Eff L HostEvent unit :=
  if isUndefinedOrEmpty installExtensionFolders
     && isUndefinedOrEmpty uninstallExtensionIDs
  then mret tt
  else
    let uninstallExtensionIDsArray := default [] uninstallExtensionIDs in
    let uninstallArgs :=
      List.flat_map (fun id => ["--uninstall-extension"; id])
        uninstallExtensionIDsArray in
    (* Find the vsix files to install *)
    let installExtensionFoldersArray := default [] installExtensionFolders in
    installArgs ←
      getInstallArgsFromInstallationFolders installExtensionFoldersArray;
    let installArgs := installArgs ++ ["--force"] in
    let uninstallArgs := uninstallArgs ++ ["--force"] in
    let userDataDirArgs :=
      match userDataDir with
      | Some dir => [USER_DATA_DIR_PARAM; dir]
      | None => []
      end in
    let installArgs := installArgs ++ userDataDirArgs in
    let uninstallArgs := uninstallArgs ++ userDataDirArgs in
    let cliPath :=
      w_resolveCliPathFromVSCodeExecutablePath world vscodeExecutablePath in
    (* Uninstall the dependencies with "code --uninstall-extension ..." *)
    (if Nat.ltb 0 (List.length uninstallExtensionIDsArray)
     then spawnSync cliPath uninstallArgs Inherit;; mret tt
     else mret tt);;
    (* Install the dependencies with "code --install-extension ..." *)
    if Nat.ltb 0 (List.length installExtensionFoldersArray) then
      installResult ← spawnSync cliPath installArgs Pipe;
      consoleLog [optionToJs (stdout installResult)];;
      consoleError [optionToJs (stderr installResult)];;
      if installFailedAskingForRestart installResult then
        (* Retry *)
        consoleLog [JsString "Retrying installation..."];;
        spawnSync cliPath installArgs Inherit;;
        mret tt
      else mret tt
    else mret tt.

End Launcher.

Section RunVSCodeTests.

Variable world : World.

Definition launchArgsFor (config : ResolvedConfiguration) : list string :=
  [workspacePath config]
  ++ match userDataDir config with
     | Some dir => [USER_DATA_DIR_PARAM; dir]
     | None => []
     end
  ++ List.flat_map (fun id => ["--disable-extension"; id])
       (default [] (disabledExtensionIDs config))
  ++ (if disableAllExtensions config then ["--disable-extensions"] else []).

(** The environment variables handed to the code that runs inside the
    host. A missing [nycConfigPath] (ruled out by the resolver when
    coverage is requested) leaves its key unset. *)
Definition extensionTestsEnvFor (isCoverage : bool)
    (config : ResolvedConfiguration) : gmap string string :=
  let testsCwd :=
    toLowerDriveLetter world (extensionDevelopmentPath config) in
  let extensionTestsEnv : gmap string string :=
    <[ENV_VAR_MOCHA_CONFIG_PATH := mochaConfigPath config]>
      (<[ENV_VAR_MOCHA_CWD := testsCwd]> ∅) in
  let extensionTestsEnv :=
    if isCoverage then
      match nycConfigPath config with
      | Some nyc =>
          <[ENV_VAR_NYC_CONFIG_PATH := nyc]>
            (<[ENV_VAR_NYC_CWD := testsCwd]> extensionTestsEnv)
      | None => <[ENV_VAR_NYC_CWD := testsCwd]> extensionTestsEnv
      end
    else extensionTestsEnv in
  if isCoverage
  then <[ENV_VAR_BASE_TEST_PATH :=
           Path.resolve (w_cwd world) [w_dirname world; "mocha-tests"]]>
         extensionTestsEnv
  else extensionTestsEnv.

(** The entry point the host loads. *)
Definition extensionTestsPathFor (isCoverage : bool) : string :=
  if isCoverage
  then Path.resolve (w_cwd world) [w_dirname world; "nyc-coverage"]
  else Path.resolve (w_cwd world) [w_dirname world; "mocha-tests"].

(** The [try] block of [runVSCodeTests]. The local variable is
    [workspaceFileToDelete]. *)
Definition runVSCodeTestsBody (isCoverage : bool)
    (config : ResolvedConfiguration) : Eff (option string) HostEvent unit :=
  vscodeExecutablePath ←
    downloadAndUnzipVSCode world (vscodeVersion config);
  call tt
    (installExtensions world vscodeExecutablePath (userDataDir config)
       (uninstallExtensionIDs config) (additionalExtensionFolders config));;
  (* Set environment variables. *)
  let extensionTestsEnv := extensionTestsEnvFor isCoverage config in
  let extensionTestsPath := extensionTestsPathFor isCoverage in
  (if initWorkspace config then
     (* Start with an empty workspace *)
     mkdirs world (Path.dirname (workspacePath config));;
     writeJson world (workspacePath config) emptyWorkspace;;
     setLocal (Some (workspacePath config))
   else mret tt);;
  let launchArgs := launchArgsFor config in
  runTests world
    {| rt_vscodeExecutablePath := vscodeExecutablePath;
       rt_extensionDevelopmentPath := extensionDevelopmentPath config;
       rt_extensionTestsPath := extensionTestsPath;
       rt_launchArgs := launchArgs;
       rt_extensionTestsEnv := extensionTestsEnv |}.

(** The [finally] block of [runVSCodeTests]. *)
Definition runVSCodeTestsCleanup : Eff (option string) HostEvent unit :=
  workspaceFileToDelete ← getLocal;
  match workspaceFileToDelete with
  | Some file =>
      tryCatch (unlink world file)
        (fun e =>
           consoleError
             [JsString ("Could not delete workspace file at path " +:+ file);
              JsString e])
  | None => mret tt
  end.

Definition runVSCodeTests (isCoverage : bool)
    (config : ResolvedConfiguration) : Eff (option string) HostEvent unit :=
  setLocal None;;
  tryFinally (runVSCodeTestsBody isCoverage config) runVSCodeTestsCleanup.

End RunVSCodeTests.

End VscodeTests.

(** ** [src/vscode-tests.ts]: the command-line entry *)
Module CommandLine.

Import VscodeTests.

(** What [yargs(processArgs).options(options).argv] does. On [--help],
    on [--version] and on arguments that do not fit the declared options,
    yargs prints and ends the process itself, with an exit code of its
    own; otherwise it gives the [config] and [coverage] options, parsed
    against their declared types. What yargs prints is not recorded. *)
Inductive YargsOutcome : Type :=
| YargsExits (code : nat)
| YargsArgv (config : option string) (coverage : bool).

(** The [config] of a cosmiconfig result is whatever the file holds:
    [undefined] for an empty file, [null], or a value on which properties
    can be read, given by what its properties read as (a boolean, a number,
    a string or an array has none of the configuration properties). *)
Inductive ConfigurationValue : Type :=
| ConfigUndefined
| ConfigNull
| ConfigReadable (properties : gmap string JsValue).

(** What cosmiconfig returns for a configuration file it has read. *)
Record CosmiconfigResult : Type := {
  filepath : string;
  config : ConfigurationValue
}.

(** How a function that may end the process ends: the process is gone
    with an exit code, or the function has returned or thrown. *)
Inductive Ending (A : Type) : Type :=
| Exited (code : nat)
| Settled (r : Result A).
Arguments Exited {A} code.
Arguments Settled {A} r.

(** A computation that may end the process. *)
Definition Proc (L A : Type) : Type :=
  L * list HostEvent -> Ending A * (L * list HostEvent).

Section Entry.

Variable world : World.

(** The file system as it is while the configuration is resolved. *)
Variable pathExists : string -> bool.
Variable stat : string -> Result Stats.

Variable yargs : list string -> YargsOutcome.

(** The cosmiconfig explorer of ["vscode-test-cli"]: [null] when there is
    no configuration file. *)
Variable load : string -> Result (option CosmiconfigResult).
Variable search : Result (option CosmiconfigResult).

(** The message of the [TypeError] that the engine throws on reading the
    property [key] of [undefined] or [null]; its wording depends on the
    engine. *)
Variable cannotReadProperty : ConfigurationValue -> string -> string.

(** The left case is the process ended by yargs. *)
Definition readCommandLineParameters (processArgs : list string)
  : nat + (option string * bool) :=
  match yargs processArgs with
  | YargsExits code => inl code
  | YargsArgv config coverage => inr (config, coverage)
  end.

Definition readConfiguration (configPath : option string)
  : Result CosmiconfigResult :=
  configResult ←
    match configPath with
    | Some configPath => load (Path.resolve (w_cwd world) [configPath])
    | None => search
    end;
  match configResult with
  | None =>
      Throw "No configuration file found. Use --config option to specify the configuration file path."
  | Some configResult => Ok configResult
  end.

(** [validateAndResolveConfiguration] on what a configuration file holds:
    its first read, of [config.extensionDevelopmentPath], throws on
    [undefined] and on [null]. *)
Definition validateAndResolveFileContent (configPath : string)
    (config : ConfigurationValue) (isCoverage : bool)
  : Result ResolvedConfiguration :=
  match config with
  | ConfigReadable properties =>
      validateAndResolveConfiguration (w_cwd world) pathExists stat
        configPath properties isCoverage
  | _ => Throw (cannotReadProperty config "extensionDevelopmentPath")
  end.

(** Awaiting something that touches nothing of the outside world the
    trace records. *)
Definition await {L A} (r : Result A) : Eff L HostEvent A :=
  fun st => (r, st).

Definition runTestsFromCommandLineInner {L} (processArgs : list string)
  : Proc L unit :=
  fun st =>
    match readCommandLineParameters processArgs with
    | inl code => (Exited code, st)
    | inr (configPath, isCoverage) =>
        let '(r, st') :=
          (configResult ← await (readConfiguration configPath);
           config ←
             await (validateAndResolveFileContent (filepath configResult)
                      (config configResult) isCoverage);
           call None (runVSCodeTests world isCoverage config)) st in
        (Settled r, st')
    end.

(** [process.exit(exitCode)], with the local variable [exitCode]. *)
Definition processExit (st : nat * list HostEvent)
  : nat * (nat * list HostEvent) :=
  (fst st, st).

(** The exit code of the process, and the state it ends in. When the
    process is ended inside the [try] block, neither the [catch] nor the
    [finally] block runs; otherwise the [finally] block ends it. *)
Definition runTestsFromCommandLine (processArgs : list string)
    (st : nat * list HostEvent) : nat * (nat * list HostEvent) :=
  match runTestsFromCommandLineInner processArgs (0, snd st) with
  | (Exited code, st') => (code, st')
  | (Settled (Ok _), st') => processExit st'
  | (Settled (Throw err), st') =>
      processExit
        (snd ((setLocal 1;;
               consoleError [JsString "Failed to run tests"; JsString err])
                st'))
  end.

End Entry.

End CommandLine.

(** ** [src/mocha-tests.ts]: the in-host test executor *)
Module MochaTests.

(** How a call of [mocha.run(callback)] ends: it throws while starting, or
    the runner calls back with the number of failed tests. *)
Inductive MochaRunOutcome : Type :=
| RunThrows (message : string)
| RunReports (failures : nat).

Inductive TestEvent : Type :=
| ERequireConfig (path : string) (r : Result (gmap string JsValue))
| ERequireModule (module : string) (r : Result unit)
| ENewMocha (options : gmap string JsValue) (r : Result unit)
| EGlob (pattern cwd : string) (r : Result (list string))
| EAddFile (file : string)
| EMochaRun (outcome : MochaRunOutcome)
| EConsoleError (message : string).

(** The host process the executor runs in. *)
Record Host : Type := {
  h_env : gmap string string;
  h_cwd : string;
  h_requireConfig : list TestEvent -> string -> Result (gmap string JsValue);
  h_requireModule : list TestEvent -> string -> Result unit;
  h_newMocha : list TestEvent -> gmap string JsValue -> Result unit;
  h_glob : list TestEvent -> string -> string -> Result (list string);
  h_mochaRun : list TestEvent -> MochaRunOutcome
}.

Section Executor.

Variable host : Host.
Context {L : Type}.

Definition requireConfig (path : string)
  : Eff L TestEvent (gmap string JsValue) :=
  attempt (fun trace => h_requireConfig host trace path)
    (ERequireConfig path).

Definition requireModule (module : string) : Eff L TestEvent unit :=
  attempt (fun trace => h_requireModule host trace module)
    (ERequireModule module).

Definition newMocha (options : gmap string JsValue) : Eff L TestEvent unit :=
  attempt (fun trace => h_newMocha host trace options) (ENewMocha options).

Definition glob (pattern cwd : string) : Eff L TestEvent (list string) :=
  attempt (fun trace => h_glob host trace pattern cwd) (EGlob pattern cwd).

Definition addFile (file : string) : Eff L TestEvent unit :=
  perform (fun _ => tt) (fun _ => EAddFile file).

Definition mochaRun : Eff L TestEvent MochaRunOutcome :=
  perform (h_mochaRun host) EMochaRun.

Definition consoleError (message : string) : Eff L TestEvent unit :=
  perform (fun _ => tt) (fun _ => EConsoleError message).

(** Returns the glob pattern and the configuration without its [spec]. *)
Definition handleSpec (config : gmap string JsValue)
  : Eff L TestEvent (string * gmap string JsValue) :=
  (* Get the spec glob pattern from the config file *)
  match prop config "spec" with
  | JsString spec => mret (spec, delete "spec" config)
  | spec =>
      throw ("spec property in Mocha configuration must be a string. Unexpected value: "
             +:+ toJsString spec)
  end.

(** The [for ... of] loop of [handleRequire]. *)
Fixpoint requireEach (requireModules : list JsValue)
  : Eff L TestEvent unit :=
  match requireModules with
  | [] => mret tt
  | JsString module :: rest => requireModule module;; requireEach rest
  | module :: _ =>
      throw ("require property in Mocha configuration must be a string or array of strings. Unexpected value: "
             +:+ toJsString module)
  end.

(** Returns the configuration without its [require]. *)
Definition handleRequire (config : gmap string JsValue)
  : Eff L TestEvent (gmap string JsValue) :=
  let requireModules := prop config "require" in
  let config := delete "require" config in
  let requireModules :=
    match requireModules with
    | JsString single => JsArray [requireModules]
    | _ => requireModules
    end in
  match requireModules with
  | JsArray modules => requireEach modules
  | _ => mret tt
  end;;
  mret config.

Fixpoint addFiles (mochaCwd : string) (files : list string)
  : Eff L TestEvent unit :=
  match files with
  | [] => mret tt
  | f :: rest =>
      addFile (Path.resolve (h_cwd host) [mochaCwd; f]);;
      addFiles mochaCwd rest
  end.

Definition runMocha (globPattern : string) (config : gmap string JsValue)
    (mochaCwd : string) : Eff L TestEvent unit :=
  newMocha config;;
  files ← glob globPattern mochaCwd;
  addFiles mochaCwd files;;
  outcome ← mochaRun;
  match outcome with
  | RunReports failures =>
      if Nat.ltb 0 failures
      then throw (pretty failures +:+ " tests failed.")
      else mret tt
  | RunThrows err => throw err
  end.

Definition run : Eff L TestEvent unit :=
  tryCatch
    (let mochaCwd := h_env host !! ENV_VAR_MOCHA_CWD in
     let configPath := h_env host !! ENV_VAR_MOCHA_CONFIG_PATH in
     match configPath, mochaCwd with
     | Some configPath, Some mochaCwd =>
         config ← requireConfig configPath;
         (* Handle special properties from config file *)
         '(globPattern, config) ← handleSpec config;
         config ← handleRequire config;
         runMocha globPattern config mochaCwd
     | _, _ =>
         throw ("The following environment variables must be defined for mocha tests: "
                +:+ ENV_VAR_MOCHA_CWD +:+ ", " +:+ ENV_VAR_MOCHA_CONFIG_PATH)
     end)
    (fun e => consoleError e;; throw e).

End Executor.

End MochaTests.

(** ** [src/nyc-coverage.ts]: the in-host coverage wrapper *)
Module NycCoverage.

(** A member of an imported module, as far as lodash's [isFunction] tells. *)
Inductive Member : Type :=
| MemberFunction
| MemberValue (value : JsValue).

(** What [require(baseRunPath)] returns, as far as lodash's
    [isPlainObject] tells. *)
Inductive Imported : Type :=
| PlainObject (members : gmap string Member)
| NotPlainObject.

Inductive CoverageEvent : Type :=
| ERequireBase (path : string) (r : Result Imported)
| ERequireNycConfig (path : string) (r : Result (gmap string JsValue))
| ENewNyc (options : gmap string JsValue) (r : Result unit)
| EReset (r : Result unit)
| EAddAllFiles (r : Result unit)
| EWrap (r : Result unit)
| EBaseRun (r : Result unit)
| EWriteProcessIndex (r : Result unit)
| EWriteCoverageFile (r : Result unit)
| EConsoleLog (message : string).

(** The host process the wrapper runs in, with the [nyc] package and the
    module at the base test path. *)
Record Host : Type := {
  h_env : gmap string string;
  h_requireBase : list CoverageEvent -> string -> Result Imported;
  h_requireNycConfig :
    list CoverageEvent -> string -> Result (gmap string JsValue);
  h_newNyc : list CoverageEvent -> gmap string JsValue -> Result unit;
  h_reset : list CoverageEvent -> Result unit;
  h_addAllFiles : list CoverageEvent -> Result unit;
  h_wrap : list CoverageEvent -> Result unit;
  h_baseRun : list CoverageEvent -> Result unit;
  h_writeProcessIndex : list CoverageEvent -> Result unit;
  h_writeCoverageFile : list CoverageEvent -> Result unit
}.

(** The character that delimits strings. *)
Definition quote : string := String "034"%char "".

Section Wrapper.

Variable host : Host.
Context {L : Type}.

Definition requireBase (path : string) : Eff L CoverageEvent Imported :=
  attempt (fun trace => h_requireBase host trace path) (ERequireBase path).

Definition requireNycConfig (path : string)
  : Eff L CoverageEvent (gmap string JsValue) :=
  attempt (fun trace => h_requireNycConfig host trace path)
    (ERequireNycConfig path).

Definition newNyc (options : gmap string JsValue)
  : Eff L CoverageEvent unit :=
  attempt (fun trace => h_newNyc host trace options) (ENewNyc options).

Definition reset : Eff L CoverageEvent unit :=
  attempt (h_reset host) EReset.

Definition addAllFiles : Eff L CoverageEvent unit :=
  attempt (h_addAllFiles host) EAddAllFiles.

Definition wrap : Eff L CoverageEvent unit :=
  attempt (h_wrap host) EWrap.

Definition baseRun : Eff L CoverageEvent unit :=
  attempt (h_baseRun host) EBaseRun.

Definition writeProcessIndex : Eff L CoverageEvent unit :=
  attempt (h_writeProcessIndex host) EWriteProcessIndex.

Definition writeCoverageFile : Eff L CoverageEvent unit :=
  attempt (h_writeCoverageFile host) EWriteCoverageFile.

Definition consoleLog (message : string) : Eff L CoverageEvent unit :=
  perform (fun _ => tt) (fun _ => EConsoleLog message).

(** [value === true]. *)
Definition isTrue (value : JsValue) : bool :=
  match value with
  | JsBool true => true
  | _ => false
  end.

(** The argument of the [Nyc] constructor: the configuration file's
    content, overridden. *)
Definition nycOptions (nycConfig : gmap string JsValue) (nycCwd : string)
  : gmap string JsValue :=
  <["hookRunInThisContext" := JsBool true]>
    (<["hookRunInContext" := JsBool true]>
       (<["hookRequire" := JsBool true]>
          (* Integrate with vs code *)
          (<["instrument" := JsBool true]>
             (<["cwd" := JsString nycCwd]> nycConfig)))).

(** The [Nyc] instance it returns is the one the host's [nyc] calls act
    on. *)
Definition setupCoverage : Eff L CoverageEvent unit :=
  let nycCwd := h_env host !! ENV_VAR_NYC_CWD in
  let nyConfigPath := h_env host !! ENV_VAR_NYC_CONFIG_PATH in
  match nyConfigPath, nycCwd with
  | Some nyConfigPath, Some nycCwd =>
      nycConfig ← requireNycConfig nyConfigPath;
      newNyc (nycOptions nycConfig nycCwd);;
      reset;;
      (if isTrue (prop nycConfig "all") then addAllFiles else mret tt);;
      wrap
  | _, _ =>
      throw ("The following environment variables must be defined for nyc: "
             +:+ ENV_VAR_NYC_CWD +:+ ", " +:+ ENV_VAR_NYC_CONFIG_PATH)
  end.

Definition run : Eff L CoverageEvent unit :=
  tryCatch
    (match h_env host !! ENV_VAR_BASE_TEST_PATH with
     | None =>
         throw ("The following environment variable must be defined for coverage: "
                +:+ ENV_VAR_BASE_TEST_PATH)
     | Some baseRunPath =>
         baseRunImport ← requireBase baseRunPath;
         match baseRunImport with
         | NotPlainObject =>
             throw ("The import result of " +:+ baseRunPath
                    +:+ " must be an object")
         | PlainObject baseRunImportObj =>
             match baseRunImportObj !! "run" with
             | Some MemberFunction =>
                 setupCoverage;;
                 tryFinally baseRun
                   ((* Write coverage files *)
                    writeProcessIndex;;
                    writeCoverageFile)
             | _ =>
                 throw (baseRunPath +:+ " must export a " +:+ quote
                        +:+ "run" +:+ quote +:+ " function")
             end
         end
     end)
    (fun e => consoleLog e;; throw e).

End Wrapper.

End NycCoverage.

(** ** Vocabulary of the statements *)

Import VscodeTests.

Definition isStringOrUndefined (value : JsValue) : bool :=
  isOk (assertStringOrUndefinedParameter "" value).

Definition isStringArrayOrUndefined (value : JsValue) : bool :=
  isOk (assertStringArrayOrUndefinedParameter "" value).

(** The six fields that [validateAndResolveConfiguration] checks before it
    looks at [mochaConfigPath] have an acceptable type. *)
Definition validBeforeMochaConfigPath (config : gmap string JsValue) : bool :=
  isStringOrUndefined (prop config "extensionDevelopmentPath")
  && isStringOrUndefined (prop config "userDataDir")
  && isStringOrUndefined (prop config "vscodeVersion")
  && isStringArrayOrUndefined (prop config "uninstallExtensionIDs")
  && isStringArrayOrUndefined (prop config "disabledExtensionIDs")
  && isStringArrayOrUndefined (prop config "additionalExtensionFolders").

Definition isString (value : JsValue) : bool :=
  match value with JsString _ => true | _ => false end.

(** Everything checked before [workspacePath] passes. *)
Definition validBeforeWorkspacePath (config : gmap string JsValue)
    (isCoverage : bool) : bool :=
  validBeforeMochaConfigPath config
  && isString (prop config "mochaConfigPath")
  && (negb isCoverage || isString (prop config "nycConfigPath")).

(** The directory the paths of a configuration file are relative to. *)
Definition configDir (cwd configPath : string) : string :=
  Path.resolve cwd [configPath; ".."].

(** One [spawnSync] call: command, arguments, [stdio] mode, and what came
    back. *)
Definition SpawnCall : Type := string * list string * Stdio * SpawnSyncReturns.

Definition spawnCall (e : HostEvent) : option SpawnCall :=
  match e with
  | ESpawnSync command args stdio r => Some (command, args, stdio, r)
  | _ => None
  end.

(** The subprocess invocations of a trace, in order. *)
Definition spawnCalls (trace : list HostEvent) : list SpawnCall :=
  omap spawnCall trace.

(** After a first install invocation: one more invocation of the same
    command with the same arguments, output passed through, when the captured
    [stderr] shows the transient failure; nothing otherwise. *)
Definition retriedOnce (first : SpawnCall) (after : list SpawnCall) : Prop :=
  let '(command, args, _, result) := first in
  if installFailedAskingForRestart result
  then exists result', after = [(command, args, Inherit, result')]
  else after = [].

(** The events the extension provisioner may emit. *)
Definition isProvisioning (e : HostEvent) : bool :=
  match e with
  | EPathExists _ _ | EReaddir _ _ | ESpawnSync _ _ _ _
  | EConsoleLog _ | EConsoleError _ => true
  | _ => false
  end.



(** What the extension manager prints when it refuses to reinstall. *)
Definition restartMessage : string :=
  "Please restart VS Code before reinstalling dep. Failed Installing Extensions: /deps/dep.vsix".

Definition failedInstall : SpawnSyncReturns :=
  {| stdout := Some ""; stderr := Some restartMessage |}.

Definition quietSpawn : SpawnSyncReturns :=
  {| stdout := None; stderr := None |}.

(** A world for examples: every folder exists and holds [dep.vsix] and a
    read-me; a piped install fails asking for a restart; the download, the
    file system and the host all succeed. *)
Definition demoWorld : World :=
  {| w_platform := "linux";
     w_cwd := "/cwd";
     w_dirname := "/app/dist/src";
     w_resolveCliPathFromVSCodeExecutablePath := fun _ => "vscode-cli-path";
     w_downloadAndUnzipVSCode := fun _ _ => Ok "vscode-path";
     w_spawnSync := fun _ _ _ stdio =>
       match stdio with
       | Pipe => failedInstall
       | Inherit => quietSpawn
       end;
     w_pathExists := fun _ _ => true;
     w_readdir := fun _ _ => Ok ["dep.vsix"; "README.md"];
     w_mkdirs := fun _ _ => Ok tt;
     w_writeJson := fun _ _ _ => Ok tt;
     w_unlink := fun _ _ => Ok tt;
     w_runTests := fun _ _ => Ok tt |}.

(** What provisioning does in [demoWorld] when asked to uninstall
    [old.ext] and to install from [/deps]. *)
Definition demoInstallArgs : list string :=
  ["--install-extension"; "/deps/dep.vsix"; "--force"].

Definition demoProvisioning : list HostEvent :=
  [EPathExists "/deps" true;
   EReaddir "/deps" (Ok ["dep.vsix"; "README.md"]);
   ESpawnSync "vscode-cli-path"
     ["--uninstall-extension"; "old.ext"; "--force"] Inherit quietSpawn;
   ESpawnSync "vscode-cli-path" demoInstallArgs Pipe failedInstall;
   EConsoleLog [JsString ""];
   EConsoleError [JsString restartMessage];
   EConsoleLog [JsString "Retrying installation..."];
   ESpawnSync "vscode-cli-path" demoInstallArgs Inherit quietSpawn].



(** What is printed when the descriptor cannot be deleted. *)
Definition deletionLog (workspace : string) (deleted : Result unit)
  : list HostEvent :=
  match deleted with
  | Ok _ => []
  | Throw e =>
      [EConsoleError
         [JsString ("Could not delete workspace file at path " +:+ workspace);
          JsString e]]
  end.




(** A valid coverage configuration with every path field set. *)
Definition allPathsConfig : gmap string JsValue :=
  <["extensionDevelopmentPath" := JsString "ext"]>
    (<["userDataDir" := JsString "data"]>
       (<["nycConfigPath" := JsString "nyc.config.js"]>
          (<["workspacePath" := JsString "../w.code-workspace"]>
             (<["additionalExtensionFolders" :=
                  JsArray [JsString "deps"; JsString ".."]]>
                {[ "mochaConfigPath" := JsString "mocha.config.js" ]})))).

Definition resolvedAllPaths : ResolvedConfiguration :=
  {| extensionDevelopmentPath := "/proj/ext";
     workspacePath := "/w.code-workspace";
     initWorkspace := true;
     mochaConfigPath := "/proj/mocha.config.js";
     nycConfigPath := Some "/proj/nyc.config.js";
     userDataDir := Some "/proj/data";
     vscodeVersion := None;
     additionalExtensionFolders := Some ["/proj/deps"; "/"];
     uninstallExtensionIDs := None;
     disabledExtensionIDs := None;
     disableAllExtensions := false |}.

(** A small file system used in examples: [/proj] is a folder, and so is
    [/proj/ws.code-workspace]; nothing else exists. *)
Definition demoExists (p : string) : bool :=
  String.eqb p "/proj" || String.eqb p "/proj/ws.code-workspace".
Definition demoStat (p : string) : Result Stats :=
  if demoExists p then Ok {| isDirectory := true |}
  else Throw ("ENOENT: no such file or directory, stat '" +:+ p +:+ "'").

Definition demoResolve :=
  validateAndResolveConfiguration "/cwd" demoExists demoStat
    "/proj/config.json".

Definition minimalConfig : gmap string JsValue :=
  {[ "mochaConfigPath" := JsString "mocha.config.js" ]}.

Definition resolvedMinimal : ResolvedConfiguration :=
  {| extensionDevelopmentPath := "/proj";
     workspacePath := "/proj/test.code-workspace";
     initWorkspace := true;
     mochaConfigPath := "/proj/mocha.config.js";
     nycConfigPath := None;
     userDataDir := None;
     vscodeVersion := None;
     additionalExtensionFolders := None;
     uninstallExtensionIDs := None;
     disabledExtensionIDs := None;
     disableAllExtensions := true |}.

(** No [mochaConfigPath], and an [extensionDevelopmentPath] of the wrong
    type. *)
Definition badTypeConfig : gmap string JsValue :=
  {[ "extensionDevelopmentPath" := JsBool true ]}.

(** [initWorkspace: true] on the folder [/proj]. *)
Definition initFolderConfig : gmap string JsValue :=
  <["initWorkspace" := JsBool true]>
    (<["workspacePath" := JsString "."]> minimalConfig).

(** [initWorkspace: true] on [/proj/ws.code-workspace], which is a folder. *)
Definition initSuffixedFolderConfig : gmap string JsValue :=
  <["initWorkspace" := JsBool true]>
    (<["workspacePath" := JsString "ws.code-workspace"]> minimalConfig).




(** The reports of the test runner in a trace, in order. *)
Definition mochaRunOutcomes (trace : list MochaTests.TestEvent)
  : list MochaTests.MochaRunOutcome :=
  omap (fun e => match e with
                 | MochaTests.EMochaRun outcome => Some outcome
                 | _ => None
                 end) trace.

(** The file discoveries of a trace: pattern and working directory. *)
Definition globCalls (trace : list MochaTests.TestEvent)
  : list (string * string) :=
  omap (fun e => match e with
                 | MochaTests.EGlob pattern cwd _ => Some (pattern, cwd)
                 | _ => None
                 end) trace.

(** How [runMocha] settles its promise on an outcome of [mocha.run]. *)
Definition settled (outcome : MochaTests.MochaRunOutcome) : Result unit :=
  match outcome with
  | MochaTests.RunReports failures =>
      if Nat.ltb 0 failures
      then Throw (pretty failures +:+ " tests failed.")
      else Ok tt
  | MochaTests.RunThrows err => Throw err
  end.

(** A host for examples: the configuration file holds [config], one test
    file is found, and the runner reports [failures] failed tests. *)
Definition hostReporting (config : gmap string JsValue) (failures : nat)
  : MochaTests.Host :=
  {| MochaTests.h_env :=
       <[ENV_VAR_MOCHA_CONFIG_PATH := "/proj/mocha.config.js"]>
         (<[ENV_VAR_MOCHA_CWD := "/proj"]> ∅);
     MochaTests.h_cwd := "/";
     MochaTests.h_requireConfig := fun _ _ => Ok config;
     MochaTests.h_requireModule := fun _ _ => Ok tt;
     MochaTests.h_newMocha := fun _ _ => Ok tt;
     MochaTests.h_glob := fun _ _ _ => Ok ["test/a.test.js"];
     MochaTests.h_mochaRun := fun _ => MochaTests.RunReports failures |}.

Definition plainMochaConfig : gmap string JsValue :=
  <["color" := JsBool false]> {[ "spec" := JsString "test/**/*.test.js" ]}.

(** A mocha configuration whose [require] is a number. *)
Definition numberRequireConfig : gmap string JsValue :=
  <["require" := JsNumber 5]> plainMochaConfig.

Definition plainMochaOptions : gmap string JsValue :=
  {[ "color" := JsBool false ]}.

(** What [run] does on [hostReporting plainMochaConfig 1] ... *)
Definition failedRunEvents : list MochaTests.TestEvent :=
  [MochaTests.ERequireConfig "/proj/mocha.config.js" (Ok plainMochaConfig);
   MochaTests.ENewMocha plainMochaOptions (Ok tt);
   MochaTests.EGlob "test/**/*.test.js" "/proj" (Ok ["test/a.test.js"]);
   MochaTests.EAddFile "/proj/test/a.test.js";
   MochaTests.EMochaRun (MochaTests.RunReports 1);
   MochaTests.EConsoleError "1 tests failed."].

(** ... and on [hostReporting numberRequireConfig 0]. *)
Definition numberRequireEvents : list MochaTests.TestEvent :=
  [MochaTests.ERequireConfig "/proj/mocha.config.js" (Ok numberRequireConfig);
   MochaTests.ENewMocha plainMochaOptions (Ok tt);
   MochaTests.EGlob "test/**/*.test.js" "/proj" (Ok ["test/a.test.js"]);
   MochaTests.EAddFile "/proj/test/a.test.js";
   MochaTests.EMochaRun (MochaTests.RunReports 0)].

(** ** Vocabulary of the further properties *)

Definition isBooleanOrUndefined (value : JsValue) : bool :=
  match value with
  | JsUndefined | JsBool _ => true
  | _ => false
  end.

(** The keys of a configuration file that the resolver reads. *)
Definition configurationKeys : list string :=
  ["extensionDevelopmentPath"; "userDataDir"; "vscodeVersion";
   "uninstallExtensionIDs"; "disabledExtensionIDs";
   "additionalExtensionFolders"; "mochaConfigPath"; "nycConfigPath";
   "workspacePath"; "initWorkspace"; "disableAllExtensions"].

(** A configuration with a key the resolver does not know, pass-through
    fields, and a folder as workspace. *)
Definition richConfig : gmap string JsValue :=
  <["comment" := JsString "not a known key"]>
    (<["vscodeVersion" := JsString "insiders"]>
       (<["uninstallExtensionIDs" := JsArray [JsString "pub.old"]]>
          (<["workspacePath" := JsString "."]>
             (<["initWorkspace" := JsBool false]> minimalConfig)))).

Definition resolvedRich : ResolvedConfiguration :=
  {| extensionDevelopmentPath := "/proj";
     workspacePath := "/proj";
     initWorkspace := false;
     mochaConfigPath := "/proj/mocha.config.js";
     nycConfigPath := None;
     userDataDir := None;
     vscodeVersion := Some "insiders";
     additionalExtensionFolders := None;
     uninstallExtensionIDs := Some ["pub.old"];
     disabledExtensionIDs := None;
     disableAllExtensions := true |}.

(** A workspace path that is neither a workspace file nor a folder. *)
Definition unknownWorkspaceConfig : gmap string JsValue :=
  <["workspacePath" := JsString "unknownPath"]> minimalConfig.

(** The files of a folder listing that are extension packages. *)
Definition vsixFiles (files : list string) : list string :=
  List.filter (fun fileName => endsWith fileName ".vsix") files.

(** The install arguments for one listed folder. *)
Definition vsixArgs (vsixFolder : string) (files : list string) : list string :=
  List.flat_map
    (fun vsixFile => ["--install-extension"; Path.join [vsixFolder; vsixFile]])
    (vsixFiles files).

(** The folders whose existence a trace has asked for, in order. *)
Definition probedFolders (trace : list HostEvent) : list string :=
  omap (fun e => match e with
                 | EPathExists folder _ => Some folder
                 | _ => None
                 end) trace.

(** The folder listings a trace has obtained, in order. *)
Definition listings (trace : list HostEvent) : list (string * list string) :=
  omap (fun e => match e with
                 | EReaddir folder (Ok files) => Some (folder, files)
                 | _ => None
                 end) trace.

(** The install arguments for all the listings of a trace. *)
Definition listedInstallArgs (trace : list HostEvent) : list string :=
  List.flat_map (fun listing => vsixArgs listing.1 listing.2) (listings trace).

Definition missingFolderMessage (vsixFolder : string) : string :=
  "Folder " +:+ vsixFolder
  +:+ " which contains *.vsix dependencies does not exist".

Definition noVsixMessage (vsixFolder : string) : string :=
  "Could not find *.vsix files in " +:+ vsixFolder.

(** With the arguments found so far in front. *)
Definition listedAfter (installArgs : list string)
    (r : Result (list string)) : Result (list string) :=
  match r with
  | Ok listed => Ok (installArgs ++ listed)
  | Throw e => Throw e
  end.

(** What [getInstallArgsFromInstallationFolders] does on a list of folders:
    it asks for each folder in turn whether it exists, lists it, and stops
    at the first one that is missing, unreadable or without a package. *)
Inductive Probes : list string -> Result (list string) -> list HostEvent
                   -> Prop :=
| ProbesDone : Probes [] (Ok []) []
| ProbesMissing (folder : string) (rest : list string) :
    Probes (folder :: rest) (Throw (missingFolderMessage folder))
      [EPathExists folder false]
| ProbesUnreadable (folder : string) (rest : list string) (e : string) :
    Probes (folder :: rest) (Throw e)
      [EPathExists folder true; EReaddir folder (Throw e)]
| ProbesNoVsix (folder : string) (rest files : list string) :
    vsixFiles files = [] ->
    Probes (folder :: rest) (Throw (noVsixMessage folder))
      [EPathExists folder true; EReaddir folder (Ok files)]
| ProbesNext (folder : string) (rest files : list string)
    (r : Result (list string)) (events : list HostEvent) :
    vsixFiles files <> [] ->
    Probes rest r events ->
    Probes (folder :: rest) (listedAfter (vsixArgs folder files) r)
      (EPathExists folder true :: EReaddir folder (Ok files) :: events).

Definition userDataDirArgs (userDataDir : option string) : list string :=
  match userDataDir with
  | Some dir => [USER_DATA_DIR_PARAM; dir]
  | None => []
  end.

(** The argument lists of the two invocations of the host's command line. *)
Definition uninstallArgsFor (uninstallExtensionIDs : list string)
    (userDataDir : option string) : list string :=
  (List.flat_map (fun id => ["--uninstall-extension"; id])
     uninstallExtensionIDs ++ ["--force"])
  ++ userDataDirArgs userDataDir.

Definition installArgsFor (listed : list string)
    (userDataDir : option string) : list string :=
  (listed ++ ["--force"]) ++ userDataDirArgs userDataDir.

(** The uninstall step: one invocation when there is something to
    uninstall. *)
Definition uninstallSteps (cliPath : string)
    (uninstallExtensionIDs : list string) (userDataDir : option string)
    (result : SpawnSyncReturns) : list HostEvent :=
  if Nat.ltb 0 (List.length uninstallExtensionIDs)
  then [ESpawnSync cliPath (uninstallArgsFor uninstallExtensionIDs userDataDir)
          Inherit result]
  else [].

(** The install step: when there are folders to install from, one captured
    invocation whose output is printed, and its retry. *)
Definition installSteps (cliPath : string) (folders installArgs : list string)
    (result retried : SpawnSyncReturns) : list HostEvent :=
  if Nat.ltb 0 (List.length folders)
  then ESpawnSync cliPath installArgs Pipe result
       :: EConsoleLog [optionToJs (stdout result)]
       :: EConsoleError [optionToJs (stderr result)]
       :: (if installFailedAskingForRestart result
           then [EConsoleLog [JsString "Retrying installation..."];
                 ESpawnSync cliPath installArgs Inherit retried]
           else [])
  else [].

(** The steps of [installExtensions], in the order they are taken. *)
Inductive ProvisioningSteps (world : World) (exe : string)
    (udd : option string) (uninstall install : option (list string))
  : Result unit -> list HostEvent -> Prop :=
| NothingToProvision :
    isUndefinedOrEmpty install && isUndefinedOrEmpty uninstall = true ->
    ProvisioningSteps world exe udd uninstall install (Ok tt) []
| ProbeRejected (e : string) (probes : list HostEvent) :
    isUndefinedOrEmpty install && isUndefinedOrEmpty uninstall = false ->
    Probes (default [] install) (Throw e) probes ->
    ProvisioningSteps world exe udd uninstall install (Throw e) probes
| Provisioned (listed : list string) (probes : list HostEvent)
    (uninstalled installed retried : SpawnSyncReturns) :
    isUndefinedOrEmpty install && isUndefinedOrEmpty uninstall = false ->
    Probes (default [] install) (Ok listed) probes ->
    ProvisioningSteps world exe udd uninstall install (Ok tt)
      (probes
       ++ uninstallSteps (w_resolveCliPathFromVSCodeExecutablePath world exe)
            (default [] uninstall) udd uninstalled
       ++ installSteps (w_resolveCliPathFromVSCodeExecutablePath world exe)
            (default [] install) (installArgsFor listed udd)
            installed retried).
(** The options [runVSCodeTests] gives to [runTests] once the host
    executable [vscodeExecutablePath] is there. *)
Definition launchOptions (world : World) (isCoverage : bool)
    (config : ResolvedConfiguration) (vscodeExecutablePath : string)
  : RunTestsOptions :=
  {| rt_vscodeExecutablePath := vscodeExecutablePath;
     rt_extensionDevelopmentPath := extensionDevelopmentPath config;
     rt_extensionTestsPath := extensionTestsPathFor world isCoverage;
     rt_launchArgs := launchArgsFor config;
     rt_extensionTestsEnv := extensionTestsEnvFor world isCoverage config |}.

(** The steps of [runVSCodeTests], in the order they are taken: what a run
    with outcome [r] has added to the trace. *)
Inductive LaunchSteps (world : World) (isCoverage : bool)
    (config : ResolvedConfiguration) (r : Result unit)
  : list HostEvent -> Prop :=
| DownloadFailed (e : string) :
    r = Throw e ->
    LaunchSteps world isCoverage config r
      [EDownloadAndUnzipVSCode (vscodeVersion config) (Throw e)]
| ProvisioningFailed (exe : string) (provisioning : list HostEvent)
    (e : string) :
    ProvisioningSteps world exe (userDataDir config)
      (uninstallExtensionIDs config) (additionalExtensionFolders config)
      (Throw e) provisioning ->
    r = Throw e ->
    LaunchSteps world isCoverage config r
      (EDownloadAndUnzipVSCode (vscodeVersion config) (Ok exe)
       :: provisioning)
| MkdirsFailed (exe : string) (provisioning : list HostEvent) (e : string) :
    ProvisioningSteps world exe (userDataDir config)
      (uninstallExtensionIDs config) (additionalExtensionFolders config)
      (Ok tt) provisioning ->
    initWorkspace config = true ->
    r = Throw e ->
    LaunchSteps world isCoverage config r
      (EDownloadAndUnzipVSCode (vscodeVersion config) (Ok exe)
       :: provisioning
       ++ [EMkdirs (Path.dirname (workspacePath config)) (Throw e)])
| WriteJsonFailed (exe : string) (provisioning : list HostEvent)
    (e : string) :
    ProvisioningSteps world exe (userDataDir config)
      (uninstallExtensionIDs config) (additionalExtensionFolders config)
      (Ok tt) provisioning ->
    initWorkspace config = true ->
    r = Throw e ->
    LaunchSteps world isCoverage config r
      (EDownloadAndUnzipVSCode (vscodeVersion config) (Ok exe)
       :: provisioning
       ++ [EMkdirs (Path.dirname (workspacePath config)) (Ok tt);
           EWriteJson (workspacePath config) emptyWorkspace (Throw e)])
| LaunchedOnDescriptor (exe : string) (provisioning : list HostEvent)
    (deleted : Result unit) :
    ProvisioningSteps world exe (userDataDir config)
      (uninstallExtensionIDs config) (additionalExtensionFolders config)
      (Ok tt) provisioning ->
    initWorkspace config = true ->
    LaunchSteps world isCoverage config r
      (EDownloadAndUnzipVSCode (vscodeVersion config) (Ok exe)
       :: provisioning
       ++ [EMkdirs (Path.dirname (workspacePath config)) (Ok tt);
           EWriteJson (workspacePath config) emptyWorkspace (Ok tt);
           ERunTests (launchOptions world isCoverage config exe) r;
           EUnlink (workspacePath config) deleted]
       ++ deletionLog (workspacePath config) deleted)
| LaunchedInPlace (exe : string) (provisioning : list HostEvent) :
    ProvisioningSteps world exe (userDataDir config)
      (uninstallExtensionIDs config) (additionalExtensionFolders config)
      (Ok tt) provisioning ->
    initWorkspace config = false ->
    LaunchSteps world isCoverage config r
      (EDownloadAndUnzipVSCode (vscodeVersion config) (Ok exe)
       :: provisioning
       ++ [ERunTests (launchOptions world isCoverage config exe) r]).

(** The probes of the file system made by the provisioner. *)
Definition isProbe (e : HostEvent) : bool :=
  match e with
  | EPathExists _ _ | EReaddir _ _ => true
  | _ => false
  end.

(** A Windows world, otherwise like [demoWorld]. *)
Definition windowsWorld : World :=
  {| w_platform := "win32";
     w_cwd := w_cwd demoWorld;
     w_dirname := w_dirname demoWorld;
     w_resolveCliPathFromVSCodeExecutablePath :=
       w_resolveCliPathFromVSCodeExecutablePath demoWorld;
     w_downloadAndUnzipVSCode := w_downloadAndUnzipVSCode demoWorld;
     w_spawnSync := w_spawnSync demoWorld;
     w_pathExists := w_pathExists demoWorld;
     w_readdir := w_readdir demoWorld;
     w_mkdirs := w_mkdirs demoWorld;
     w_writeJson := w_writeJson demoWorld;
     w_unlink := w_unlink demoWorld;
     w_runTests := w_runTests demoWorld |}.

(** The phase of a run of [runVSCodeTests] an event belongs to: 0 the
    download of the host, 1 the provisioning of extensions, 2 and 3 the
    set-up of the workspace, 4 the host run, 5 the clean-up. What goes to
    [console.error] is printed in more than one phase and has none. *)
Definition phase (e : HostEvent) : option nat :=
  match e with
  | EDownloadAndUnzipVSCode _ _ => Some 0
  | EPathExists _ _ | EReaddir _ _ | ESpawnSync _ _ _ _ | EConsoleLog _ =>
      Some 1
  | EMkdirs _ _ => Some 2
  | EWriteJson _ _ _ => Some 3
  | ERunTests _ _ => Some 4
  | EUnlink _ _ => Some 5
  | EConsoleError _ => None
  end.

(** The phases that consist of a single call. *)
Definition milestone (e : HostEvent) : option nat :=
  match e with
  | EPathExists _ _ | EReaddir _ _ | ESpawnSync _ _ _ _ | EConsoleLog _ =>
      None
  | _ => phase e
  end.

(** The five keys of the cross-process context. *)
Definition contextKeys : list string :=
  [ENV_VAR_MOCHA_CWD; ENV_VAR_MOCHA_CONFIG_PATH; ENV_VAR_NYC_CWD;
   ENV_VAR_NYC_CONFIG_PATH; ENV_VAR_BASE_TEST_PATH].

(** What a coverage run on [resolvedAllPaths] adds to the trace in
    [demoWorld]: every phase is there. *)
Definition fullInstallArgs : list string :=
  ["--install-extension"; "/proj/deps/dep.vsix";
   "--install-extension"; "/dep.vsix"; "--force";
   "--user-data-dir"; "/proj/data"].

Definition fullLaunchEvents : list HostEvent :=
  [EDownloadAndUnzipVSCode None (Ok "vscode-path");
   EPathExists "/proj/deps" true;
   EReaddir "/proj/deps" (Ok ["dep.vsix"; "README.md"]);
   EPathExists "/" true;
   EReaddir "/" (Ok ["dep.vsix"; "README.md"]);
   ESpawnSync "vscode-cli-path" fullInstallArgs Pipe failedInstall;
   EConsoleLog [JsString ""];
   EConsoleError [JsString restartMessage];
   EConsoleLog [JsString "Retrying installation..."];
   ESpawnSync "vscode-cli-path" fullInstallArgs Inherit quietSpawn;
   EMkdirs "/" (Ok tt);
   EWriteJson "/w.code-workspace" emptyWorkspace (Ok tt);
   ERunTests (launchOptions demoWorld true resolvedAllPaths "vscode-path")
     (Ok tt);
   EUnlink "/w.code-workspace" (Ok tt)].


(** The captured invocations. *)
Definition isPiped (e : HostEvent) : bool :=
  match e with
  | ESpawnSync _ _ Pipe _ => true
  | _ => false
  end.

(** A listing where [/proj/deps] holds a package and [/proj/docs] does
    not. *)
Definition docsWorld : World :=
  {| w_platform := w_platform demoWorld;
     w_cwd := w_cwd demoWorld;
     w_dirname := w_dirname demoWorld;
     w_resolveCliPathFromVSCodeExecutablePath :=
       w_resolveCliPathFromVSCodeExecutablePath demoWorld;
     w_downloadAndUnzipVSCode := w_downloadAndUnzipVSCode demoWorld;
     w_spawnSync := w_spawnSync demoWorld;
     w_pathExists := w_pathExists demoWorld;
     w_readdir := fun _ folder =>
       if String.eqb folder "/proj/docs"
       then Ok ["README.md"]
       else Ok ["dep.vsix"; "README.md"];
     w_mkdirs := w_mkdirs demoWorld;
     w_writeJson := w_writeJson demoWorld;
     w_unlink := w_unlink demoWorld;
     w_runTests := w_runTests demoWorld |}.

Definition docsProbes : list HostEvent :=
  [EPathExists "/proj/deps" true;
   EReaddir "/proj/deps" (Ok ["dep.vsix"; "README.md"]);
   EPathExists "/proj/docs" true;
   EReaddir "/proj/docs" (Ok ["README.md"])].

Definition depsProbes : list HostEvent :=
  [EPathExists "/proj/deps" true;
   EReaddir "/proj/deps" (Ok ["dep.vsix"; "README.md"]);
   EPathExists "/" true;
   EReaddir "/" (Ok ["dep.vsix"; "README.md"])].

(** *** The steps of the in-host executor *)

Section ExecutorVocabulary.

Import MochaTests.

(** The modules [handleRequire] goes through: a single string stands for
    the array holding it, and what is neither a string nor an array for no
    module at all. *)
Definition requireList (requireModules : JsValue) : list JsValue :=
  match requireModules with
  | JsString _ => [requireModules]
  | JsArray modules => modules
  | _ => []
  end.

Definition contextMessage : string :=
  "The following environment variables must be defined for mocha tests: "
  +:+ ENV_VAR_MOCHA_CWD +:+ ", " +:+ ENV_VAR_MOCHA_CONFIG_PATH.

Definition specMessage (spec : JsValue) : string :=
  "spec property in Mocha configuration must be a string. Unexpected value: "
  +:+ toJsString spec.

Definition requireMessage (module : JsValue) : string :=
  "require property in Mocha configuration must be a string or array of strings. Unexpected value: "
  +:+ toJsString module.

Definition isJsString (value : JsValue) : bool :=
  match value with
  | JsString _ => true
  | _ => false
  end.

(** The values whose conversion to a string is [toJsString]: a number must
    be an integer that a double holds exactly, so that it is printed in
    plain decimal, and an object may not have a [toString] property of its
    own (which is no function here, and makes the conversion throw) nor a
    prototype of its own; the same for the entries of an array. *)
Fixpoint printsPlainly (value : JsValue) : bool :=
  match value with
  | JsNumber n => (Z.abs n <? 2 ^ 53)%Z
  | JsArray items => forallb printsPlainly items
  | JsObject fields =>
      forallb (fun field =>
                 negb (String.eqb field.1 "toString")
                 && negb (String.eqb field.1 "__proto__")) fields
  | _ => true
  end.

(** What is left of the configuration file for the [Mocha] constructor. *)
Definition mochaOptions (config : gmap string JsValue)
  : gmap string JsValue :=
  delete "require" (delete "spec" config).

(** The loop of [handleRequire] over the modules: each string is required
    in turn, up to the first entry that is not a string or whose loading
    throws. *)
Inductive Loaded : list JsValue -> Result unit -> list TestEvent -> Prop :=
| LoadedAll : Loaded [] (Ok tt) []
| LoadedNext (module : string) (rest : list JsValue) (r : Result unit)
    (events : list TestEvent) :
    Loaded rest r events ->
    Loaded (JsString module :: rest) r
      (ERequireModule module (Ok tt) :: events)
| LoadFailed (module : string) (rest : list JsValue) (e : string) :
    Loaded (JsString module :: rest) (Throw e)
      [ERequireModule module (Throw e)]
| LoadRejected (module : JsValue) (rest : list JsValue) :
    isJsString module = false ->
    Loaded (module :: rest) (Throw (requireMessage module)) [].

(** The test files handed to the runner. *)
Definition addedFiles (host : Host) (mochaCwd : string) (files : list string)
  : list TestEvent :=
  map (fun f => EAddFile (Path.resolve (h_cwd host) [mochaCwd; f])) files.

(** The steps of [runMocha]. *)
Inductive MochaSteps (host : Host) (globPattern : string)
    (options : gmap string JsValue) (mochaCwd : string)
  : Result unit -> list TestEvent -> Prop :=
| MochaRejected (e : string) :
    MochaSteps host globPattern options mochaCwd (Throw e)
      [ENewMocha options (Throw e)]
| GlobRejected (e : string) :
    MochaSteps host globPattern options mochaCwd (Throw e)
      [ENewMocha options (Ok tt); EGlob globPattern mochaCwd (Throw e)]
| MochaRan (files : list string) (outcome : MochaRunOutcome) :
    MochaSteps host globPattern options mochaCwd (settled outcome)
      (ENewMocha options (Ok tt)
       :: EGlob globPattern mochaCwd (Ok files)
       :: addedFiles host mochaCwd files ++ [EMochaRun outcome]).

(** The steps of the [try] block of [run]. *)
Inductive ExecutorSteps (host : Host)
  : Result unit -> list TestEvent -> Prop :=
| ContextMissing :
    h_env host !! ENV_VAR_MOCHA_CONFIG_PATH = None
    \/ h_env host !! ENV_VAR_MOCHA_CWD = None ->
    ExecutorSteps host (Throw contextMessage) []
| ConfigUnreadable (configPath mochaCwd e : string) :
    h_env host !! ENV_VAR_MOCHA_CONFIG_PATH = Some configPath ->
    h_env host !! ENV_VAR_MOCHA_CWD = Some mochaCwd ->
    ExecutorSteps host (Throw e) [ERequireConfig configPath (Throw e)]
| SpecRejected (configPath mochaCwd : string)
    (config : gmap string JsValue) :
    h_env host !! ENV_VAR_MOCHA_CONFIG_PATH = Some configPath ->
    h_env host !! ENV_VAR_MOCHA_CWD = Some mochaCwd ->
    isJsString (prop config "spec") = false ->
    ExecutorSteps host (Throw (specMessage (prop config "spec")))
      [ERequireConfig configPath (Ok config)]
| RequireRejected (configPath mochaCwd : string)
    (config : gmap string JsValue) (spec e : string)
    (loaded : list TestEvent) :
    h_env host !! ENV_VAR_MOCHA_CONFIG_PATH = Some configPath ->
    h_env host !! ENV_VAR_MOCHA_CWD = Some mochaCwd ->
    prop config "spec" = JsString spec ->
    Loaded (requireList (prop config "require")) (Throw e) loaded ->
    ExecutorSteps host (Throw e)
      (ERequireConfig configPath (Ok config) :: loaded)
| MochaStarted (configPath mochaCwd : string)
    (config : gmap string JsValue) (spec : string)
    (loaded ran : list TestEvent) (r : Result unit) :
    h_env host !! ENV_VAR_MOCHA_CONFIG_PATH = Some configPath ->
    h_env host !! ENV_VAR_MOCHA_CWD = Some mochaCwd ->
    prop config "spec" = JsString spec ->
    Loaded (requireList (prop config "require")) (Ok tt) loaded ->
    MochaSteps host spec (mochaOptions config) mochaCwd r ran ->
    ExecutorSteps host r
      (ERequireConfig configPath (Ok config) :: loaded ++ ran).

(** What the [catch] block of [run] prints. *)
Definition logged (r : Result unit) : list TestEvent :=
  match r with
  | Throw e => [EConsoleError e]
  | Ok _ => []
  end.

(** The modules a trace has loaded, the constructions of the runner, and
    the files it was given, in order. *)
Definition requiredModules (trace : list TestEvent) : list JsValue :=
  omap (fun e => match e with
                 | ERequireModule module (Ok _) => Some (JsString module)
                 | _ => None
                 end) trace.

Definition addedTestFiles (trace : list TestEvent) : list string :=
  omap (fun e => match e with
                 | EAddFile file => Some file
                 | _ => None
                 end) trace.

Definition consoleErrors (trace : list TestEvent) : list string :=
  omap (fun e => match e with
                 | EConsoleError message => Some message
                 | _ => None
                 end) trace.

End ExecutorVocabulary.

Section ExecutorOrder.

Import MochaTests.

(** The stage of [run] an event belongs to. *)
Definition stage (e : TestEvent) : nat :=
  match e with
  | ERequireConfig _ _ => 0
  | ERequireModule _ _ => 1
  | ENewMocha _ _ => 2
  | EGlob _ _ _ => 3
  | EAddFile _ => 4
  | EMochaRun _ => 5
  | EConsoleError _ => 6
  end.

(** The stages that consist of a single call. *)
Definition singleStage (e : TestEvent) : option nat :=
  match e with
  | ERequireModule _ _ | EAddFile _ => None
  | _ => Some (stage e)
  end.

(** A host whose configuration file has no [spec]. *)
Definition specLessHost : Host :=
  {| h_env :=
       <[ENV_VAR_MOCHA_CONFIG_PATH := "/proj/mocha.config.js"]>
         (<[ENV_VAR_MOCHA_CWD := "/proj"]> ∅);
     h_cwd := "/";
     h_requireConfig := fun _ _ => Ok {[ "require" := JsNumber 5 ]};
     h_requireModule := fun _ _ => Ok tt;
     h_newMocha := fun _ _ => Ok tt;
     h_glob := fun _ _ _ => Ok ["test/a.test.js"];
     h_mochaRun := fun _ => RunReports 0 |}.

(** A configuration that requires two modules. *)
Definition requiringConfig : gmap string JsValue :=
  <["require" := JsArray [JsString "ts-node/register"; JsString "./setup"]]>
    plainMochaConfig.

Definition requiringEvents : list TestEvent :=
  [ERequireConfig "/proj/mocha.config.js" (Ok requiringConfig);
   ERequireModule "ts-node/register" (Ok tt);
   ERequireModule "./setup" (Ok tt);
   ENewMocha plainMochaOptions (Ok tt);
   EGlob "test/**/*.test.js" "/proj" (Ok ["test/a.test.js"]);
   EAddFile "/proj/test/a.test.js";
   EMochaRun (RunReports 2);
   EConsoleError "2 tests failed."].

End ExecutorOrder.

(** What [run] does on [specLessHost]. *)
Definition specLessEvents : list MochaTests.TestEvent :=
  [MochaTests.ERequireConfig "/proj/mocha.config.js"
     (Ok {[ "require" := JsNumber 5 ]});
   MochaTests.EConsoleError
     "spec property in Mocha configuration must be a string. Unexpected value: undefined"].

(** *** The steps of the in-host coverage wrapper *)

Section WrapperVocabulary.

Import NycCoverage.

(** A sequence of calls, each made only when the one before has not
    thrown. *)
Inductive Chain : list (Result unit -> CoverageEvent) -> Result unit
                  -> list CoverageEvent -> Prop :=
| ChainDone : Chain [] (Ok tt) []
| ChainFailed (step : Result unit -> CoverageEvent)
    (rest : list (Result unit -> CoverageEvent)) (e : string) :
    Chain (step :: rest) (Throw e) [step (Throw e)]
| ChainNext (step : Result unit -> CoverageEvent)
    (rest : list (Result unit -> CoverageEvent)) (r : Result unit)
    (events : list CoverageEvent) :
    Chain rest r events ->
    Chain (step :: rest) r (step (Ok tt) :: events).

Definition nycContextMessage : string :=
  "The following environment variables must be defined for nyc: "
  +:+ ENV_VAR_NYC_CWD +:+ ", " +:+ ENV_VAR_NYC_CONFIG_PATH.

Definition basePathMessage : string :=
  "The following environment variable must be defined for coverage: "
  +:+ ENV_VAR_BASE_TEST_PATH.

Definition notObjectMessage (baseRunPath : string) : string :=
  "The import result of " +:+ baseRunPath +:+ " must be an object".

Definition noRunMessage (baseRunPath : string) : string :=
  baseRunPath +:+ " must export a " +:+ quote +:+ "run" +:+ quote
  +:+ " function".

(** The calls that set the instrumentation up once the [nyc]
    configuration is read. *)
Definition setupCalls (nycConfig : gmap string JsValue) (nycCwd : string)
  : list (Result unit -> CoverageEvent) :=
  [ENewNyc (nycOptions nycConfig nycCwd); EReset]
  ++ (if isTrue (prop nycConfig "all") then [EAddAllFiles] else [])
  ++ [EWrap].

(** The calls of the [finally] block. *)
Definition writeCalls : list (Result unit -> CoverageEvent) :=
  [EWriteProcessIndex; EWriteCoverageFile].

(** The steps of [setupCoverage]. *)
Inductive SetupSteps (host : Host)
  : Result unit -> list CoverageEvent -> Prop :=
| NycContextMissing :
    h_env host !! ENV_VAR_NYC_CONFIG_PATH = None
    \/ h_env host !! ENV_VAR_NYC_CWD = None ->
    SetupSteps host (Throw nycContextMessage) []
| NycConfigUnreadable (nyConfigPath nycCwd e : string) :
    h_env host !! ENV_VAR_NYC_CONFIG_PATH = Some nyConfigPath ->
    h_env host !! ENV_VAR_NYC_CWD = Some nycCwd ->
    SetupSteps host (Throw e) [ERequireNycConfig nyConfigPath (Throw e)]
| NycSetUp (nyConfigPath nycCwd : string) (nycConfig : gmap string JsValue)
    (r : Result unit) (events : list CoverageEvent) :
    h_env host !! ENV_VAR_NYC_CONFIG_PATH = Some nyConfigPath ->
    h_env host !! ENV_VAR_NYC_CWD = Some nycCwd ->
    Chain (setupCalls nycConfig nycCwd) r events ->
    SetupSteps host r
      (ERequireNycConfig nyConfigPath (Ok nycConfig) :: events).

(** The outcome of [try { tests } finally { writes }]. *)
Definition afterWrites (tests writes : Result unit) : Result unit :=
  match writes with
  | Ok _ => tests
  | Throw e => Throw e
  end.

(** The steps of the [try] block of [run]. *)
Inductive WrapperSteps (host : Host)
  : Result unit -> list CoverageEvent -> Prop :=
| BasePathMissing :
    h_env host !! ENV_VAR_BASE_TEST_PATH = None ->
    WrapperSteps host (Throw basePathMessage) []
| BaseUnloadable (baseRunPath e : string) :
    h_env host !! ENV_VAR_BASE_TEST_PATH = Some baseRunPath ->
    WrapperSteps host (Throw e) [ERequireBase baseRunPath (Throw e)]
| BaseNotObject (baseRunPath : string) :
    h_env host !! ENV_VAR_BASE_TEST_PATH = Some baseRunPath ->
    WrapperSteps host (Throw (notObjectMessage baseRunPath))
      [ERequireBase baseRunPath (Ok NotPlainObject)]
| BaseWithoutRun (baseRunPath : string) (members : gmap string Member) :
    h_env host !! ENV_VAR_BASE_TEST_PATH = Some baseRunPath ->
    members !! "run" <> Some MemberFunction ->
    WrapperSteps host (Throw (noRunMessage baseRunPath))
      [ERequireBase baseRunPath (Ok (PlainObject members))]
| SetupFailed (baseRunPath : string) (members : gmap string Member)
    (e : string) (setup : list CoverageEvent) :
    h_env host !! ENV_VAR_BASE_TEST_PATH = Some baseRunPath ->
    members !! "run" = Some MemberFunction ->
    SetupSteps host (Throw e) setup ->
    WrapperSteps host (Throw e)
      (ERequireBase baseRunPath (Ok (PlainObject members)) :: setup)
| TestsRan (baseRunPath : string) (members : gmap string Member)
    (setup written : list CoverageEvent) (tests writes : Result unit) :
    h_env host !! ENV_VAR_BASE_TEST_PATH = Some baseRunPath ->
    members !! "run" = Some MemberFunction ->
    SetupSteps host (Ok tt) setup ->
    Chain writeCalls writes written ->
    WrapperSteps host (afterWrites tests writes)
      (ERequireBase baseRunPath (Ok (PlainObject members))
       :: setup ++ EBaseRun tests :: written).

(** What the [catch] block of [run] prints. *)
Definition coverageLogged (r : Result unit) : list CoverageEvent :=
  match r with
  | Throw e => [EConsoleLog e]
  | Ok _ => []
  end.

(** The events of the test run proper. *)
Definition isBaseRun (e : CoverageEvent) : bool :=
  match e with
  | EBaseRun _ => true
  | _ => false
  end.

(** The keys the wrapper sets itself. *)
Definition forcedKeys : list string :=
  ["cwd"; "instrument"; "hookRequire"; "hookRunInContext";
   "hookRunInThisContext"].

(** A host for examples: the base module exports [run], the [nyc]
    configuration is [nycConfig], the tests end with [tests], and writing
    the process index ends with [indexed]. *)
Definition coverageHost (nycConfig : gmap string JsValue)
    (tests indexed : Result unit) : Host :=
  {| h_env :=
       <[ENV_VAR_BASE_TEST_PATH := "/app/dist/src/mocha-tests"]>
         (<[ENV_VAR_NYC_CONFIG_PATH := "/proj/nyc.config.js"]>
            (<[ENV_VAR_NYC_CWD := "/proj"]> ∅));
     h_requireBase := fun _ _ =>
       Ok (PlainObject {[ "run" := MemberFunction ]});
     h_requireNycConfig := fun _ _ => Ok nycConfig;
     h_newNyc := fun _ _ => Ok tt;
     h_reset := fun _ => Ok tt;
     h_addAllFiles := fun _ => Ok tt;
     h_wrap := fun _ => Ok tt;
     h_baseRun := fun _ => tests;
     h_writeProcessIndex := fun _ => indexed;
     h_writeCoverageFile := fun _ => Ok tt |}.

(** A [nyc] configuration that asks for all files and tries to switch the
    instrumentation off. *)
Definition allFilesConfig : gmap string JsValue :=
  <["all" := JsBool true]> {[ "instrument" := JsBool false ]}.

Definition allFilesEvents : list CoverageEvent :=
  [ERequireBase "/app/dist/src/mocha-tests"
     (Ok (PlainObject {[ "run" := MemberFunction ]}));
   ERequireNycConfig "/proj/nyc.config.js" (Ok allFilesConfig);
   ENewNyc (nycOptions allFilesConfig "/proj") (Ok tt);
   EReset (Ok tt);
   EAddAllFiles (Ok tt);
   EWrap (Ok tt);
   EBaseRun (Throw "1 tests failed.");
   EWriteProcessIndex (Ok tt);
   EWriteCoverageFile (Ok tt);
   EConsoleLog "1 tests failed."].


End WrapperVocabulary.

(** *** The command-line entry *)

(** What the entry prints when the run has failed. *)
Definition failureReport (err : string) : HostEvent :=
  EConsoleError [JsString "Failed to run tests"; JsString err].

(** A command line for examples: [--help] makes yargs end the process;
    besides it, [--config P] and [--coverage] are the only arguments
    understood. *)
Definition demoYargs (processArgs : list string) : CommandLine.YargsOutcome :=
  match processArgs with
  | ["--help"] => CommandLine.YargsExits 0
  | ["--config"; configPath] =>
      CommandLine.YargsArgv (Some configPath) false
  | ["--config"; configPath; "--coverage"] =>
      CommandLine.YargsArgv (Some configPath) true
  | ["--coverage"] => CommandLine.YargsArgv None true
  | _ => CommandLine.YargsArgv None false
  end.

(** An explorer for examples: [/proj/config.json] holds [allPathsConfig],
    [/proj/empty.json] is empty, and no configuration file is found by
    searching. *)
Definition demoLoad (path : string)
  : Result (option CommandLine.CosmiconfigResult) :=
  if String.eqb path "/proj/config.json"
  then Ok (Some {| CommandLine.filepath := path;
                   CommandLine.config :=
                     CommandLine.ConfigReadable allPathsConfig |})
  else if String.eqb path "/proj/empty.json"
  then Ok (Some {| CommandLine.filepath := path;
                   CommandLine.config := CommandLine.ConfigUndefined |})
  else Throw ("ENOENT: no such file or directory, open '" +:+ path +:+ "'").

Definition demoSearch : Result (option CommandLine.CosmiconfigResult) :=
  Ok None.

(** The wording of one engine. *)
Definition demoCannotReadProperty (value : CommandLine.ConfigurationValue)
    (key : string) : string :=
  "Cannot read property '" +:+ key +:+ "' of "
  +:+ match value with
      | CommandLine.ConfigNull => "null"
      | _ => "undefined"
      end.

(** The world of [demoWorld] started in [/proj]. *)
Definition projWorld : World :=
  {| w_platform := w_platform demoWorld;
     w_cwd := "/proj";
     w_dirname := w_dirname demoWorld;
     w_resolveCliPathFromVSCodeExecutablePath :=
       w_resolveCliPathFromVSCodeExecutablePath demoWorld;
     w_downloadAndUnzipVSCode := w_downloadAndUnzipVSCode demoWorld;
     w_spawnSync := w_spawnSync demoWorld;
     w_pathExists := w_pathExists demoWorld;
     w_readdir := w_readdir demoWorld;
     w_mkdirs := w_mkdirs demoWorld;
     w_writeJson := w_writeJson demoWorld;
     w_unlink := w_unlink demoWorld;
     w_runTests := w_runTests demoWorld |}.

Definition noConfigurationMessage : string :=
  "No configuration file found. Use --config option to specify the configuration file path.".

(** * Properties *)

(** ** The resolver *)

Example resolve_minimal :
  demoResolve minimalConfig false
  = Ok resolvedMinimal.
Proof. vm_compute. reflexivity. Qed.

Lemma bind_Ok_inv {A B} (m : Result A) (f : A -> Result B) (b : B) :
  m ≫= f = Ok b -> exists a, m = Ok a /\ f a = Ok b.
Proof. destruct m as [a|e]; cbn; [eauto | discriminate]. Qed.

Lemma prop_insert_ne (config : gmap string JsValue) (k k' : string)
    (v : JsValue) :
  k <> k' -> prop (<[k := v]> config) k' = prop config k'.
Proof. intros Hne. unfold prop. by rewrite lookup_insert_ne. Qed.

Lemma isStringOrUndefined_assert (name : string) (value : JsValue) :
  isStringOrUndefined value = true ->
  exists s, assertStringOrUndefinedParameter name value = Ok s
            /\ assertStringOrUndefinedParameter "" value = Ok s.
Proof. destruct value; cbn; try discriminate; eauto. Qed.

Lemma assertStringEntries_name (name name' : string) (entries : list JsValue) :
  isOk (assertStringEntries name entries) = true ->
  exists l, assertStringEntries name' entries = Ok l
            /\ assertStringEntries name entries = Ok l.
Proof.
  induction entries as [|v entries IH]; cbn; [eauto|].
  destruct v; cbn; try discriminate.
  destruct (assertStringEntries name entries) as [l|e] eqn:E;
    cbn; [|discriminate].
  intros _. destruct IH as (l' & -> & [= ->]); [done|]. cbn. eauto.
Qed.

Lemma isStringArrayOrUndefined_assert (name : string) (value : JsValue) :
  isStringArrayOrUndefined value = true ->
  exists l, assertStringArrayOrUndefinedParameter name value = Ok l.
Proof.
  unfold isStringArrayOrUndefined.
  destruct value; cbn; try discriminate; eauto.
  intros H.
  destruct (assertStringEntries "" items) as [l|e] eqn:E; [|done].
  destruct (assertStringEntries_name "" name items) as (l' & -> & _).
  { by rewrite E. }
  cbn. eauto.
Qed.

Section ResolverFacts.

Variable cwd : string.
Variable pathExists : string -> bool.
Variable stat : string -> Result Stats.

(** What a successful resolution has gone through. *)
Lemma validateAndResolve_Ok_inv configPath config isCoverage r :
  validateAndResolveConfiguration cwd pathExists stat
    configPath config isCoverage = Ok r ->
  let dir := configDir cwd configPath in
  exists edp udd vv uids dids aef mcp nyc wp iw dae,
    let workspace :=
      Path.resolve cwd [dir; default "test.code-workspace" wp] in
    let folders := List.map (fun p => Path.resolve cwd [dir; p]) <$> aef in
    assertStringOrUndefinedParameter "extensionDevelopmentPath"
      (prop config "extensionDevelopmentPath") = Ok edp
    /\ assertStringOrUndefinedParameter "userDataDir"
         (prop config "userDataDir") = Ok udd
    /\ assertStringOrUndefinedParameter "vscodeVersion"
         (prop config "vscodeVersion") = Ok vv
    /\ assertStringArrayOrUndefinedParameter "uninstallExtensionIDs"
         (prop config "uninstallExtensionIDs") = Ok uids
    /\ assertStringArrayOrUndefinedParameter "disabledExtensionIDs"
         (prop config "disabledExtensionIDs") = Ok dids
    /\ assertStringArrayOrUndefinedParameter "additionalExtensionFolders"
         (prop config "additionalExtensionFolders") = Ok aef
    /\ prop config "mochaConfigPath" = JsString mcp
    /\ validateNycConfigPath cwd isCoverage config dir = Ok nyc
    /\ assertStringOrUndefinedParameter "workspacePath"
         (prop config "workspacePath") = Ok wp
    /\ (endsWith workspace ".code-workspace" = false ->
        checkWorkspaceFolder pathExists stat workspace = Ok tt)
    /\ validateInitWorkspace pathExists config
         (endsWith workspace ".code-workspace") workspace = Ok iw
    /\ validateDisableAllExtensions config folders = Ok dae
    /\ r = {| extensionDevelopmentPath :=
                Path.resolve cwd [dir; default "." edp];
              workspacePath := workspace;
              initWorkspace := iw;
              mochaConfigPath := Path.resolve cwd [dir; mcp];
              nycConfigPath := nyc;
              userDataDir := (fun p => Path.resolve cwd [dir; p]) <$> udd;
              vscodeVersion := vv;
              additionalExtensionFolders := folders;
              uninstallExtensionIDs := uids;
              disabledExtensionIDs := dids;
              disableAllExtensions := dae |}.
Proof.
  unfold validateAndResolveConfiguration, configDir, resolve. intros H.
  apply bind_Ok_inv in H as (edp & Hedp & H).
  apply bind_Ok_inv in H as (udd & Hudd & H).
  apply bind_Ok_inv in H as (vv & Hvv & H).
  apply bind_Ok_inv in H as (uids & Huids & H).
  apply bind_Ok_inv in H as (dids & Hdids & H).
  apply bind_Ok_inv in H as (aef & Haef & H).
  apply bind_Ok_inv in H as (mcp & Hmcp & H).
  destruct mcp as [mcp|]; [|discriminate].
  apply bind_Ok_inv in H as (nyc & Hnyc & H).
  apply bind_Ok_inv in H as (wp & Hwp & H).
  apply bind_Ok_inv in H as ([] & Hchk & H).
  apply bind_Ok_inv in H as (iw & Hiw & H).
  apply bind_Ok_inv in H as (dae & Hdae & H).
  injection H as <-. cbn.
  exists edp, udd, vv, uids, dids, aef, mcp, nyc, wp, iw, dae.
  repeat split; try assumption.
  - destruct (prop config "mochaConfigPath"); cbn in Hmcp;
      try discriminate; congruence.
  - intros Hsuffix. rewrite Hsuffix in Hchk. exact Hchk.
Qed.

(** The resolver with coverage off never reads [nycConfigPath]. *)
Lemma nycConfigPath_unread configPath config value :
  validateAndResolveConfiguration cwd pathExists stat
    configPath (<["nycConfigPath" := value]> config) false
  = validateAndResolveConfiguration cwd pathExists stat configPath config false.
Proof.
  unfold validateAndResolveConfiguration, validateNycConfigPath,
    validateInitWorkspace, validateDisableAllExtensions.
  by rewrite !prop_insert_ne by done.
Qed.

Lemma validBeforeMochaConfigPath_inv config :
  validBeforeMochaConfigPath config = true ->
  exists edp udd vv uids dids aef,
    assertStringOrUndefinedParameter "extensionDevelopmentPath"
      (prop config "extensionDevelopmentPath") = Ok edp
    /\ assertStringOrUndefinedParameter "userDataDir"
         (prop config "userDataDir") = Ok udd
    /\ assertStringOrUndefinedParameter "vscodeVersion"
         (prop config "vscodeVersion") = Ok vv
    /\ assertStringArrayOrUndefinedParameter "uninstallExtensionIDs"
         (prop config "uninstallExtensionIDs") = Ok uids
    /\ assertStringArrayOrUndefinedParameter "disabledExtensionIDs"
         (prop config "disabledExtensionIDs") = Ok dids
    /\ assertStringArrayOrUndefinedParameter "additionalExtensionFolders"
         (prop config "additionalExtensionFolders") = Ok aef.
Proof.
  unfold validBeforeMochaConfigPath. rewrite !andb_true_iff.
  intros (((((H1 & H2) & H3) & H4) & H5) & H6).
  destruct (isStringOrUndefined_assert "extensionDevelopmentPath" _ H1)
    as (edp & ? & _).
  destruct (isStringOrUndefined_assert "userDataDir" _ H2) as (udd & ? & _).
  destruct (isStringOrUndefined_assert "vscodeVersion" _ H3) as (vv & ? & _).
  destruct (isStringArrayOrUndefined_assert "uninstallExtensionIDs" _ H4)
    as (uids & ?).
  destruct (isStringArrayOrUndefined_assert "disabledExtensionIDs" _ H5)
    as (dids & ?).
  destruct (isStringArrayOrUndefined_assert "additionalExtensionFolders" _ H6)
    as (aef & ?).
  exists edp, udd, vv, uids, dids, aef. by repeat split.
Qed.

(** A configuration without [mochaConfigPath] never resolves. *)
Lemma missing_mochaConfigPath_fails configPath config isCoverage :
  prop config "mochaConfigPath" = JsUndefined ->
  isOk (validateAndResolveConfiguration cwd pathExists stat
          configPath config isCoverage) = false.
Proof.
  intros Hmissing.
  destruct (validateAndResolveConfiguration cwd pathExists stat
              configPath config isCoverage) as [r|e] eqn:E;
    [|done].
  apply validateAndResolve_Ok_inv in E.
  destruct E as (? & ? & ? & ? & ? & ? & mcp & ? & ? & ? & ? & _ & _ & _ & _
                 & _ & _ & Hmcp & _).
  congruence.
Qed.

(** With coverage requested, a configuration without [nycConfigPath]
    never resolves. *)
Lemma missing_nycConfigPath_fails configPath config :
  prop config "nycConfigPath" = JsUndefined ->
  isOk (validateAndResolveConfiguration cwd pathExists stat
          configPath config true) = false.
Proof.
  intros Hmissing.
  destruct (validateAndResolveConfiguration cwd pathExists stat
              configPath config true) as [r|e] eqn:E;
    [|done].
  apply validateAndResolve_Ok_inv in E.
  destruct E as (? & ? & ? & ? & ? & ? & mcp & nyc & ? & ? & ? & _ & _ & _
                 & _ & _ & _ & _ & Hnyc & _).
  unfold validateNycConfigPath in Hnyc. rewrite Hmissing in Hnyc.
  discriminate.
Qed.

(** C1 (amended). A configuration without [mochaConfigPath] never
    resolves, and the error is the one naming [mochaConfigPath] as soon as
    the six fields checked before it are well typed. With coverage
    requested, a configuration without [nycConfigPath] never resolves, and
    the error is the one naming [nycConfigPath] as soon as the fields
    checked before it are well typed and [mochaConfigPath] is a string.
    With coverage not requested the resolver does not read
    [nycConfigPath]: its absence changes nothing. *)
Theorem required_config_paths configPath config isCoverage :
  (prop config "mochaConfigPath" = JsUndefined ->
     isOk (validateAndResolveConfiguration cwd pathExists stat
             configPath config isCoverage) = false
     /\ (validBeforeMochaConfigPath config = true ->
         validateAndResolveConfiguration cwd pathExists stat
           configPath config isCoverage
         = Throw "Configuration error: mochaConfigPath must be defined"
         /\ failsNaming "mochaConfigPath"
              (validateAndResolveConfiguration cwd pathExists stat
                 configPath config isCoverage)))
  /\ (prop config "nycConfigPath" = JsUndefined -> isCoverage = true ->
        isOk (validateAndResolveConfiguration cwd pathExists stat
                configPath config isCoverage) = false
        /\ (validBeforeMochaConfigPath config = true ->
            isString (prop config "mochaConfigPath") = true ->
            validateAndResolveConfiguration cwd pathExists stat
              configPath config isCoverage
            = Throw "Configuration error: nycConfigPath must be defined when coverage is enabled"
            /\ failsNaming "nycConfigPath"
                 (validateAndResolveConfiguration cwd pathExists stat
                    configPath config isCoverage)))
  /\ (prop config "nycConfigPath" = JsUndefined -> isCoverage = false ->
        forall value,
          validateAndResolveConfiguration cwd pathExists stat configPath
            (<["nycConfigPath" := value]> config) isCoverage
          = validateAndResolveConfiguration cwd pathExists stat
              configPath config isCoverage).
Proof.
  split; [|split].
  - intros Hmissing. split;
      [by apply missing_mochaConfigPath_fails|].
    intros Hvalid.
    apply validBeforeMochaConfigPath_inv in Hvalid
      as (edp & udd & vv & uids & dids & aef & H1 & H2 & H3 & H4 & H5 & H6).
    assert (validateAndResolveConfiguration cwd pathExists stat
              configPath config isCoverage
            = Throw "Configuration error: mochaConfigPath must be defined")
      as ->.
    { unfold validateAndResolveConfiguration.
      rewrite H1, H2, H3, H4, H5, H6, Hmissing. reflexivity. }
    split; [done|]. eexists. split; [done|]. by vm_compute.
  - intros Hmissing ->. split;
      [by apply missing_nycConfigPath_fails|].
    intros Hvalid Hmocha.
    apply validBeforeMochaConfigPath_inv in Hvalid
      as (edp & udd & vv & uids & dids & aef & H1 & H2 & H3 & H4 & H5 & H6).
    destruct (prop config "mochaConfigPath") as [| | | |mcp| |] eqn:Hmcp;
      try discriminate.
    assert (validateAndResolveConfiguration cwd pathExists stat
              configPath config true
            = Throw "Configuration error: nycConfigPath must be defined when coverage is enabled")
      as ->.
    { unfold validateAndResolveConfiguration, validateNycConfigPath.
      rewrite H1, H2, H3, H4, H5, H6, Hmcp, Hmissing. reflexivity. }
    split; [done|]. eexists. split; [done|]. by vm_compute.
  - intros _ -> value. apply nycConfigPath_unread.
Qed.

(** The [initWorkspace] rule as far as the code enforces it: with
    [initWorkspace] explicitly [true] and a resolved [workspacePath] that is
    an existing folder and does not end in [.code-workspace], resolution
    never succeeds; the error is the one naming [initWorkspace] as soon as
    everything checked before [workspacePath] passes. *)
Theorem initWorkspace_on_folder_rejected configPath config isCoverage wp :
  prop config "initWorkspace" = JsBool true ->
  assertStringOrUndefinedParameter "workspacePath"
    (prop config "workspacePath") = Ok wp ->
  let folder :=
    Path.resolve cwd
      [configDir cwd configPath; default "test.code-workspace" wp] in
  endsWith folder ".code-workspace" = false ->
  pathExists folder = true ->
  stat folder = Ok {| isDirectory := true |} ->
  isOk (validateAndResolveConfiguration cwd pathExists stat
          configPath config isCoverage) = false
  /\ (validBeforeWorkspacePath config isCoverage = true ->
      validateAndResolveConfiguration cwd pathExists stat
        configPath config isCoverage
      = Throw "Configuration error: initWorkspace can be true only for a workspace file and not a folder"
      /\ failsNaming "initWorkspace"
           (validateAndResolveConfiguration cwd pathExists stat
              configPath config isCoverage)).
Proof.
  intros Hinit Hwp folder Hsuffix Hexists Hstat. split.
  - destruct (validateAndResolveConfiguration cwd pathExists stat
                configPath config isCoverage)
      as [r|e] eqn:E; [|done].
    apply validateAndResolve_Ok_inv in E.
    destruct E as (? & ? & ? & ? & ? & ? & ? & ? & wp' & iw & ? & _ & _ & _
                   & _ & _ & _ & _ & _ & Hwp' & _ & Hiw & _).
    assert (wp' = wp) as -> by congruence.
    fold folder in Hiw. unfold validateInitWorkspace in Hiw.
    rewrite Hinit, Hsuffix in Hiw. discriminate.
  - unfold validBeforeWorkspacePath. rewrite !andb_true_iff.
    intros ((Hvalid & Hmocha) & Hnyc).
    apply validBeforeMochaConfigPath_inv in Hvalid
      as (edp & udd & vv & uids & dids & aef & H1 & H2 & H3 & H4 & H5 & H6).
    destruct (prop config "mochaConfigPath") as [| | | |mcp| |] eqn:Hmcp;
      try discriminate.
    assert (exists nyc,
               validateNycConfigPath cwd isCoverage config
                 (configDir cwd configPath) = Ok nyc) as (nyc & Hnyc').
    { unfold validateNycConfigPath. destruct isCoverage; [|eauto].
      cbn in Hnyc. destruct (prop config "nycConfigPath"); try discriminate.
      cbn. eauto. }
    assert (validateAndResolveConfiguration cwd pathExists stat
              configPath config isCoverage
            = Throw "Configuration error: initWorkspace can be true only for a workspace file and not a folder")
      as ->.
    { unfold validateAndResolveConfiguration.
      rewrite H1, H2, H3, H4, H5, H6, Hmcp. cbn.
      unfold configDir, resolve in *. rewrite Hnyc', Hwp. cbn.
      fold folder. rewrite Hsuffix. cbn.
      unfold checkWorkspaceFolder, validateInitWorkspace.
      rewrite Hexists, Hstat, Hinit. reflexivity. }
    split; [done|]. eexists. split; [done|]. by vm_compute.
Qed.

(** C8. When the raw configuration does not set [initWorkspace], the
    resolved [initWorkspace] is [true] exactly when the resolved
    [workspacePath] ends in [.code-workspace] and nothing exists at that
    path. *)
Theorem default_initWorkspace configPath config isCoverage r :
  prop config "initWorkspace" = JsUndefined ->
  validateAndResolveConfiguration cwd pathExists stat
    configPath config isCoverage = Ok r ->
  initWorkspace r = true
  <-> endsWith (workspacePath r) ".code-workspace" = true
      /\ pathExists (workspacePath r) = false.
Proof.
  intros Hunset E. apply validateAndResolve_Ok_inv in E.
  destruct E as (? & ? & ? & ? & ? & ? & ? & ? & ? & iw & ? & _ & _ & _ & _
                 & _ & _ & _ & _ & _ & _ & Hiw & _ & ->).
  unfold validateInitWorkspace in Hiw. rewrite Hunset in Hiw.
  injection Hiw as <-. cbn.
  rewrite andb_true_iff, negb_true_iff. reflexivity.
Qed.

Lemma assertStringArray_empty name value folders :
  assertStringArrayOrUndefinedParameter name value = Ok folders ->
  isEmpty folders = true
  <-> value = JsUndefined \/ value = JsArray [].
Proof.
  destruct value as [| | | | |items|]; cbn; try discriminate.
  - intros [= <-]. cbn. intuition.
  - destruct items as [|item items]; cbn.
    + intros [= <-]. cbn. intuition.
    + destruct item; cbn; try discriminate.
      destruct (assertStringEntries name items); cbn; [|discriminate].
      intros [= <-]. cbn. split; [discriminate|].
      intros [?|?]; discriminate.
Qed.

(** C9. When the raw configuration does not set [disableAllExtensions],
    the resolved value is [true] exactly when [additionalExtensionFolders]
    is absent or empty; an explicit boolean is kept whatever
    [additionalExtensionFolders] is. *)
Theorem disableAllExtensions_resolution configPath config isCoverage r :
  validateAndResolveConfiguration cwd pathExists stat
    configPath config isCoverage = Ok r ->
  (prop config "disableAllExtensions" = JsUndefined ->
     (disableAllExtensions r = true
      <-> prop config "additionalExtensionFolders" = JsUndefined
          \/ prop config "additionalExtensionFolders" = JsArray [])
     /\ disableAllExtensions r = isEmpty (additionalExtensionFolders r))
  /\ (forall explicit,
        prop config "disableAllExtensions" = JsBool explicit ->
        disableAllExtensions r = explicit).
Proof.
  intros E. apply validateAndResolve_Ok_inv in E.
  destruct E as (? & ? & ? & ? & ? & aef & ? & ? & ? & ? & dae & _ & _ & _
                 & _ & _ & Haef & _ & _ & _ & _ & _ & Hdae & ->).
  unfold validateDisableAllExtensions in Hdae. cbn.
  set (folders := List.map _ <$> aef) in *.
  assert (isEmpty folders = isEmpty aef) as Hempty.
  { subst folders. by destruct aef as [[|]|]. }
  split.
  - intros Hunset. rewrite Hunset in Hdae. injection Hdae as <-.
    split; [|done]. rewrite Hempty.
    by apply (assertStringArray_empty "additionalExtensionFolders").
  - intros explicit Hset. rewrite Hset in Hdae. by injection Hdae.
Qed.

(** C10. With coverage not requested, whatever the raw configuration
    supplies as [nycConfigPath] is neither validated nor carried over: the
    outcome is the one of the configuration without it, and a resolved
    configuration has no [nycConfigPath]. *)
Theorem nycConfigPath_ignored_without_coverage configPath config value :
  validateAndResolveConfiguration cwd pathExists stat
    configPath (<["nycConfigPath" := value]> config) false
  = validateAndResolveConfiguration cwd pathExists stat configPath config false
  /\ forall r,
       validateAndResolveConfiguration cwd pathExists stat configPath
         (<["nycConfigPath" := value]> config) false = Ok r ->
       nycConfigPath r = None.
Proof.
  split; [apply nycConfigPath_unread|].
  intros r E. apply validateAndResolve_Ok_inv in E.
  destruct E as (? & ? & ? & ? & ? & ? & ? & nyc & ? & ? & ? & _ & _ & _
                 & _ & _ & _ & _ & Hnyc & _ & _ & _ & _ & ->).
  cbn in Hnyc. by injection Hnyc as <-.
Qed.

End ResolverFacts.

(** C1, as stated, fails: a configuration without [mochaConfigPath] whose
    [extensionDevelopmentPath] has the wrong type is rejected with the error
    about [extensionDevelopmentPath], which does not name
    [mochaConfigPath]. *)
Lemma missing_mochaConfigPath_other_error :
  prop badTypeConfig "mochaConfigPath" = JsUndefined
  /\ demoResolve badTypeConfig false
     = Throw "Configuration error: extensionDevelopmentPath must be a string"
  /\ ~ failsNaming "mochaConfigPath" (demoResolve badTypeConfig false).
Proof.
  split; [reflexivity|]. split; [by vm_compute|].
  intros (message & Hthrow & Hnames).
  vm_compute in Hthrow. injection Hthrow as <-.
  vm_compute in Hnames. discriminate.
Qed.

Lemma required_config_paths_witness :
  failsNaming "mochaConfigPath" (demoResolve ∅ true)
  /\ failsNaming "nycConfigPath" (demoResolve minimalConfig true)
  /\ demoResolve (<["nycConfigPath" := JsNumber 1]> minimalConfig) false
     = Ok resolvedMinimal.
Proof.
  destruct (required_config_paths "/cwd" demoExists demoStat
              "/proj/config.json" ∅ true) as (Hmocha & _ & _).
  destruct (required_config_paths "/cwd" demoExists demoStat
              "/proj/config.json" minimalConfig true) as (_ & Hnyc & _).
  destruct (required_config_paths "/cwd" demoExists demoStat
              "/proj/config.json" minimalConfig false) as (_ & _ & Hoff).
  split; [|split].
  - apply Hmocha; reflexivity.
  - apply Hnyc; reflexivity.
  - unfold demoResolve. rewrite Hoff by reflexivity. by vm_compute.
Defined.

(** C2 is not met by the code: with [initWorkspace: true] and a
    [workspacePath] that is an existing folder whose name ends in
    [.code-workspace], resolution succeeds, with [initWorkspace] true, and
    no error names [initWorkspace]. The code tells a workspace file from a
    folder by the suffix of the path alone, although its own error says
    that [initWorkspace] can be true only for a workspace file and not a
    folder. *)
Lemma initWorkspace_on_suffixed_folder_accepted :
  prop initSuffixedFolderConfig "initWorkspace" = JsBool true
  /\ demoExists "/proj/ws.code-workspace" = true
  /\ demoStat "/proj/ws.code-workspace" = Ok {| isDirectory := true |}
  /\ (exists r, demoResolve initSuffixedFolderConfig false = Ok r
                /\ workspacePath r = "/proj/ws.code-workspace"
                /\ initWorkspace r = true)
  /\ ~ failsNaming "initWorkspace" (demoResolve initSuffixedFolderConfig false).
Proof.
  split; [reflexivity|]. split; [reflexivity|]. split; [reflexivity|].
  split.
  - eexists. split; [by vm_compute|]. split; reflexivity.
  - intros (message & Hthrow & _). vm_compute in Hthrow. discriminate.
Qed.

Lemma initWorkspace_on_folder_rejected_witness :
  isOk (demoResolve initFolderConfig false) = false
  /\ failsNaming "initWorkspace" (demoResolve initFolderConfig false).
Proof.
  destruct (initWorkspace_on_folder_rejected "/cwd" demoExists demoStat
              "/proj/config.json" initFolderConfig false (Some "."))
    as (Hfails & Hnames);
    [reflexivity | reflexivity | reflexivity | reflexivity | reflexivity |].
  split; [exact Hfails|]. apply Hnames. reflexivity.
Defined.

Lemma default_initWorkspace_witness :
  initWorkspace resolvedMinimal = true
  <-> endsWith (workspacePath resolvedMinimal) ".code-workspace" = true
      /\ demoExists (workspacePath resolvedMinimal) = false.
Proof.
  apply (default_initWorkspace "/cwd" demoExists demoStat "/proj/config.json"
           minimalConfig false);
    [reflexivity | by vm_compute].
Defined.

Lemma disableAllExtensions_resolution_witness :
  disableAllExtensions resolvedMinimal = true
  <-> prop minimalConfig "additionalExtensionFolders" = JsUndefined
      \/ prop minimalConfig "additionalExtensionFolders" = JsArray [].
Proof.
  destruct (disableAllExtensions_resolution "/cwd" demoExists demoStat
              "/proj/config.json" minimalConfig false resolvedMinimal)
    as (Hdefault & _); [by vm_compute|].
  apply Hdefault. reflexivity.
Defined.

Lemma nycConfigPath_ignored_without_coverage_witness :
  demoResolve (<["nycConfigPath" := JsString "nyc.config.js"]> minimalConfig)
    false = Ok resolvedMinimal
  /\ nycConfigPath resolvedMinimal = None.
Proof.
  destruct (nycConfigPath_ignored_without_coverage "/cwd" demoExists demoStat
              "/proj/config.json" minimalConfig (JsString "nyc.config.js"))
    as (Hsame & Hnone).
  split.
  - unfold demoResolve. rewrite Hsame. by vm_compute.
  - apply Hnone. rewrite Hsame. by vm_compute.
Defined.

(** ** Paths *)


















(** ** Running effectful code *)

Lemma bind_run {L Ev A B} (m : Eff L Ev A) (f : A -> Eff L Ev B)
    (st : L * list Ev) :
  (m ≫= f) st
  = match m st with
    | (Ok a, st') => f a st'
    | (Throw e, st') => (Throw e, st')
    end.
Proof. reflexivity. Qed.

Lemma ret_run {L Ev A} (a : A) (st : L * list Ev) :
  (mret a : Eff L Ev A) st = (Ok a, st).
Proof. reflexivity. Qed.

(** Unfold the monad and the primitive calls in a hypothesis. *)
Ltac eff_run_in H :=
  unfold mbind, Eff_bind, mret, Eff_ret, throw, perform, attempt, call,
    getLocal, setLocal, tryCatch, tryFinally in H;
  cbn beta iota zeta delta [fst snd] in H.

(** Split a membership in an explicit list into its cases. *)
Ltac elem_cases H :=
  repeat match type of H with
         | _ ∈ [] => by apply elem_of_nil in H
         | _ ∈ _ :: _ => apply elem_of_cons in H as [H|H]
         end.

(** ** The extension provisioner *)

(** In a list of invocations with a single piped one, the piped one is
    found at one place only. *)
Lemma piped_call_unique (before us after ys : list SpawnCall)
    (x y : SpawnCall) :
  x.1.2 = Pipe -> y.1.2 = Pipe ->
  Forall (fun c : SpawnCall => c.1.2 = Inherit) us ->
  Forall (fun c : SpawnCall => c.1.2 = Inherit) ys ->
  before ++ x :: after = us ++ y :: ys ->
  before = us /\ x = y /\ after = ys.
Proof.
  intros Hx Hy Hus Hys. revert us Hus.
  induction before as [|b before IH]; intros [|u us] Hus; cbn.
  - by intros [= -> ->].
  - intros [= <- _]. apply Forall_cons in Hus as (Hu & _). congruence.
  - intros [= <- <-].
    apply Forall_app in Hys as (_ & Hys).
    apply Forall_cons in Hys as (Hx' & _). congruence.
  - intros [= <- Heq]. apply Forall_cons in Hus as (_ & Hus).
    destruct (IH us Hus Heq) as (-> & -> & ->). done.
Qed.

Section ProvisionerFacts.

Variable world : World.
Context {L : Type}.

Lemma getInstallArgsLoop_run folders installArgs (l : L) trace :
  exists r new,
    getInstallArgsLoop world folders installArgs (l, trace)
    = (r, (l, trace ++ new))
    /\ Forall (fun e => isProvisioning e = true) new
    /\ spawnCalls new = [].
Proof.
  revert installArgs trace.
  induction folders as [|folder folders IH]; intros installArgs trace.
  - exists (Ok installArgs), []. by rewrite app_nil_r.
  - cbn [getInstallArgsLoop]. rewrite bind_run.
    unfold pathExists at 1, perform. cbn [fst snd].
    destruct (w_pathExists world trace folder) eqn:Hexists; cbn [negb].
    + rewrite bind_run. unfold readdir at 1, attempt. cbn [fst snd].
      destruct (w_readdir world _ folder) as [files|e] eqn:Hreaddir.
      * destruct (Nat.eqb _ 0).
        -- eexists _, [_; _]. unfold throw.
           rewrite <- app_assoc. split; [reflexivity|].
           split; [by repeat constructor | done].
        -- edestruct IH as (r & new & -> & Hnew & Hspawn).
           exists r, (EPathExists folder true :: EReaddir folder (Ok files)
                      :: new).
           rewrite <- !app_assoc. split; [reflexivity|].
           split; [by repeat constructor|]. exact Hspawn.
      * eexists _, [_; _]. rewrite <- app_assoc. split; [reflexivity|].
        split; [by repeat constructor | done].
    + eexists _, [_]. unfold throw. split; [reflexivity|].
      split; [by repeat constructor|]. done.
Qed.

(** What [installExtensions] does, seen from outside: it only probes
    folders, spawns and prints; and it spawns at most one uninstall
    invocation, then at most one install invocation followed by its
    retry. *)
Lemma installExtensions_run exe udd uninstall install (l : L) trace :
  exists r new,
    installExtensions world exe udd uninstall install (l, trace)
    = (r, (l, trace ++ new))
    /\ Forall (fun e => isProvisioning e = true) new
    /\ exists uninstalls,
         (uninstalls = []
          \/ exists command args result,
               uninstalls = [(command, args, Inherit, result)])
         /\ (spawnCalls new = uninstalls
             \/ exists first after,
                  spawnCalls new = uninstalls ++ first :: after
                  /\ first.1.2 = Pipe
                  /\ retriedOnce first after).
Proof.
  destruct (installExtensions world exe udd uninstall install (l, trace))
    as (r, (l', trace')) eqn:E.
  unfold installExtensions in E.
  destruct (isUndefinedOrEmpty install && isUndefinedOrEmpty uninstall).
  { injection E as <- <- <-. exists (Ok tt), [].
    rewrite app_nil_r. split; [done|]. split; [done|].
    exists []. split; [by left | by left]. }
  rewrite bind_run in E. unfold getInstallArgsFromInstallationFolders in E.
  destruct (getInstallArgsLoop_run (default [] install) [] l trace)
    as (rargs & probes & Hprobes & Hprov & Hnospawn).
  rewrite Hprobes in E. destruct rargs as [installArgs|e].
  2:{ injection E as <- <- <-. exists (Throw e), probes.
      split; [done|]. split; [done|]. exists []. split; [by left|].
      by left. }
  unfold spawnSync, consoleLog, consoleError in E.
  destruct (Nat.ltb 0 (length (default [] uninstall)));
    destruct (Nat.ltb 0 (length (default [] install)));
    eff_run_in E.
  - match type of E with
    | context [installFailedAskingForRestart ?res] =>
        destruct (installFailedAskingForRestart res) eqn:Hsig
    end; eff_run_in E; injection E as <- <- <-;
      rewrite <- ?app_assoc in Hsig; cbn [List.app] in Hsig;
      rewrite <- !app_assoc; cbn [List.app]; eexists _, _;
      (split; [reflexivity|]);
      (split; [rewrite !Forall_app; split; [done | by repeat constructor]|]);
      eexists [_]; (split; [right; by eexists _, _, _|]);
      right; unfold spawnCalls; rewrite omap_app;
      fold (spawnCalls probes); rewrite Hnospawn; cbn;
      eexists _, _; (split; [reflexivity|]); (split; [reflexivity|]);
      unfold retriedOnce; rewrite Hsig; eauto.
  - injection E as <- <- <-.
    rewrite <- !app_assoc; cbn [List.app]; eexists _, _;
      (split; [reflexivity|]).
    split; [rewrite !Forall_app; split; [done | by repeat constructor]|].
    eexists [_]. split; [right; by eexists _, _, _|].
    left. unfold spawnCalls. rewrite omap_app.
    fold (spawnCalls probes). by rewrite Hnospawn.
  - match type of E with
    | context [installFailedAskingForRestart ?res] =>
        destruct (installFailedAskingForRestart res) eqn:Hsig
    end; eff_run_in E; injection E as <- <- <-;
      rewrite <- ?app_assoc in Hsig; cbn [List.app] in Hsig;
      rewrite <- !app_assoc; cbn [List.app]; eexists _, _;
      (split; [reflexivity|]);
      (split; [rewrite !Forall_app; split; [done | by repeat constructor]|]);
      exists []; (split; [by left|]);
      right; unfold spawnCalls; rewrite omap_app;
      fold (spawnCalls probes); rewrite Hnospawn; cbn;
      eexists _, _; (split; [reflexivity|]); (split; [reflexivity|]);
      unfold retriedOnce; rewrite Hsig; eauto.
  - injection E as <- <- <-. exists (Ok tt), probes.
    split; [done|]. split; [done|]. exists []. split; [by left|].
    by left.
Qed.

(** C4. In extension provisioning, a first install invocation (the one
    whose output is captured) whose [stderr] contains both ["Failed"] and
    ["restart"] is followed by exactly one more invocation, of the same
    command with the same argument list; when [stderr] lacks either
    substring nothing is invoked after it. *)
Theorem install_retried_once exe udd uninstall install (l l' : L)
    trace r new :
  installExtensions world exe udd uninstall install (l, trace)
  = (r, (l', trace ++ new)) ->
  forall before command args result after,
    spawnCalls new = before ++ (command, args, Pipe, result) :: after ->
    Forall (fun c : SpawnCall => c.1.2 = Inherit) before
    /\ (forall text,
          stderr result = Some text ->
          if includes text "Failed" && includes text "restart"
          then exists result', after = [(command, args, Inherit, result')]
          else after = [])
    /\ (stderr result = None -> after = []).
Proof.
  intros Hrun before command args result after Hcalls.
  destruct (installExtensions_run exe udd uninstall install l trace)
    as (r' & new' & Hrun' & _ & uninstalls & Huninstalls & Hshape).
  rewrite Hrun in Hrun'. injection Hrun' as _ _ Hnew.
  apply app_inv_head in Hnew as <-.
  assert (Forall (fun c : SpawnCall => c.1.2 = Inherit) uninstalls)
    as Hinherit.
  { destruct Huninstalls as [->|(c & a & res & ->)]; by repeat constructor. }
  destruct Hshape as [Hnone|(first & after' & Hsome & Hpipe & Hretry)].
  { exfalso. rewrite Hnone in Hcalls.
    assert ((command, args, Pipe, result) ∈ uninstalls) as Hin
      by (rewrite Hcalls; apply elem_of_app; right; apply elem_of_cons;
          by left).
    rewrite (Forall_forall (fun c : SpawnCall => c.1.2 = Inherit)) in Hinherit.
    by specialize (Hinherit _ Hin). }
  rewrite Hsome in Hcalls.
  destruct first as (((command', args'), stdio'), result').
  cbn in Hpipe. subst stdio'. unfold retriedOnce in Hretry.
  assert (Forall (fun c : SpawnCall => c.1.2 = Inherit) after') as Hafter.
  { destruct (installFailedAskingForRestart result').
    - destruct Hretry as (? & ->). by repeat constructor.
    - by subst after'. }
  destruct (piped_call_unique before uninstalls after after'
              (command, args, Pipe, result) (command', args', Pipe, result'))
    as (-> & [= -> -> ->] & ->); [done..|].
  split; [done|].
  unfold installFailedAskingForRestart in Hretry. split.
  - intros text Htext. by rewrite Htext in Hretry.
  - intros Hundefined. by rewrite Hundefined in Hretry.
Qed.

End ProvisionerFacts.

Lemma install_retried_once_witness :
  installExtensions demoWorld "vscode-path" None (Some ["old.ext"])
    (Some ["/deps"]) (tt, [])
  = (Ok tt, (tt, [] ++ demoProvisioning))
  /\ stderr failedInstall = Some restartMessage
  /\ exists result',
       [("vscode-cli-path", demoInstallArgs, Inherit, quietSpawn)]
       = [("vscode-cli-path", demoInstallArgs, Inherit, result')].
Proof.
  assert (installExtensions demoWorld "vscode-path" None (Some ["old.ext"])
            (Some ["/deps"]) (tt, [])
          = (Ok tt, (tt, [] ++ demoProvisioning))) as Hrun
    by (by vm_compute).
  split; [exact Hrun|]. split; [reflexivity|].
  destruct (install_retried_once demoWorld "vscode-path" None
              (Some ["old.ext"]) (Some ["/deps"]) tt tt [] (Ok tt)
              demoProvisioning Hrun
              [("vscode-cli-path",
                ["--uninstall-extension"; "old.ext"; "--force"],
                Inherit, quietSpawn)]
              "vscode-cli-path" demoInstallArgs failedInstall
              [("vscode-cli-path", demoInstallArgs, Inherit, quietSpawn)]
              eq_refl)
    as (_ & Hretry & _).
  exact (Hretry restartMessage eq_refl).
Defined.

(** ** The launcher *)

Section LauncherFacts.

Variable world : World.







End LauncherFacts.



(** ** The in-host test executor *)

Section ExecutorFacts.

Import MochaTests.

Variable host : Host.
Context {L : Type}.

Lemma mochaRunOutcomes_app (a b : list TestEvent) :
  mochaRunOutcomes (a ++ b) = mochaRunOutcomes a ++ mochaRunOutcomes b.
Proof. apply omap_app. Qed.

Lemma globCalls_app (a b : list TestEvent) :
  globCalls (a ++ b) = globCalls a ++ globCalls b.
Proof. apply omap_app. Qed.

(** Loading the required modules neither discovers nor runs tests. *)
Lemma requireEach_run modules (l : L) trace :
  exists r new,
    requireEach host modules (l, trace) = (r, (l, trace ++ new))
    /\ mochaRunOutcomes new = [] /\ globCalls new = [].
Proof.
  revert trace. induction modules as [|module modules IH]; intros trace.
  - exists (Ok tt), []. by rewrite app_nil_r.
  - destruct module;
      try (eexists (Throw _), []; by rewrite app_nil_r).
    cbn [requireEach]. rewrite bind_run.
    unfold requireModule at 1, attempt. cbn [fst snd].
    destruct (h_requireModule host trace s) as [[]|e].
    + destruct (IH (trace ++ [ERequireModule s (Ok tt)]))
        as (r & new & -> & Hruns & Hglobs).
      exists r, (ERequireModule s (Ok tt) :: new).
      rewrite <- app_assoc. done.
    + by eexists (Throw e), [_].
Qed.

Lemma handleRequire_run config (l : L) trace :
  exists r new,
    handleRequire host config (l, trace) = (r, (l, trace ++ new))
    /\ mochaRunOutcomes new = [] /\ globCalls new = [].
Proof.
  unfold handleRequire. rewrite bind_run.
  assert (forall modules,
            exists r new,
              match requireEach host modules (l, trace) with
              | (Ok _, st') =>
                  (mret (delete "require" config)
                   : Eff L TestEvent (gmap string JsValue)) st'
              | (Throw e, st') => (Throw e, st')
              end = (r, (l, trace ++ new))
              /\ mochaRunOutcomes new = [] /\ globCalls new = [])
    as Heach.
  { intros modules.
    destruct (requireEach_run modules l trace)
      as ([[]|e] & new & -> & ? & ?); eauto. }
  destruct (prop config "require");
    try (eexists (Ok _), []; by rewrite app_nil_r); apply Heach.
Qed.

Lemma addFiles_run mochaCwd files (l : L) trace :
  exists new,
    addFiles host mochaCwd files (l, trace) = (Ok tt, (l, trace ++ new))
    /\ mochaRunOutcomes new = [].
Proof.
  revert trace. induction files as [|f files IH]; intros trace.
  - exists []. by rewrite app_nil_r.
  - cbn [addFiles]. rewrite bind_run. unfold addFile at 1, perform.
    cbn [fst snd].
    destruct (IH (trace ++ [EAddFile (Path.resolve (h_cwd host)
                                        [mochaCwd; f])]))
      as (new & -> & Hruns).
    eexists (_ :: new). rewrite <- app_assoc. done.
Qed.

(** [runMocha] asks the runner at most once, and settles on its answer. *)
Lemma runMocha_run globPattern config mochaCwd (l : L) trace :
  exists r new,
    runMocha host globPattern config mochaCwd (l, trace)
    = (r, (l, trace ++ new))
    /\ (mochaRunOutcomes new = []
        \/ exists outcome,
             mochaRunOutcomes new = [outcome] /\ r = settled outcome).
Proof.
  unfold runMocha. rewrite bind_run. unfold newMocha, attempt.
  cbn [fst snd].
  destruct (h_newMocha host trace config) as [[]|e].
  2:{ eexists (Throw e), [_]. split; [done|]. by left. }
  rewrite bind_run. unfold glob, attempt. cbn [fst snd].
  destruct (h_glob host _ globPattern mochaCwd) as [files|e].
  2:{ eexists (Throw e), [_; _]. rewrite <- app_assoc.
      split; [done|]. by left. }
  rewrite bind_run.
  destruct (addFiles_run mochaCwd files l
              ((trace ++ [ENewMocha config (Ok tt)])
               ++ [EGlob globPattern mochaCwd (Ok files)]))
    as (added & -> & Hadded).
  rewrite bind_run. unfold mochaRun, perform. cbn [fst snd].
  match goal with
  | |- context [h_mochaRun host ?t] => set (outcome := h_mochaRun host t)
  end.
  exists (settled outcome),
    (ENewMocha config (Ok tt) :: EGlob globPattern mochaCwd (Ok files)
     :: added ++ [EMochaRun outcome]).
  split.
  - rewrite <- !app_assoc. cbn [List.app].
    destruct outcome as [e|failures]; cbn [settled]; [done|].
    by destruct (Nat.ltb 0 failures).
  - right. exists outcome. split; [|done].
    change (mochaRunOutcomes (?a :: ?b :: ?c))
      with (mochaRunOutcomes ([a; b] ++ c)).
    by rewrite !mochaRunOutcomes_app, Hadded.
Qed.

Lemma handleSpec_run config (l : L) trace :
  exists r, handleSpec config (l, trace) = (r, (l, trace)).
Proof. unfold handleSpec. destruct (prop config "spec"); by eexists. Qed.

Lemma run_run (l : L) trace :
  exists r new,
    run host (l, trace) = (r, (l, trace ++ new))
    /\ (mochaRunOutcomes new = []
        \/ exists outcome,
             mochaRunOutcomes new = [outcome] /\ r = settled outcome).
Proof.
  assert (forall (body : Eff L TestEvent unit),
            (exists r new,
                body (l, trace) = (r, (l, trace ++ new))
                /\ (mochaRunOutcomes new = []
                    \/ exists outcome,
                         mochaRunOutcomes new = [outcome]
                         /\ r = settled outcome)) ->
            exists r new,
              tryCatch body (fun e => consoleError e;; throw e) (l, trace)
              = (r, (l, trace ++ new))
              /\ (mochaRunOutcomes new = []
                  \/ exists outcome,
                       mochaRunOutcomes new = [outcome]
                       /\ r = settled outcome)) as Hcatch.
  { intros body (r & new & Hbody & Hshape). unfold tryCatch.
    rewrite Hbody. destruct r as [[]|e]; [eauto|].
    rewrite bind_run. unfold consoleError, perform, throw. cbn [fst snd].
    exists (Throw e), (new ++ [EConsoleError e]). rewrite app_assoc.
    split; [done|]. rewrite mochaRunOutcomes_app, app_nil_r. exact Hshape. }
  unfold run. apply Hcatch.
  destruct (h_env host !! ENV_VAR_MOCHA_CONFIG_PATH) as [configPath|];
    [|eexists (Throw _), []; rewrite app_nil_r; split; [done | by left]].
  destruct (h_env host !! ENV_VAR_MOCHA_CWD) as [mochaCwd|];
    [|eexists (Throw _), []; rewrite app_nil_r; split; [done | by left]].
  rewrite bind_run. unfold requireConfig, attempt. cbn [fst snd].
  destruct (h_requireConfig host trace configPath) as [config|e].
  2:{ eexists (Throw e), [_]. split; [done | by left]. }
  rewrite bind_run.
  destruct (handleSpec_run config l
              (trace ++ [ERequireConfig configPath (Ok config)]))
    as ([(globPattern & config')|e] & ->).
  2:{ eexists (Throw e), [_]. split; [done | by left]. }
  rewrite bind_run.
  destruct (handleRequire_run config' l
              (trace ++ [ERequireConfig configPath (Ok config)]))
    as ([config''|e] & required & -> & Hruns & _).
  2:{ eexists (Throw e), (_ :: required). rewrite <- app_assoc.
      split; [done|]. left.
      change (mochaRunOutcomes (?a :: ?b))
        with (mochaRunOutcomes ([a] ++ b)).
      by rewrite mochaRunOutcomes_app, Hruns. }
  destruct (runMocha_run globPattern config'' mochaCwd l
              ((trace ++ [ERequireConfig configPath (Ok config)])
               ++ required))
    as (r & ran & -> & Hshape).
  exists r, (ERequireConfig configPath (Ok config) :: required ++ ran).
  rewrite <- !app_assoc. split; [done|].
  change (mochaRunOutcomes (?a :: ?b)) with (mochaRunOutcomes ([a] ++ b)).
  rewrite !mochaRunOutcomes_app, Hruns. exact Hshape.
Qed.

(** C5. When the test runner reports a failing-test count, [run] rejects
    with the error ["N tests failed."] exactly when the count [N] is
    greater than zero, and resolves when it is zero. *)
Theorem failing_tests_reject (l l' : L) trace r new failures :
  run host (l, trace) = (r, (l', trace ++ new)) ->
  EMochaRun (RunReports failures) ∈ new ->
  (r = Throw (pretty failures +:+ " tests failed.") <-> 0 < failures)
  /\ (failures = 0 -> r = Ok tt).
Proof.
  intros Hrun Hreported.
  destruct (run_run l trace) as (r' & new' & Hrun' & Hshape).
  rewrite Hrun in Hrun'. injection Hrun' as -> _ Hnew.
  apply app_inv_head in Hnew as <-.
  assert (RunReports failures ∈ mochaRunOutcomes new) as Hin.
  { unfold mochaRunOutcomes. apply list_elem_of_omap.
    by exists (EMochaRun (RunReports failures)). }
  destruct Hshape as [Hnone|(outcome & Hone & ->)].
  { rewrite Hnone in Hin. by apply elem_of_nil in Hin. }
  rewrite Hone in Hin. apply list_elem_of_singleton in Hin as <-.
  cbn [settled]. destruct (Nat.ltb_spec 0 failures) as [Hpos|Hzero].
  - split; [done | lia].
  - split; [split; [discriminate | lia] | done].
Qed.

End ExecutorFacts.

Lemma failing_tests_reject_witness :
  MochaTests.run (hostReporting plainMochaConfig 1) (tt, [])
  = (Throw "1 tests failed.", (tt, [] ++ failedRunEvents))
  /\ ((Throw "1 tests failed." : Result unit)
       = Throw (pretty 1 +:+ " tests failed.")
      <-> 0 < 1).
Proof.
  assert (MochaTests.run (hostReporting plainMochaConfig 1) (tt, [])
          = (Throw "1 tests failed.", (tt, [] ++ failedRunEvents))) as Hrun
    by (by vm_compute).
  split; [exact Hrun|].
  apply (failing_tests_reject (hostReporting plainMochaConfig 1) tt tt []
           (Throw "1 tests failed.") failedRunEvents 1 Hrun).
  unfold failedRunEvents. do 4 apply list_elem_of_further.
  apply list_elem_of_here.
Defined.

(** *** The [require] property *)

Section RequireFacts.

Import MochaTests.

Variable host : Host.
Context {L : Type}.

(** A [require] that is neither absent, nor a string, nor an array goes
    through [handleRequire] without any check. *)
Lemma handleRequire_accepts_other_values config (st : L * list TestEvent) :
  match prop config "require" with
  | JsNull | JsBool _ | JsNumber _ | JsObject _ => True
  | _ => False
  end ->
  handleRequire host config st = (Ok (delete "require" config), st).
Proof. unfold handleRequire. by destruct (prop config "require"). Qed.

(** In an array, the first entry that is not a string is reported with
    the error about [require], once the entries before it have been
    loaded, and before any test file is looked for. *)
Lemma requireEach_rejects_bad_entry loaded bad rest (l : L) trace :
  (forall events module, h_requireModule host events module = Ok tt) ->
  isString bad = false ->
  exists new,
    requireEach host (List.map JsString loaded ++ bad :: rest) (l, trace)
    = (Throw ("require property in Mocha configuration must be a string or array of strings. Unexpected value: "
              +:+ toJsString bad),
       (l, trace ++ new))
    /\ globCalls new = [].
Proof.
  intros Hloads Hbad. revert trace.
  induction loaded as [|module loaded IH]; intros trace.
  - exists []. rewrite app_nil_r. by destruct bad.
  - cbn [List.map List.app requireEach]. rewrite bind_run.
    unfold requireModule at 1, attempt. cbn [fst snd]. rewrite Hloads.
    destruct (IH (trace ++ [ERequireModule module (Ok tt)]))
      as (new & -> & Hglobs).
    exists (ERequireModule module (Ok tt) :: new).
    by rewrite <- app_assoc.
Qed.

End RequireFacts.

(** C7 is not met by the code: a mocha configuration whose [require] is the
    number [5] (neither absent, nor a string, nor an array of strings) is
    accepted: [run] discovers the test files, runs them and resolves. *)
Lemma require_number_accepted :
  prop numberRequireConfig "require" = JsNumber 5
  /\ MochaTests.run (hostReporting numberRequireConfig 0) (tt, [])
     = (Ok tt, (tt, numberRequireEvents))
  /\ globCalls numberRequireEvents = [("test/**/*.test.js", "/proj")]
  /\ ~ failsNaming "require"
         (MochaTests.run (hostReporting numberRequireConfig 0) (tt, [])).1.
Proof.
  split; [reflexivity|]. split; [by vm_compute|]. split; [reflexivity|].
  intros (message & Hthrow & _). vm_compute in Hthrow. discriminate.
Qed.

(** * Further properties of the code *)

(** ** The resolver *)

Lemma assertStringOrUndefined_typed (name : string) (value : JsValue)
    (narrowed : option string) :
  assertStringOrUndefinedParameter name value = Ok narrowed ->
  isStringOrUndefined value = true
  /\ (forall s, value = JsString s -> narrowed = Some s)
  /\ (value = JsUndefined -> narrowed = None).
Proof.
  destruct value; cbn; try discriminate; intros [= <-];
    (split; [done|]); split; congruence.
Qed.

Lemma assertStringEntries_strings (name : string) (ids : list string) :
  assertStringEntries name (List.map JsString ids) = Ok ids.
Proof. induction ids as [|id ids IH]; cbn; [done|]. by rewrite IH. Qed.

Lemma assertStringArrayOrUndefined_typed (name : string) (value : JsValue)
    (narrowed : option (list string)) :
  assertStringArrayOrUndefinedParameter name value = Ok narrowed ->
  isStringArrayOrUndefined value = true
  /\ (forall ids, value = JsArray (List.map JsString ids) ->
                  narrowed = Some ids)
  /\ (value = JsUndefined -> narrowed = None).
Proof.
  unfold isStringArrayOrUndefined.
  destruct value as [| | | | |items|]; cbn; try discriminate.
  - intros [= <-]. split; [done|]. split; congruence.
  - intros H. apply bind_Ok_inv in H as (strings & Hstrings & [= <-]).
    split.
    + destruct (assertStringEntries_name name "" items) as (l & -> & _);
        [by rewrite Hstrings | done].
    + split; [|discriminate]. intros ids [= ->].
      rewrite assertStringEntries_strings in Hstrings. congruence.
Qed.

Section ResolverInvariants.

Variable cwd : string.
Variable pathExists : string -> bool.
Variable stat : string -> Result Stats.

(** X1. No ill-typed field gets through: in a configuration that resolves,
    the string fields are strings or absent, [mochaConfigPath] is a string,
    the array fields are arrays of strings or absent, the two flags are
    booleans or absent, and with coverage requested [nycConfigPath] is a
    string. *)
Theorem resolved_config_is_well_typed configPath config isCoverage r :
  validateAndResolveConfiguration cwd pathExists stat
    configPath config isCoverage = Ok r ->
  isStringOrUndefined (prop config "extensionDevelopmentPath") = true
  /\ isStringOrUndefined (prop config "userDataDir") = true
  /\ isStringOrUndefined (prop config "vscodeVersion") = true
  /\ isStringOrUndefined (prop config "workspacePath") = true
  /\ isString (prop config "mochaConfigPath") = true
  /\ isStringArrayOrUndefined (prop config "uninstallExtensionIDs") = true
  /\ isStringArrayOrUndefined (prop config "disabledExtensionIDs") = true
  /\ isStringArrayOrUndefined (prop config "additionalExtensionFolders") = true
  /\ isBooleanOrUndefined (prop config "initWorkspace") = true
  /\ isBooleanOrUndefined (prop config "disableAllExtensions") = true
  /\ (isCoverage = true -> isString (prop config "nycConfigPath") = true).
Proof.
  intros E. apply validateAndResolve_Ok_inv in E.
  destruct E as (edp & udd & vv & uids & dids & aef & mcp & nyc & wp & iw
                 & dae & Hedp & Hudd & Hvv & Huids & Hdids & Haef & Hmcp
                 & Hnyc & Hwp & _ & Hiw & Hdae & _).
  apply assertStringOrUndefined_typed in Hedp as (? & _).
  apply assertStringOrUndefined_typed in Hudd as (? & _).
  apply assertStringOrUndefined_typed in Hvv as (? & _).
  apply assertStringOrUndefined_typed in Hwp as (? & _).
  apply assertStringArrayOrUndefined_typed in Huids as (? & _).
  apply assertStringArrayOrUndefined_typed in Hdids as (? & _).
  apply assertStringArrayOrUndefined_typed in Haef as (? & _).
  repeat split; try assumption.
  - by rewrite Hmcp.
  - unfold validateInitWorkspace in Hiw.
    by destruct (prop config "initWorkspace").
  - unfold validateDisableAllExtensions in Hdae.
    by destruct (prop config "disableAllExtensions").
  - intros ->. unfold validateNycConfigPath in Hnyc.
    destruct (prop config "nycConfigPath"); try discriminate. done.
Qed.

(** X2. What a resolved configuration guarantees about the workspace: its
    [workspacePath] ends in [.code-workspace] or is an existing folder, and
    [initWorkspace] is [true] only for a path ending in
    [.code-workspace]. *)
Theorem resolved_workspace_invariant configPath config isCoverage r :
  validateAndResolveConfiguration cwd pathExists stat
    configPath config isCoverage = Ok r ->
  (endsWith (workspacePath r) ".code-workspace" = true
   \/ (pathExists (workspacePath r) = true
       /\ stat (workspacePath r) = Ok {| isDirectory := true |}))
  /\ (initWorkspace r = true ->
      endsWith (workspacePath r) ".code-workspace" = true).
Proof.
  intros E. apply validateAndResolve_Ok_inv in E.
  destruct E as (? & ? & ? & ? & ? & ? & ? & ? & wp & iw & ? & _ & _ & _ & _
                 & _ & _ & _ & _ & _ & Hfolder & Hiw & _ & ->).
  cbn [workspacePath initWorkspace].
  set (workspace := Path.resolve _ _) in *.
  destruct (endsWith workspace ".code-workspace") eqn:Hsuffix.
  { split; [by left | done]. }
  split.
  - right. specialize (Hfolder eq_refl). unfold checkWorkspaceFolder in Hfolder.
    destruct (pathExists workspace); [|discriminate]. split; [done|].
    cbn in Hfolder. destruct (stat workspace) as [[[]]|]; by cbn in Hfolder.
  - intros ->. unfold validateInitWorkspace in Hiw.
    destruct (prop config "initWorkspace") as [| |[]| | | |];
      cbn in Hiw; discriminate.
Qed.

(** X3. Properties that the resolver does not know are ignored: adding
    one to a configuration, or changing its value, does not change the
    outcome. The key [__proto__] is left out: it names the prototype of the
    object, through which the known properties can be inherited. *)
Theorem unknown_keys_ignored configPath config isCoverage key value :
  key ∉ configurationKeys ->
  key <> "__proto__" ->
  validateAndResolveConfiguration cwd pathExists stat configPath
    (<[key := value]> config) isCoverage
  = validateAndResolveConfiguration cwd pathExists stat
      configPath config isCoverage.
Proof.
  unfold configurationKeys. rewrite !not_elem_of_cons.
  intros (? & ? & ? & ? & ? & ? & ? & ? & ? & ? & ? & _) _.
  unfold validateAndResolveConfiguration, validateNycConfigPath,
    validateInitWorkspace, validateDisableAllExtensions.
  by rewrite !prop_insert_ne by done.
Qed.

(** X4. [vscodeVersion], [uninstallExtensionIDs] and [disabledExtensionIDs]
    are handed over as given, without being resolved as paths. *)
Theorem pass_through_fields configPath config isCoverage r :
  validateAndResolveConfiguration cwd pathExists stat
    configPath config isCoverage = Ok r ->
  (forall version, prop config "vscodeVersion" = JsString version ->
                   vscodeVersion r = Some version)
  /\ (prop config "vscodeVersion" = JsUndefined -> vscodeVersion r = None)
  /\ (forall ids,
        prop config "uninstallExtensionIDs" = JsArray (List.map JsString ids) ->
        uninstallExtensionIDs r = Some ids)
  /\ (prop config "uninstallExtensionIDs" = JsUndefined ->
      uninstallExtensionIDs r = None)
  /\ (forall ids,
        prop config "disabledExtensionIDs" = JsArray (List.map JsString ids) ->
        disabledExtensionIDs r = Some ids)
  /\ (prop config "disabledExtensionIDs" = JsUndefined ->
      disabledExtensionIDs r = None).
Proof.
  intros E. apply validateAndResolve_Ok_inv in E.
  destruct E as (? & ? & vv & uids & dids & ? & ? & ? & ? & ? & ? & _ & _
                 & Hvv & Huids & Hdids & _ & _ & _ & _ & _ & _ & _ & ->).
  cbn [vscodeVersion uninstallExtensionIDs disabledExtensionIDs].
  apply assertStringOrUndefined_typed in Hvv as (_ & ? & ?).
  apply assertStringArrayOrUndefined_typed in Huids as (_ & ? & ?).
  apply assertStringArrayOrUndefined_typed in Hdids as (_ & ? & ?).
  repeat split; assumption.
Qed.

(** X5. A [workspacePath] that does not end in [.code-workspace] and is not
    an existing folder (nothing is there, or what is there is not a folder)
    is never accepted; the error is the one about [workspacePath] as soon as
    everything checked before it passes. *)
Theorem workspacePath_rejected configPath config isCoverage wp :
  assertStringOrUndefinedParameter "workspacePath"
    (prop config "workspacePath") = Ok wp ->
  let workspace :=
    Path.resolve cwd
      [configDir cwd configPath; default "test.code-workspace" wp] in
  endsWith workspace ".code-workspace" = false ->
  pathExists workspace = false
  \/ stat workspace = Ok {| isDirectory := false |} ->
  isOk (validateAndResolveConfiguration cwd pathExists stat
          configPath config isCoverage) = false
  /\ (validBeforeWorkspacePath config isCoverage = true ->
      validateAndResolveConfiguration cwd pathExists stat
        configPath config isCoverage
      = Throw "Configuration error: workspacePath must end with .code-workspace or be an existing folder").
Proof.
  intros Hwp workspace Hsuffix Hnofolder.
  assert (checkWorkspaceFolder pathExists stat workspace
          = Throw "Configuration error: workspacePath must end with .code-workspace or be an existing folder")
    as Hcheck.
  { unfold checkWorkspaceFolder.
    destruct (pathExists workspace); [|done].
    destruct Hnofolder as [? | ->]; [discriminate | done]. }
  split.
  - destruct (validateAndResolveConfiguration cwd pathExists stat
                configPath config isCoverage) as [r|e] eqn:E; [|done].
    apply validateAndResolve_Ok_inv in E.
    destruct E as (? & ? & ? & ? & ? & ? & ? & ? & wp' & ? & ? & _ & _ & _
                   & _ & _ & _ & _ & _ & Hwp' & Hfolder & _).
    assert (wp' = wp) as -> by congruence.
    fold workspace in Hfolder. specialize (Hfolder Hsuffix). congruence.
  - unfold validBeforeWorkspacePath. rewrite !andb_true_iff.
    intros ((Hvalid & Hmocha) & Hnyc).
    apply validBeforeMochaConfigPath_inv in Hvalid
      as (edp & udd & vv & uids & dids & aef & H1 & H2 & H3 & H4 & H5 & H6).
    destruct (prop config "mochaConfigPath") as [| | | |mcp| |] eqn:Hmcp;
      try discriminate.
    assert (exists nyc,
               validateNycConfigPath cwd isCoverage config
                 (configDir cwd configPath) = Ok nyc) as (nyc & Hnyc').
    { unfold validateNycConfigPath. destruct isCoverage; [|eauto].
      cbn in Hnyc. destruct (prop config "nycConfigPath"); try discriminate.
      cbn. eauto. }
    unfold validateAndResolveConfiguration.
    rewrite H1, H2, H3, H4, H5, H6, Hmcp. cbn.
    unfold configDir, resolve in *. rewrite Hnyc', Hwp. cbn.
    fold workspace. rewrite Hsuffix. cbn. by rewrite Hcheck.
Qed.

(** X6. An explicit [initWorkspace] is kept in a configuration that
    resolves: [false] switches the initialisation off even for a workspace
    file that does not exist, and [true] asks for it even when the file
    exists. *)
Theorem explicit_initWorkspace_kept configPath config isCoverage r explicit :
  validateAndResolveConfiguration cwd pathExists stat
    configPath config isCoverage = Ok r ->
  prop config "initWorkspace" = JsBool explicit ->
  initWorkspace r = explicit.
Proof.
  intros E Hset. apply validateAndResolve_Ok_inv in E.
  destruct E as (? & ? & ? & ? & ? & ? & ? & ? & ? & iw & ? & _ & _ & _ & _
                 & _ & _ & _ & _ & _ & _ & Hiw & _ & ->).
  cbn [initWorkspace]. unfold validateInitWorkspace in Hiw.
  rewrite Hset in Hiw.
  destruct (explicit && negb (endsWith _ _)); [discriminate|].
  by injection Hiw.
Qed.

End ResolverInvariants.

Lemma resolved_config_is_well_typed_witness :
  isString (prop richConfig "mochaConfigPath") = true
  /\ isBooleanOrUndefined (prop richConfig "initWorkspace") = true.
Proof.
  assert (demoResolve richConfig false = Ok resolvedRich) as E
    by (by vm_compute).
  destruct (resolved_config_is_well_typed "/cwd" demoExists demoStat
              "/proj/config.json" richConfig false resolvedRich E)
    as (_ & _ & _ & _ & Hmocha & _ & _ & _ & Hinit & _).
  by split.
Defined.

Lemma resolved_workspace_invariant_witness :
  (endsWith (workspacePath resolvedRich) ".code-workspace" = true
   \/ (demoExists (workspacePath resolvedRich) = true
       /\ demoStat (workspacePath resolvedRich) = Ok {| isDirectory := true |}))
  /\ (initWorkspace resolvedRich = true ->
      endsWith (workspacePath resolvedRich) ".code-workspace" = true).
Proof.
  apply (resolved_workspace_invariant "/cwd" demoExists demoStat
           "/proj/config.json" richConfig false resolvedRich).
  by vm_compute.
Defined.

Lemma unknown_keys_ignored_witness :
  ("comment" ∉ configurationKeys)
  /\ "comment" <> "__proto__"
  /\ demoResolve (<["comment" := JsNull]> minimalConfig) false
     = demoResolve minimalConfig false.
Proof.
  assert ("comment" ∉ configurationKeys) as Hunknown.
  { unfold configurationKeys. rewrite !not_elem_of_cons.
    repeat split; try discriminate. apply not_elem_of_nil. }
  assert ("comment" <> "__proto__") as Hown by discriminate.
  split; [exact Hunknown|]. split; [exact Hown|].
  exact (unknown_keys_ignored "/cwd" demoExists demoStat "/proj/config.json"
           minimalConfig false "comment" JsNull Hunknown Hown).
Defined.

Lemma pass_through_fields_witness :
  vscodeVersion resolvedRich = Some "insiders"
  /\ uninstallExtensionIDs resolvedRich = Some ["pub.old"]
  /\ disabledExtensionIDs resolvedRich = None.
Proof.
  assert (demoResolve richConfig false = Ok resolvedRich) as E
    by (by vm_compute).
  destruct (pass_through_fields "/cwd" demoExists demoStat
              "/proj/config.json" richConfig false resolvedRich E)
    as (Hversion & _ & Huninstall & _ & _ & Hdisabled).
  split; [by apply Hversion|].
  split; [by apply (Huninstall ["pub.old"]) | by apply Hdisabled].
Defined.

Lemma workspacePath_rejected_witness :
  demoResolve unknownWorkspaceConfig false
  = Throw "Configuration error: workspacePath must end with .code-workspace or be an existing folder".
Proof.
  destruct (workspacePath_rejected "/cwd" demoExists demoStat
              "/proj/config.json" unknownWorkspaceConfig false
              (Some "unknownPath"))
    as (_ & Hnames);
    [reflexivity | reflexivity | by left |].
  by apply Hnames.
Defined.

Lemma explicit_initWorkspace_kept_witness :
  initWorkspace resolvedRich = false.
Proof.
  apply (explicit_initWorkspace_kept "/cwd" demoExists demoStat
           "/proj/config.json" richConfig false resolvedRich false);
    [by vm_compute | reflexivity].
Defined.

Lemma omap_cons_eq {A B} (f : A -> option B) (x : A) (xs : list A) :
  omap f (x :: xs)
  = match f x with Some y => y :: omap f xs | None => omap f xs end.
Proof. reflexivity. Qed.

Lemma omap_nil_eq {A B} (f : A -> option B) : omap f [] = [].
Proof. reflexivity. Qed.

(** ** The extension provisioner, step by step *)

Lemma Probes_success folders listed new :
  Probes folders (Ok listed) new ->
  probedFolders new = folders
  /\ map fst (listings new) = folders
  /\ Forall (fun listing => vsixFiles listing.2 <> []) (listings new)
  /\ listed = listedInstallArgs new
  /\ spawnCalls new = [].
Proof.
  intros Hprobes.
  remember (Ok listed) as r eqn:Hr. revert listed Hr.
  induction Hprobes as [| | | |folder rest files r events Hvsix _ IH];
    intros listed Hr; try discriminate.
  - by injection Hr as <-.
  - destruct r as [listed'|]; [|discriminate]. injection Hr as <-.
    destruct (IH listed' eq_refl) as (Hprobed & Hlisted & Hall & -> & Hspawn).
    unfold probedFolders, listings, listedInstallArgs, spawnCalls in *.
    rewrite !omap_cons_eq. cbn [map fst snd flat_map spawnCall].
    rewrite Hprobed, Hlisted, Hspawn. repeat split. by constructor.
Qed.

Lemma Probes_rejected folders e new :
  Probes folders (Throw e) new ->
  exists before folder after,
    folders = before ++ folder :: after
    /\ probedFolders new = before ++ [folder]
    /\ (last new = Some (EPathExists folder false)
        /\ e = missingFolderMessage folder
        \/ last new = Some (EReaddir folder (Throw e))
        \/ exists files,
             last new = Some (EReaddir folder (Ok files))
             /\ vsixFiles files = []
             /\ e = noVsixMessage folder)
    /\ spawnCalls new = [].
Proof.
  intros Hprobes.
  remember (Throw e) as r eqn:Hr. revert Hr.
  induction Hprobes as [|folder rest|folder rest e'|folder rest files Hnone
                       |folder rest files r events Hvsix _ IH];
    intros Hr; try discriminate.
  - injection Hr as <-. exists [], folder, rest. repeat split. by left.
  - injection Hr as <-. exists [], folder, rest. repeat split.
    right. by left.
  - injection Hr as <-. exists [], folder, rest. repeat split.
    right. right. by exists files.
  - destruct r as [|e'']; [discriminate|]. injection Hr as ->.
    destruct (IH eq_refl)
      as (before & bad & after & -> & Hprobed & Hlast & Hspawn).
    exists (folder :: before), bad, after.
    unfold probedFolders, spawnCalls in *.
    rewrite !omap_cons_eq. cbn [spawnCall]. rewrite Hprobed, Hspawn.
    split; [done|]. split; [done|]. split; [|done].
    assert (forall e0, last events = Some e0 ->
                       last (EPathExists folder true
                             :: EReaddir folder (Ok files) :: events)
                       = Some e0) as Hkeep.
    { intros e0 He0. destruct events as [|e1 events]; [discriminate|].
      exact He0. }
    destruct Hlast as [(Hlast & ->)|[Hlast|(files' & Hlast & Hnone & ->)]].
    + left. split; [by apply Hkeep|done].
    + right. left. by apply Hkeep.
    + right. right. exists files'. split; [by apply Hkeep|done].
Qed.

Section ProvisionerSteps.

Variable world : World.
Context {L : Type}.

Lemma getInstallArgsLoop_probes folders installArgs (l : L) trace :
  exists r new,
    getInstallArgsLoop world folders installArgs (l, trace)
    = (listedAfter installArgs r, (l, trace ++ new))
    /\ Probes folders r new.
Proof.
  revert installArgs trace.
  induction folders as [|folder folders IH]; intros installArgs trace.
  - exists (Ok []), []. cbn. rewrite !app_nil_r. split; [done|constructor].
  - cbn [getInstallArgsLoop]. rewrite bind_run.
    unfold pathExists at 1, perform. cbn [fst snd].
    destruct (w_pathExists world trace folder) eqn:Hexists; cbn [negb].
    + rewrite bind_run. unfold readdir at 1, attempt. cbn [fst snd].
      destruct (w_readdir world _ folder) as [files|e] eqn:Hreaddir.
      * fold (vsixFiles files).
        destruct (Nat.eqb (length (vsixFiles files)) 0) eqn:Hcount.
        -- apply Nat.eqb_eq, length_zero_iff_nil in Hcount.
           exists (Throw (noVsixMessage folder)), 
             [EPathExists folder true; EReaddir folder (Ok files)].
           unfold throw. rewrite <- app_assoc. split; [reflexivity|].
           by constructor.
        -- apply Nat.eqb_neq in Hcount.
           assert (vsixFiles files <> []) as Hvsix.
           { intros Hnil. by rewrite Hnil in Hcount. }
           fold (vsixArgs folder files).
           edestruct IH as (r & new & -> & Hnew).
           exists (listedAfter (vsixArgs folder files) r),
             (EPathExists folder true :: EReaddir folder (Ok files) :: new).
           rewrite <- !app_assoc. split; [|by constructor].
           destruct r; cbn; by rewrite <- ?app_assoc.
      * exists (Throw e),
          [EPathExists folder true; EReaddir folder (Throw e)].
        rewrite <- app_assoc. split; [reflexivity|]. constructor.
    + exists (Throw (missingFolderMessage folder)),
        [EPathExists folder false].
      unfold throw. split; [reflexivity|]. constructor.
Qed.

Lemma getInstallArgs_probes_of folders (l l' : L) trace r new :
  getInstallArgsFromInstallationFolders world folders (l, trace)
  = (r, (l', trace ++ new)) ->
  Probes folders r new.
Proof.
  intros Hrun. unfold getInstallArgsFromInstallationFolders in Hrun.
  destruct (getInstallArgsLoop_probes folders [] l trace)
    as (r' & new' & Hrun' & Hprobes).
  rewrite Hrun in Hrun'. injection Hrun' as -> _ Hnew.
  apply app_inv_head in Hnew as ->. by destruct r'.
Qed.

Lemma installExtensions_steps exe udd uninstall install (l : L) trace :
  exists r new,
    installExtensions world exe udd uninstall install (l, trace)
    = (r, (l, trace ++ new))
    /\ ProvisioningSteps world exe udd uninstall install r new.
Proof.
  destruct (installExtensions world exe udd uninstall install (l, trace))
    as (r, (l', trace')) eqn:E.
  unfold installExtensions in E.
  destruct (isUndefinedOrEmpty install && isUndefinedOrEmpty uninstall)
    eqn:Hnothing.
  { injection E as <- <- <-. exists (Ok tt), [].
    rewrite app_nil_r. split; [done|]. by constructor. }
  rewrite bind_run in E. unfold getInstallArgsFromInstallationFolders in E.
  destruct (getInstallArgsLoop_probes (default [] install) [] l trace)
    as (rargs & probes & Hprobes & Hshape).
  rewrite Hprobes in E. destruct rargs as [listed|e]; cbn [listedAfter] in E.
  2:{ injection E as <- <- <-. exists (Throw e), probes.
      split; [done|]. by constructor. }
  cbn [List.app] in E.
  fold (userDataDirArgs udd) in E.
  fold (installArgsFor listed udd) in E.
  fold (uninstallArgsFor (default [] uninstall) udd) in E.
  unfold spawnSync, consoleLog, consoleError in E.
  pose (quiet := {| stdout := None; stderr := None |}).
  destruct (Nat.ltb 0 (length (default [] uninstall))) eqn:Hids;
    destruct (Nat.ltb 0 (length (default [] install))) eqn:Hfolders;
    eff_run_in E.
  - match type of E with
    | context [installFailedAskingForRestart ?res] =>
        destruct (installFailedAskingForRestart res) eqn:Hsig
    end; eff_run_in E; injection E as <- <- <-;
      rewrite <- ?app_assoc in Hsig; cbn [List.app] in Hsig;
      rewrite <- !app_assoc; cbn [List.app]; eexists _, _;
      (split; [reflexivity|]).
    + match goal with
      | |- context [ESpawnSync _ (uninstallArgsFor _ _) Inherit ?u
                    :: ESpawnSync _ _ Pipe ?i :: _ :: _ :: _
                    :: [ESpawnSync _ _ Inherit ?t]] =>
          pose proof (Provisioned world exe udd uninstall install listed
                        probes u i t Hnothing Hshape) as Hsteps
      end.
      unfold uninstallSteps, installSteps in Hsteps.
      rewrite Hids, Hfolders, Hsig in Hsteps. exact Hsteps.
    + match goal with
      | |- context [ESpawnSync _ (uninstallArgsFor _ _) Inherit ?u
                    :: ESpawnSync _ _ Pipe ?i :: _] =>
          pose proof (Provisioned world exe udd uninstall install listed
                        probes u i quiet Hnothing Hshape) as Hsteps
      end.
      unfold uninstallSteps, installSteps in Hsteps.
      rewrite Hids, Hfolders, Hsig in Hsteps. exact Hsteps.
  - injection E as <- <- <-.
    rewrite <- !app_assoc; cbn [List.app]; eexists _, _;
      (split; [reflexivity|]).
    match goal with
    | |- context [[ESpawnSync _ (uninstallArgsFor _ _) Inherit ?u]] =>
        pose proof (Provisioned world exe udd uninstall install listed
                      probes u quiet quiet Hnothing Hshape) as Hsteps
    end.
    unfold uninstallSteps, installSteps in Hsteps.
    rewrite Hids, Hfolders in Hsteps. exact Hsteps.
  - match type of E with
    | context [installFailedAskingForRestart ?res] =>
        destruct (installFailedAskingForRestart res) eqn:Hsig
    end; eff_run_in E; injection E as <- <- <-;
      rewrite <- ?app_assoc in Hsig; cbn [List.app] in Hsig;
      rewrite <- !app_assoc; cbn [List.app]; eexists _, _;
      (split; [reflexivity|]).
    + match goal with
      | |- context [ESpawnSync _ _ Pipe ?i :: _ :: _ :: _
                    :: [ESpawnSync _ _ Inherit ?t]] =>
          pose proof (Provisioned world exe udd uninstall install listed
                        probes quiet i t Hnothing Hshape) as Hsteps
      end.
      unfold uninstallSteps, installSteps in Hsteps.
      rewrite Hids, Hfolders, Hsig in Hsteps. exact Hsteps.
    + match goal with
      | |- context [ESpawnSync _ _ Pipe ?i :: _] =>
          pose proof (Provisioned world exe udd uninstall install listed
                        probes quiet i quiet Hnothing Hshape) as Hsteps
      end.
      unfold uninstallSteps, installSteps in Hsteps.
      rewrite Hids, Hfolders, Hsig in Hsteps. exact Hsteps.
  - injection E as <- <- <-. exists (Ok tt), probes.
    split; [done|].
    pose proof (Provisioned world exe udd uninstall install listed
                  probes quiet quiet quiet Hnothing Hshape) as Hsteps.
    unfold uninstallSteps, installSteps in Hsteps.
    rewrite Hids, Hfolders in Hsteps. by rewrite app_nil_r in Hsteps.
Qed.

Lemma installExtensions_steps_of exe udd uninstall install (l l' : L)
    trace r new :
  installExtensions world exe udd uninstall install (l, trace)
  = (r, (l', trace ++ new)) ->
  ProvisioningSteps world exe udd uninstall install r new.
Proof.
  intros Hrun.
  destruct (installExtensions_steps exe udd uninstall install l trace)
    as (r' & new' & Hrun' & Hsteps).
  rewrite Hrun in Hrun'. injection Hrun' as -> _ Hnew.
  by apply app_inv_head in Hnew as ->.
Qed.

End ProvisionerSteps.

Lemma Probes_isProbe folders r new :
  Probes folders r new -> Forall (fun e => isProbe e = true) new.
Proof. induction 1; by repeat constructor. Qed.

Lemma provisioning_steps_no_probe cli ids folders args udd u i t :
  Forall (fun e => isProbe e = false)
    (uninstallSteps cli ids udd u ++ installSteps cli folders args i t).
Proof.
  unfold uninstallSteps, installSteps.
  destruct (Nat.ltb 0 (length ids)), (Nat.ltb 0 (length folders)),
    (installFailedAskingForRestart i); by repeat constructor.
Qed.

Lemma ProvisioningSteps_isProvisioning world exe udd uninstall install
    r new :
  ProvisioningSteps world exe udd uninstall install r new ->
  Forall (fun e => isProvisioning e = true) new.
Proof.
  assert (forall folders r' probes,
             Probes folders r' probes ->
             Forall (fun e => isProvisioning e = true) probes) as Hprobes.
  { intros folders r' probes H. apply Probes_isProbe in H.
    eapply Forall_impl; [exact H|]. by intros []. }
  intros [Hnothing|e probes _ H|listed probes u i t _ H]; [done|eauto|].
  apply Forall_app. split; [eauto|].
  unfold uninstallSteps, installSteps.
  destruct (Nat.ltb 0 _), (Nat.ltb 0 _), (installFailedAskingForRestart i);
    by repeat constructor.
Qed.

(** ** The launcher *)

Section LauncherStepFacts.

Variable world : World.

(** Every run of [runVSCodeTests] takes its steps in the one order. *)
Lemma runVSCodeTests_steps isCoverage config (l : option string) trace :
  exists r l' new,
    runVSCodeTests world isCoverage config (l, trace)
    = (r, (l', trace ++ new))
    /\ LaunchSteps world isCoverage config r new.
Proof.
  destruct (runVSCodeTests world isCoverage config (l, trace))
    as (r, (l', trace')) eqn:E.
  unfold runVSCodeTests, runVSCodeTestsBody, runVSCodeTestsCleanup in E.
  unfold downloadAndUnzipVSCode, mkdirs, writeJson, runTests, unlink,
    consoleError in E.
  eff_run_in E.
  destruct (w_downloadAndUnzipVSCode world trace (vscodeVersion config))
    as [exe|e] eqn:Hdownload.
  2:{ injection E as <- <- <-. eexists _, _, [_]. split; [reflexivity|].
      by eapply DownloadFailed. }
  destruct (installExtensions_steps world exe (userDataDir config)
              (uninstallExtensionIDs config)
              (additionalExtensionFolders config) tt
              (trace ++ [EDownloadAndUnzipVSCode (vscodeVersion config)
                           (Ok exe)]))
    as (ri & provisioning & Hinstall & Hprovisioning).
  rewrite Hinstall in E. eff_run_in E.
  destruct ri as [[]|e].
  2:{ injection E as <- <- <-. rewrite <- app_assoc.
      eexists _, _, _. split; [reflexivity|].
      by eapply ProvisioningFailed. }
  fold (launchOptions world isCoverage config exe) in E.
  destruct (initWorkspace config) eqn:Hinit; eff_run_in E.
  - destruct (w_mkdirs world _ _) as [[]|e] eqn:Hmkdirs in E;
      cbn beta iota zeta delta [fst snd] in E.
    2:{ injection E as <- <- <-. rewrite <- !app_assoc.
        eexists _, _, _. split; [reflexivity|].
        by eapply MkdirsFailed. }
    destruct (w_writeJson world _ _ _) as [[]|e] eqn:Hwrite in E;
      cbn beta iota zeta delta [fst snd] in E.
    2:{ injection E as <- <- <-. rewrite <- !app_assoc.
        eexists _, _, _. split; [reflexivity|].
        by eapply WriteJsonFailed. }
    match type of E with
    | context [w_unlink world ?t ?file] =>
        destruct (w_unlink world t file) as [[]|e] eqn:Hunlink
    end;
      injection E as <- <- <-; rewrite <- !app_assoc; cbn [List.app];
      eexists _, _, _; (split; [reflexivity|]).
    + by apply (LaunchedOnDescriptor world isCoverage config _ exe
                  provisioning (Ok tt)).
    + by apply (LaunchedOnDescriptor world isCoverage config _ exe
                  provisioning (Throw e)).
  - injection E as <- <- <-. rewrite <- !app_assoc.
    eexists _, _, _. split; [reflexivity|].
    by apply LaunchedInPlace.
Qed.

Lemma runVSCodeTests_steps_of isCoverage config (l l' : option string)
    trace r new :
  runVSCodeTests world isCoverage config (l, trace)
  = (r, (l', trace ++ new)) ->
  LaunchSteps world isCoverage config r new.
Proof.
  intros Hrun.
  destruct (runVSCodeTests_steps isCoverage config l trace)
    as (r' & l'' & new' & Hrun' & Hsteps).
  rewrite Hrun in Hrun'. injection Hrun' as -> _ Hnew.
  by apply app_inv_head in Hnew as <-.
Qed.

End LauncherStepFacts.

Lemma isUpperCaseLetter_toLowerCase (c : ascii) :
  isUpperCaseLetter (toLowerCase c) = false.
Proof. by destruct c as [[] [] [] [] [] [] [] []]. Qed.

Lemma phases_of_provisioning (provisioning : list HostEvent) :
  Forall (fun e => isProvisioning e = true) provisioning ->
  Forall (fun n => n = 1) (omap phase provisioning)
  /\ omap milestone provisioning = [].
Proof.
  induction 1 as [|e provisioning He _ (IHphase & IHmilestone)]; [done|].
  destruct e; try discriminate; cbn; rewrite ?IHmilestone;
    (split; [|done]); try done; by constructor.
Qed.

Lemma StronglySorted_le_ones (ones rest : list nat) :
  Forall (fun n => n = 1) ones ->
  Forall (le 1) rest ->
  StronglySorted le rest ->
  StronglySorted le (0 :: ones ++ rest).
Proof.
  intros Hones Hrest Hsorted. constructor.
  - apply StronglySorted_app_2; [| |done].
    + intros x1 x2 Hx1 Hx2.
      rewrite Forall_forall in Hones. rewrite (Hones _ Hx1).
      rewrite Forall_forall in Hrest. by apply Hrest.
    + induction Hones as [|n ones -> Hones IH]; constructor; [done|].
      eapply Forall_impl; [exact Hones|]. cbn. lia.
  - apply Forall_forall. intros. lia.
Qed.

Lemma LaunchSteps_resolves world isCoverage config r new :
  LaunchSteps world isCoverage config r new ->
  r = Ok tt <-> exists options, ERunTests options (Ok tt) ∈ new.
Proof.
  intros Hrun.
  assert (forall prov options rt,
             Forall (fun e => isProvisioning e = true) prov ->
             ERunTests options rt ∉ prov) as Hnot.
  { intros prov options rt Hprov Hin.
    rewrite Forall_forall in Hprov. by specialize (Hprov _ Hin). }
  destruct Hrun as [e ->|exe prov e Hprov ->|exe prov e Hprov _ ->
                   |exe prov e Hprov _ ->|exe prov deleted Hprov _
                   |exe prov Hprov _];
    try apply ProvisioningSteps_isProvisioning in Hprov;
    (split; [try discriminate | intros (options & Hin)]).
  - elem_cases Hin. discriminate.
  - apply elem_of_cons in Hin as [?|Hin]; [discriminate|].
    by apply Hnot in Hin.
  - apply elem_of_cons in Hin as [?|Hin]; [discriminate|].
    apply elem_of_app in Hin as [Hin|Hin]; [by apply Hnot in Hin|].
    elem_cases Hin. discriminate.
  - apply elem_of_cons in Hin as [?|Hin]; [discriminate|].
    apply elem_of_app in Hin as [Hin|Hin]; [by apply Hnot in Hin|].
    elem_cases Hin; discriminate.
  - intros ->. eexists. apply elem_of_cons. right.
    apply elem_of_app. right. do 2 apply list_elem_of_further.
    apply list_elem_of_here.
  - apply elem_of_cons in Hin as [?|Hin]; [discriminate|].
    apply elem_of_app in Hin as [Hin|Hin]; [by apply Hnot in Hin|].
    apply elem_of_app in Hin as [Hin|Hin].
    + elem_cases Hin; try discriminate. by injection Hin.
    + destruct deleted; cbn in Hin; elem_cases Hin. discriminate.
  - intros ->. eexists. apply elem_of_cons. right.
    apply elem_of_app. right. apply list_elem_of_here.
  - apply elem_of_cons in Hin as [?|Hin]; [discriminate|].
    apply elem_of_app in Hin as [Hin|Hin]; [by apply Hnot in Hin|].
    elem_cases Hin. by injection Hin.
Qed.

Ltac sorted_numbers :=
  repeat match goal with
         | |- StronglySorted _ _ => constructor
         | |- Forall _ _ => constructor
         end;
  lia.

Section LauncherOrder.

Variable world : World.

(** X7. The cross-process context holds the working directory of the tests
    (with a lower-case drive letter on Windows) and the mocha configuration
    path, and, exactly when coverage is requested, the same working
    directory and the configuration path for nyc and the path of the plain
    entry point; it holds nothing else. *)
Theorem launch_context isCoverage config :
  let env := extensionTestsEnvFor world isCoverage config in
  let testsCwd := toLowerDriveLetter world (extensionDevelopmentPath config) in
  env !! ENV_VAR_MOCHA_CWD = Some testsCwd
  /\ env !! ENV_VAR_MOCHA_CONFIG_PATH = Some (mochaConfigPath config)
  /\ env !! ENV_VAR_NYC_CWD = (if isCoverage then Some testsCwd else None)
  /\ env !! ENV_VAR_NYC_CONFIG_PATH
     = (if isCoverage then nycConfigPath config else None)
  /\ env !! ENV_VAR_BASE_TEST_PATH
     = (if isCoverage
        then Some (Path.resolve (w_cwd world) [w_dirname world; "mocha-tests"])
        else None)
  /\ forall key, key ∉ contextKeys -> env !! key = None.
Proof.
  intros env testsCwd. subst env. unfold extensionTestsEnvFor.
  fold testsCwd.
  repeat split.
  1-5: destruct isCoverage, (nycConfigPath config);
    by repeat (rewrite lookup_insert_eq || rewrite lookup_insert_ne by done).
  intros key. unfold contextKeys. rewrite !not_elem_of_cons.
  intros (? & ? & ? & ? & ? & _).
  destruct isCoverage, (nycConfigPath config);
    by repeat (rewrite lookup_insert_ne by done).
Qed.

(** X8. In a run the phases follow one another: the host is downloaded
    first, then extensions are provisioned, then the workspace is set up
    ([mkdirs], then [writeJson]), then the host is run, then the descriptor
    is deleted; and each of these steps other than provisioning happens at
    most once. *)
Theorem launch_order isCoverage config (l l' : option string) trace r new :
  runVSCodeTests world isCoverage config (l, trace)
  = (r, (l', trace ++ new)) ->
  StronglySorted le (omap phase new)
  /\ StronglySorted lt (omap milestone new)
  /\ exists downloaded rest,
       new = EDownloadAndUnzipVSCode (vscodeVersion config) downloaded :: rest.
Proof.
  intros Hrun. apply runVSCodeTests_steps_of in Hrun.
  destruct Hrun as [e _|exe prov e Hprov _|exe prov e Hprov _ _
                   |exe prov e Hprov _ _|exe prov deleted Hprov _
                   |exe prov Hprov _];
    (split; [|split; [|by eexists _, _]]);
    try apply ProvisioningSteps_isProvisioning in Hprov;
    try (apply phases_of_provisioning in Hprov as (Hones & Hnone));
    try destruct deleted;
    rewrite ?omap_cons_eq, ?omap_app, ?Hnone;
    cbn [deletionLog]; rewrite ?omap_cons_eq, ?omap_nil_eq;
    cbn [phase milestone List.app].
  - sorted_numbers.
  - sorted_numbers.
  - rewrite <- (app_nil_r (omap phase prov)).
    apply StronglySorted_le_ones; [done| |]; sorted_numbers.
  - sorted_numbers.
  - apply StronglySorted_le_ones; [done| |]; sorted_numbers.
  - sorted_numbers.
  - apply StronglySorted_le_ones; [done| |]; sorted_numbers.
  - sorted_numbers.
  - apply StronglySorted_le_ones; [done| |]; sorted_numbers.
  - apply StronglySorted_le_ones; [done| |]; sorted_numbers.
  - sorted_numbers.
  - sorted_numbers.
  - apply StronglySorted_le_ones; [done| |]; sorted_numbers.
  - sorted_numbers.
Qed.


(** X10. Whenever the host is launched, it is the executable that the
    download returned, for the extension at [extensionDevelopmentPath],
    with the launch arguments starting with the workspace path, the entry
    point chosen by the coverage flag, and the cross-process context as
    environment. *)
Theorem host_launch_request isCoverage config (l l' : option string)
    trace r new options rt :
  runVSCodeTests world isCoverage config (l, trace)
  = (r, (l', trace ++ new)) ->
  ERunTests options rt ∈ new ->
  EDownloadAndUnzipVSCode (vscodeVersion config)
    (Ok (rt_vscodeExecutablePath options)) ∈ new
  /\ rt_extensionDevelopmentPath options = extensionDevelopmentPath config
  /\ rt_extensionTestsPath options
     = Path.resolve (w_cwd world)
         [w_dirname world;
          if isCoverage then "nyc-coverage" else "mocha-tests"]
  /\ rt_launchArgs options = launchArgsFor config
  /\ head (rt_launchArgs options) = Some (workspacePath config)
  /\ rt_extensionTestsEnv options
     = extensionTestsEnvFor world isCoverage config
  /\ rt = r.
Proof.
  intros Hrun Hin. apply runVSCodeTests_steps_of in Hrun.
  assert (forall prov,
             Forall (fun e => isProvisioning e = true) prov ->
             ERunTests options rt ∉ prov) as Hnot.
  { intros prov Hprov Hin'.
    rewrite Forall_forall in Hprov. by specialize (Hprov _ Hin'). }
  assert (forall exe,
             ERunTests options rt
             = ERunTests (launchOptions world isCoverage config exe) r ->
             forall rest,
               EDownloadAndUnzipVSCode (vscodeVersion config)
                 (Ok (rt_vscodeExecutablePath options))
               ∈ EDownloadAndUnzipVSCode (vscodeVersion config) (Ok exe)
                 :: rest
               /\ rt_extensionDevelopmentPath options
                  = extensionDevelopmentPath config
               /\ rt_extensionTestsPath options
                  = Path.resolve (w_cwd world)
                      [w_dirname world;
                       if isCoverage then "nyc-coverage" else "mocha-tests"]
               /\ rt_launchArgs options = launchArgsFor config
               /\ head (rt_launchArgs options) = Some (workspacePath config)
               /\ rt_extensionTestsEnv options
                  = extensionTestsEnvFor world isCoverage config
               /\ rt = r) as Hoptions.
  { intros exe [= -> ->] rest. cbn. split; [apply list_elem_of_here|].
    repeat split. unfold extensionTestsPathFor. by destruct isCoverage. }
  destruct Hrun as [e _|exe prov e Hprov _|exe prov e Hprov _ _
                   |exe prov e Hprov _ _|exe prov deleted Hprov _
                   |exe prov Hprov _];
    try apply ProvisioningSteps_isProvisioning in Hprov.
  - elem_cases Hin. discriminate.
  - apply elem_of_cons in Hin as [?|Hin]; [discriminate|].
    by apply Hnot in Hin.
  - apply elem_of_cons in Hin as [?|Hin]; [discriminate|].
    apply elem_of_app in Hin as [Hin|Hin]; [by apply Hnot in Hin|].
    elem_cases Hin. discriminate.
  - apply elem_of_cons in Hin as [?|Hin]; [discriminate|].
    apply elem_of_app in Hin as [Hin|Hin]; [by apply Hnot in Hin|].
    elem_cases Hin; discriminate.
  - apply elem_of_cons in Hin as [?|Hin]; [discriminate|].
    apply elem_of_app in Hin as [Hin|Hin]; [by apply Hnot in Hin|].
    apply elem_of_app in Hin as [Hin|Hin].
    + elem_cases Hin; try discriminate. by apply (Hoptions exe).
    + destruct deleted; cbn in Hin; elem_cases Hin. discriminate.
  - apply elem_of_cons in Hin as [?|Hin]; [discriminate|].
    apply elem_of_app in Hin as [Hin|Hin]; [by apply Hnot in Hin|].
    elem_cases Hin. by apply (Hoptions exe).
Qed.

(** X11. [toLowerDriveLetter] changes nothing off Windows; everywhere it
    keeps the length of the path and everything after its first character,
    and applying it twice is applying it once. On Windows a path starting
    with an upper-case drive letter and a colon gets that letter in lower
    case. *)
Theorem toLowerDriveLetter_spec path :
  (w_platform world <> "win32" -> toLowerDriveLetter world path = path)
  /\ String.length (toLowerDriveLetter world path) = String.length path
  /\ String.substring 1 (String.length path) (toLowerDriveLetter world path)
     = String.substring 1 (String.length path) path
  /\ toLowerDriveLetter world (toLowerDriveLetter world path)
     = toLowerDriveLetter world path
  /\ (w_platform world = "win32" ->
      forall drive rest,
        isUpperCaseLetter drive = true ->
        path = String drive (String ":" rest) ->
        toLowerDriveLetter world path
        = String (toLowerCase drive) (String ":" rest)).
Proof.
  unfold toLowerDriveLetter.
  destruct path as [|drive [|colon rest]]; try by repeat split.
  destruct (Ascii.eqb_spec colon ":") as [->|Hcolon].
  2:{ assert (forall (A : Type) (a b : A),
                match colon with
                | ":"%char => a
                | _ => b
                end = b) as Hother.
      { intros A a b.
        destruct colon as [[] [] [] [] [] [] [] []]; try reflexivity.
        by destruct Hcolon. }
      rewrite !Hother. repeat split. intros _ ? ? _ [= _ ? _]. done. }
  destruct (String.eqb_spec (w_platform world) "win32") as [Hwin|Hother];
    cbn [andb].
  2:{ repeat split. done. }
  destruct (isUpperCaseLetter drive) eqn:Hupper.
  - repeat split; try done.
    + by rewrite isUpperCaseLetter_toLowerCase.
    + by intros _ ? ? _ [= -> ->].
  - repeat split; try done.
    + by rewrite Hupper.
    + intros _ ? ? Hup [= <- <-]. congruence.
Qed.

End LauncherOrder.

Lemma fullLaunch_run :
  runVSCodeTests demoWorld true resolvedAllPaths (None, [])
  = (Ok tt, (Some "/w.code-workspace", [] ++ fullLaunchEvents)).
Proof. by vm_compute. Qed.

Lemma launch_context_witness :
  ("PATH" ∉ contextKeys)
  /\ extensionTestsEnvFor demoWorld true resolvedAllPaths !! "PATH" = None
  /\ extensionTestsEnvFor demoWorld true resolvedAllPaths
     !! ENV_VAR_NYC_CONFIG_PATH = Some "/proj/nyc.config.js".
Proof.
  assert ("PATH" ∉ contextKeys) as Hother.
  { unfold contextKeys. rewrite !not_elem_of_cons.
    repeat split; try discriminate. apply not_elem_of_nil. }
  destruct (launch_context demoWorld true resolvedAllPaths)
    as (_ & _ & _ & Hnyc & _ & Hnone).
  split; [exact Hother|]. split; [exact (Hnone "PATH" Hother)|exact Hnyc].
Defined.

Lemma launch_order_witness :
  runVSCodeTests demoWorld true resolvedAllPaths (None, [])
  = (Ok tt, (Some "/w.code-workspace", [] ++ fullLaunchEvents))
  /\ StronglySorted le (omap phase fullLaunchEvents)
  /\ StronglySorted lt (omap milestone fullLaunchEvents).
Proof.
  split; [exact fullLaunch_run|].
  destruct (launch_order demoWorld true resolvedAllPaths None
              (Some "/w.code-workspace") [] (Ok tt) fullLaunchEvents
              fullLaunch_run)
    as (Hphases & Hmilestones & _).
  by split.
Defined.


Lemma host_launch_request_witness :
  runVSCodeTests demoWorld true resolvedAllPaths (None, [])
  = (Ok tt, (Some "/w.code-workspace", [] ++ fullLaunchEvents))
  /\ ERunTests (launchOptions demoWorld true resolvedAllPaths "vscode-path")
       (Ok tt) ∈ fullLaunchEvents
  /\ EDownloadAndUnzipVSCode None (Ok "vscode-path") ∈ fullLaunchEvents
  /\ rt_launchArgs (launchOptions demoWorld true resolvedAllPaths "vscode-path")
     = ["/w.code-workspace"; "--user-data-dir"; "/proj/data"].
Proof.
  assert (ERunTests
            (launchOptions demoWorld true resolvedAllPaths "vscode-path")
            (Ok tt) ∈ fullLaunchEvents) as Hin.
  { unfold fullLaunchEvents. do 12 apply list_elem_of_further.
    apply list_elem_of_here. }
  split; [exact fullLaunch_run|]. split; [exact Hin|].
  destruct (host_launch_request demoWorld true resolvedAllPaths None
              (Some "/w.code-workspace") [] (Ok tt) fullLaunchEvents
              (launchOptions demoWorld true resolvedAllPaths "vscode-path")
              (Ok tt) fullLaunch_run Hin)
    as (Hdownload & _ & _ & Hargs & _).
  split; [exact Hdownload|exact Hargs].
Defined.

Lemma toLowerDriveLetter_spec_witness :
  w_platform windowsWorld = "win32"
  /\ isUpperCaseLetter "C" = true
  /\ toLowerDriveLetter windowsWorld "C:\Users\dev\ext" = "c:\Users\dev\ext".
Proof.
  split; [reflexivity|]. split; [reflexivity|].
  destruct (toLowerDriveLetter_spec windowsWorld "C:\Users\dev\ext")
    as (_ & _ & _ & _ & Hwindows).
  exact (Hwindows eq_refl "C"%char "\Users\dev\ext" eq_refl eq_refl).
Defined.

Lemma unique_split {A} (P : A -> bool) (before us after ys : list A)
    (x y : A) :
  P x = true -> P y = true ->
  Forall (fun a => P a = false) us ->
  Forall (fun a => P a = false) ys ->
  before ++ x :: after = us ++ y :: ys ->
  before = us /\ x = y /\ after = ys.
Proof.
  intros Hx Hy Hus Hys. revert us Hus.
  induction before as [|b before IH]; intros [|u us] Hus; cbn.
  - by intros [= -> ->].
  - intros [= <- _]. apply Forall_cons in Hus as (Hu & _). congruence.
  - intros [= <- <-].
    apply Forall_app in Hys as (_ & Hys).
    apply Forall_cons in Hys as (Hx' & _). congruence.
  - intros [= <- Heq]. apply Forall_cons in Hus as (_ & Hus).
    destruct (IH us Hus Heq) as (-> & -> & ->). done.
Qed.

Lemma isUndefinedOrEmpty_length (entries : option (list string)) :
  Nat.ltb 0 (length (default [] entries)) = negb (isUndefinedOrEmpty entries).
Proof. by destruct entries as [[|]|]. Qed.

Lemma spawnCalls_app (a b : list HostEvent) :
  spawnCalls (a ++ b) = spawnCalls a ++ spawnCalls b.
Proof. apply omap_app. Qed.

Lemma listings_probes_only (probes steps : list HostEvent) :
  Forall (fun e => isProbe e = false) steps ->
  listings (probes ++ steps) = listings probes.
Proof.
  intros Hsteps. unfold listings. rewrite omap_app.
  rewrite <- (app_nil_r (omap _ probes)) at 2. f_equal.
  induction Hsteps as [|e steps He _ IH]; [done|].
  rewrite omap_cons_eq. by destruct e.
Qed.

Section ProvisionerProperties.

Variable world : World.
Context {L : Type}.

(** X12. When [getInstallArgsFromInstallationFolders] resolves, it has
    asked for every folder, in the order given, whether it exists, and has
    listed every folder, in that order; every listing holds a [.vsix]
    file; and the arguments are, listing by listing, [--install-extension]
    followed by the path of each [.vsix] file joined to its folder. *)
Theorem install_arguments_from_listings folders (l l' : L) trace args new :
  getInstallArgsFromInstallationFolders world folders (l, trace)
  = (Ok args, (l', trace ++ new)) ->
  probedFolders new = folders
  /\ map fst (listings new) = folders
  /\ Forall (fun listing => vsixFiles listing.2 <> []) (listings new)
  /\ args = listedInstallArgs new.
Proof.
  intros Hrun. apply getInstallArgs_probes_of in Hrun.
  apply Probes_success in Hrun as (? & ? & ? & ? & _). done.
Qed.

(** X13. When [getInstallArgsFromInstallationFolders] rejects, it has
    stopped at the first unusable folder: the folders asked for are those
    up to that one, the last event is the probe that failed, and the error
    names the folder when it is missing or holds no [.vsix] file (a failed
    listing rejects with its own error). *)
Theorem unusable_folder_rejected folders (l l' : L) trace e new :
  getInstallArgsFromInstallationFolders world folders (l, trace)
  = (Throw e, (l', trace ++ new)) ->
  exists before folder after,
    folders = before ++ folder :: after
    /\ probedFolders new = before ++ [folder]
    /\ (last new = Some (EPathExists folder false)
        /\ e = missingFolderMessage folder
        \/ last new = Some (EReaddir folder (Throw e))
        \/ exists files,
             last new = Some (EReaddir folder (Ok files))
             /\ vsixFiles files = []
             /\ e = noVsixMessage folder).
Proof.
  intros Hrun. apply getInstallArgs_probes_of in Hrun.
  apply Probes_rejected in Hrun
    as (before & folder & after & ? & ? & ? & _).
  by exists before, folder, after.
Qed.


(** X15. A provisioning that resolves has made these invocations of the
    host's command line, in this order: when there is something to
    uninstall, one with an [--uninstall-extension] pair per identifier;
    when there are folders to install from, one with the arguments listed
    from the folders, its output captured, possibly followed by
    invocations with the same arguments. Each argument list ends with
    [--force] and then [--user-data-dir] and the directory when one is
    configured. *)
Theorem provisioning_invocations exe udd uninstall install (l l' : L)
    trace new :
  installExtensions world exe udd uninstall install (l, trace)
  = (Ok tt, (l', trace ++ new)) ->
  let cliPath := w_resolveCliPathFromVSCodeExecutablePath world exe in
  let installArgs := installArgsFor (listedInstallArgs new) udd in
  exists retries,
    map fst (spawnCalls new)
    = (if isUndefinedOrEmpty uninstall then []
       else [(cliPath, uninstallArgsFor (default [] uninstall) udd, Inherit)])
      ++ (if isUndefinedOrEmpty install then []
          else (cliPath, installArgs, Pipe) :: retries)
    /\ Forall (fun call => call = (cliPath, installArgs, Inherit)) retries.
Proof.
  intros Hrun cliPath installArgs. subst cliPath installArgs.
  apply installExtensions_steps_of in Hrun.
  inversion Hrun as [Hnothing| |listed probes u i t Hnothing Hprobes];
    subst.
  - apply andb_true_iff in Hnothing as (-> & ->). by exists [].
  - unfold listedInstallArgs.
    rewrite listings_probes_only by apply provisioning_steps_no_probe.
    apply Probes_success in Hprobes as (_ & _ & _ & Hlisted & Hspawn).
    fold (listedInstallArgs probes). rewrite <- Hlisted.
    rewrite !spawnCalls_app, Hspawn. cbn [List.app].
    unfold uninstallSteps, installSteps.
    rewrite !isUndefinedOrEmpty_length.
    destruct (isUndefinedOrEmpty uninstall), (isUndefinedOrEmpty install);
      cbn [negb]; try by exists [].
    + destruct (installFailedAskingForRestart i);
        [eexists [_]|exists []]; by repeat constructor.
    + destruct (installFailedAskingForRestart i);
        [eexists [_]|exists []]; by repeat constructor.
Qed.

(** X16. Provisioning examines the folders before it invokes or prints
    anything, and examines nothing when there is no folder to install
    from. *)
Theorem probes_come_first exe udd uninstall install (l l' : L)
    trace r new :
  installExtensions world exe udd uninstall install (l, trace)
  = (r, (l', trace ++ new)) ->
  exists probes steps,
    new = probes ++ steps
    /\ Forall (fun e => isProbe e = true) probes
    /\ Forall (fun e => isProbe e = false) steps
    /\ probedFolders probes = probedFolders new
    /\ (isUndefinedOrEmpty install = true -> probes = []).
Proof.
  intros Hrun. apply installExtensions_steps_of in Hrun.
  assert (forall r' probes,
             Probes (default [] install) r' probes ->
             isUndefinedOrEmpty install = true -> probes = []) as Hnone.
  { intros r' probes Hprobes Hempty.
    destruct install as [[|folder folders]|]; try done; by inversion Hprobes. }
  inversion Hrun as [Hnothing|e probes Hnothing Hprobes
                    |listed probes u i t Hnothing Hprobes]; subst.
  - by exists [], [].
  - exists new, []. rewrite app_nil_r.
    split; [done|]. split; [by eapply Probes_isProbe|].
    split; [done|]. split; [done|]. by eapply Hnone.
  - eexists probes, _. split; [reflexivity|].
    split; [by eapply Probes_isProbe|].
    split; [apply provisioning_steps_no_probe|].
    split; [|by eapply Hnone].
    unfold probedFolders. rewrite omap_app.
    rewrite <- (app_nil_r (omap _ probes)) at 1. f_equal. symmetry.
    unfold uninstallSteps, installSteps.
    by destruct (Nat.ltb 0 _), (Nat.ltb 0 _),
      (installFailedAskingForRestart i).
Qed.

(** X17. The output of the captured install invocation is printed right
    after it, [stdout] with [console.log] and then [stderr] with
    [console.error], whatever they hold. *)
Theorem install_output_printed exe udd uninstall install (l l' : L)
    trace r new before command args result after :
  installExtensions world exe udd uninstall install (l, trace)
  = (r, (l', trace ++ new)) ->
  new = before ++ ESpawnSync command args Pipe result :: after ->
  exists rest,
    after = EConsoleLog [optionToJs (stdout result)]
            :: EConsoleError [optionToJs (stderr result)] :: rest.
Proof.
  intros Hrun ->. apply installExtensions_steps_of in Hrun.
  assert (forall events,
             Forall (fun e => isProbe e = true) events ->
             Forall (fun e => isPiped e = false) events) as Hquiet.
  { intros events Hevents. eapply Forall_impl; [exact Hevents|].
    by intros []. }
  assert (forall quiet,
             Forall (fun e => isPiped e = false) quiet ->
             quiet <> before ++ ESpawnSync command args Pipe result :: after)
    as Hnever.
  { intros quiet Hall ->. apply Forall_app in Hall as (_ & Hall).
    by apply Forall_cons in Hall as (? & _). }
  inversion Hrun as [Hnothing Hr Hnew|e probes Hnothing Hprobes Hr Hnew
                    |listed probes u i t Hnothing Hprobes Hr Hnew].
  - by destruct before.
  - apply Probes_isProbe, Hquiet, Hnever in Hprobes. by destruct Hprobes.
  - apply Probes_isProbe, Hquiet in Hprobes.
    unfold uninstallSteps, installSteps in Hnew.
    destruct (Nat.ltb 0 (length (default [] uninstall)));
      destruct (Nat.ltb 0 (length (default [] install)));
      cbn [List.app] in Hnew.
    + change (probes ++ ?a :: ?b :: ?c)
        with (probes ++ [a] ++ b :: c) in Hnew.
      rewrite app_assoc in Hnew. symmetry in Hnew.
      apply (unique_split isPiped) in Hnew as (_ & [= _ _ <-] & ->);
        try done.
      * by eexists.
      * apply Forall_app. split; [done|by repeat constructor].
      * destruct (installFailedAskingForRestart i); by repeat constructor.
    + exfalso. eapply Hnever; [|exact Hnew].
      apply Forall_app. split; [done|by repeat constructor].
    + symmetry in Hnew.
      apply (unique_split isPiped) in Hnew as (_ & [= _ _ <-] & ->);
        try done.
      * by eexists.
      * destruct (installFailedAskingForRestart i); by repeat constructor.
    + rewrite app_nil_r in Hnew. exfalso. by eapply Hnever.
Qed.

End ProvisionerProperties.

Lemma depsProbes_run :
  getInstallArgsFromInstallationFolders demoWorld ["/proj/deps"; "/"] (tt, [])
  = (Ok ["--install-extension"; "/proj/deps/dep.vsix";
         "--install-extension"; "/dep.vsix"],
     (tt, [] ++ depsProbes)).
Proof. by vm_compute. Qed.

Lemma docsProbes_run :
  getInstallArgsFromInstallationFolders docsWorld
    ["/proj/deps"; "/proj/docs"; "/proj/other"] (tt, [])
  = (Throw "Could not find *.vsix files in /proj/docs",
     (tt, [] ++ docsProbes)).
Proof. by vm_compute. Qed.


Lemma demoProvisioning_run :
  installExtensions demoWorld "vscode-path" None (Some ["old.ext"])
    (Some ["/deps"]) (tt, [])
  = (Ok tt, (tt, [] ++ demoProvisioning)).
Proof. by vm_compute. Qed.

Lemma install_arguments_from_listings_witness :
  getInstallArgsFromInstallationFolders demoWorld ["/proj/deps"; "/"] (tt, [])
  = (Ok ["--install-extension"; "/proj/deps/dep.vsix";
         "--install-extension"; "/dep.vsix"],
     (tt, [] ++ depsProbes))
  /\ probedFolders depsProbes = ["/proj/deps"; "/"]
  /\ ["--install-extension"; "/proj/deps/dep.vsix";
      "--install-extension"; "/dep.vsix"]
     = listedInstallArgs depsProbes.
Proof.
  split; [exact depsProbes_run|].
  destruct (install_arguments_from_listings demoWorld ["/proj/deps"; "/"]
              tt tt [] _ depsProbes depsProbes_run)
    as (Hprobed & _ & _ & Hargs).
  by split.
Defined.

Lemma unusable_folder_rejected_witness :
  getInstallArgsFromInstallationFolders docsWorld
    ["/proj/deps"; "/proj/docs"; "/proj/other"] (tt, [])
  = (Throw "Could not find *.vsix files in /proj/docs",
     (tt, [] ++ docsProbes))
  /\ exists before folder after,
       ["/proj/deps"; "/proj/docs"; "/proj/other"]
       = before ++ folder :: after
       /\ probedFolders docsProbes = before ++ [folder].
Proof.
  split; [exact docsProbes_run|].
  destruct (unusable_folder_rejected docsWorld
              ["/proj/deps"; "/proj/docs"; "/proj/other"] tt tt [] _
              docsProbes docsProbes_run)
    as (before & folder & after & Hfolders & Hprobed & _).
  by exists before, folder, after.
Defined.


Lemma provisioning_invocations_witness :
  installExtensions demoWorld "vscode-path" None (Some ["old.ext"])
    (Some ["/deps"]) (tt, [])
  = (Ok tt, (tt, [] ++ demoProvisioning))
  /\ exists retries,
       map fst (spawnCalls demoProvisioning)
       = [("vscode-cli-path",
           uninstallArgsFor ["old.ext"] None, Inherit)]
         ++ ("vscode-cli-path",
             installArgsFor (listedInstallArgs demoProvisioning) None, Pipe)
            :: retries
       /\ Forall
            (fun call =>
               call
               = ("vscode-cli-path",
                  installArgsFor (listedInstallArgs demoProvisioning) None,
                  Inherit))
            retries.
Proof.
  split; [exact demoProvisioning_run|].
  exact (provisioning_invocations demoWorld "vscode-path" None
           (Some ["old.ext"]) (Some ["/deps"]) tt tt [] demoProvisioning
           demoProvisioning_run).
Defined.

Lemma probes_come_first_witness :
  installExtensions demoWorld "vscode-path" None (Some ["old.ext"])
    (Some ["/deps"]) (tt, [])
  = (Ok tt, (tt, [] ++ demoProvisioning))
  /\ exists probes steps,
       demoProvisioning = probes ++ steps
       /\ Forall (fun e => isProbe e = true) probes
       /\ Forall (fun e => isProbe e = false) steps.
Proof.
  split; [exact demoProvisioning_run|].
  destruct (probes_come_first demoWorld "vscode-path" None
              (Some ["old.ext"]) (Some ["/deps"]) tt tt [] (Ok tt)
              demoProvisioning demoProvisioning_run)
    as (probes & steps & Hsplit & Hprobes & Hsteps & _).
  by exists probes, steps.
Defined.

Lemma install_output_printed_witness :
  installExtensions demoWorld "vscode-path" None (Some ["old.ext"])
    (Some ["/deps"]) (tt, [])
  = (Ok tt, (tt, [] ++ demoProvisioning))
  /\ exists rest,
       [EConsoleLog [JsString ""];
        EConsoleError [JsString restartMessage];
        EConsoleLog [JsString "Retrying installation..."];
        ESpawnSync "vscode-cli-path" demoInstallArgs Inherit quietSpawn]
       = EConsoleLog [optionToJs (stdout failedInstall)]
         :: EConsoleError [optionToJs (stderr failedInstall)] :: rest.
Proof.
  split; [exact demoProvisioning_run|].
  exact (install_output_printed demoWorld "vscode-path" None
           (Some ["old.ext"]) (Some ["/deps"]) tt tt [] (Ok tt)
           demoProvisioning
           [EPathExists "/deps" true;
            EReaddir "/deps" (Ok ["dep.vsix"; "README.md"]);
            ESpawnSync "vscode-cli-path"
              ["--uninstall-extension"; "old.ext"; "--force"] Inherit
              quietSpawn]
           "vscode-cli-path" demoInstallArgs failedInstall _
           demoProvisioning_run eq_refl).
Defined.

Lemma ProvisioningSteps_calls world exe udd uninstall install r new :
  ProvisioningSteps world exe udd uninstall install r new ->
  Forall (fun call : SpawnCall =>
            call.1.1.1 = w_resolveCliPathFromVSCodeExecutablePath world exe
            /\ exists front,
                 call.1.1.2 = front ++ "--force" :: userDataDirArgs udd)
    (spawnCalls new).
Proof.
  intros [Hnothing|e probes _ Hprobes|listed probes u i t _ Hprobes].
  - constructor.
  - apply Probes_rejected in Hprobes as (_ & _ & _ & _ & _ & _ & ->).
    constructor.
  - apply Probes_success in Hprobes as (_ & _ & _ & _ & Hspawn).
    rewrite !spawnCalls_app, Hspawn. cbn [List.app].
    unfold uninstallSteps, installSteps, uninstallArgsFor, installArgsFor.
    destruct (Nat.ltb 0 _), (Nat.ltb 0 _), (installFailedAskingForRestart i);
      cbn; repeat constructor; cbn; eexists; by rewrite <- app_assoc.
Qed.

Lemma LaunchSteps_calls world isCoverage config r new :
  LaunchSteps world isCoverage config r new ->
  (exists e,
     new = [EDownloadAndUnzipVSCode (vscodeVersion config) (Throw e)])
  \/ exists exe ri provisioning,
       head new
       = Some (EDownloadAndUnzipVSCode (vscodeVersion config) (Ok exe))
       /\ ProvisioningSteps world exe (userDataDir config)
            (uninstallExtensionIDs config)
            (additionalExtensionFolders config) ri provisioning
       /\ spawnCalls new = spawnCalls provisioning.
Proof.
  intros [e ->|exe prov e Hprov _|exe prov e Hprov _ _
         |exe prov e Hprov _ _|exe prov deleted Hprov _
         |exe prov Hprov _];
    [left; by eexists|right; exists exe; eexists _, prov..];
    (split; [done|]); (split; [exact Hprov|]).
  - done.
  - unfold spawnCalls. rewrite omap_cons_eq, omap_app. cbn.
    by rewrite app_nil_r.
  - unfold spawnCalls. rewrite omap_cons_eq, omap_app. cbn.
    by rewrite app_nil_r.
  - unfold spawnCalls. rewrite omap_cons_eq, !omap_app. cbn.
    destruct deleted; cbn; by rewrite app_nil_r.
  - unfold spawnCalls. rewrite omap_cons_eq, omap_app. cbn.
    by rewrite app_nil_r.
Qed.

(** ** From the configuration to the launch *)

(** X18. Every invocation made during a run of [runVSCodeTests] goes to
    the command line of the host that the run has just downloaded, and its
    arguments end with [--force] and then the [--user-data-dir] pair of
    the configuration, the one the host is later launched with. *)
Theorem provisioning_targets_downloaded_host world isCoverage config
    (l l' : option string) trace r new command args stdio result :
  runVSCodeTests world isCoverage config (l, trace)
  = (r, (l', trace ++ new)) ->
  (command, args, stdio, result) ∈ spawnCalls new ->
  exists exe front rest,
    head new = Some (EDownloadAndUnzipVSCode (vscodeVersion config) (Ok exe))
    /\ command = w_resolveCliPathFromVSCodeExecutablePath world exe
    /\ args = front ++ "--force" :: userDataDirArgs (userDataDir config)
    /\ launchArgsFor config
       = workspacePath config :: userDataDirArgs (userDataDir config) ++ rest.
Proof.
  intros Hrun Hin. apply runVSCodeTests_steps_of in Hrun.
  apply LaunchSteps_calls in Hrun
    as [(e & ->)|(exe & ri & prov & Hhead & Hprov & Hcalls)];
    [by apply elem_of_nil in Hin|].
  rewrite Hcalls in Hin. apply ProvisioningSteps_calls in Hprov.
  rewrite Forall_forall in Hprov.
  destruct (Hprov _ Hin) as (Hcommand & front & Hargs).
  exists exe, front. eexists. split; [done|]. split; [done|].
  split; [done|]. unfold launchArgsFor, userDataDirArgs. reflexivity.
Qed.

(** X19. From the raw configuration to the launch: a configuration that
    leaves [disableAllExtensions] undefined and names no additional
    extension folder is launched with [--disable-extensions] as the last
    argument, and every resolved configuration is launched on its
    workspace path, the first argument. *)
Theorem default_launch_disables_extensions cwd pathExists stat configPath
    config isCoverage r :
  validateAndResolveConfiguration cwd pathExists stat configPath config
    isCoverage = Ok r ->
  head (launchArgsFor r) = Some (workspacePath r)
  /\ (prop config "disableAllExtensions" = JsUndefined ->
      prop config "additionalExtensionFolders" = JsUndefined
      \/ prop config "additionalExtensionFolders" = JsArray [] ->
      last (launchArgsFor r) = Some "--disable-extensions").
Proof.
  intros Hr. split; [done|]. intros Hundefined Hfolders.
  apply validateAndResolve_Ok_inv in Hr
    as (edp & udd & vv & uids & dids & aef & mcp & nyc & wp & iw & dae
        & _ & _ & _ & _ & _ & Haef & _ & _ & _ & _ & _ & Hdae & ->).
  unfold validateDisableAllExtensions in Hdae. rewrite Hundefined in Hdae.
  set (folders := List.map _ <$> aef) in *.
  assert (isEmpty folders = true) as Hempty.
  { subst folders.
    destruct Hfolders as [Hnone|Hnone]; rewrite Hnone in Haef;
      cbn in Haef; by injection Haef as <-. }
  rewrite Hempty in Hdae. injection Hdae as <-.
  unfold launchArgsFor. cbn [disableAllExtensions].
  by rewrite !app_assoc, last_snoc.
Qed.

(** X20. From the raw configuration to the cross-process context: when
    coverage is requested, a configuration that resolves has string values
    for [nycConfigPath] and [mochaConfigPath], and the context the host is
    launched with holds both, resolved against the directory of the
    configuration file. *)
Theorem coverage_config_path_propagated world cwd pathExists stat
    configPath config r :
  validateAndResolveConfiguration cwd pathExists stat configPath config true
  = Ok r ->
  exists nyc mocha,
    prop config "nycConfigPath" = JsString nyc
    /\ prop config "mochaConfigPath" = JsString mocha
    /\ extensionTestsEnvFor world true r !! ENV_VAR_NYC_CONFIG_PATH
       = Some (Path.resolve cwd [configDir cwd configPath; nyc])
    /\ extensionTestsEnvFor world true r !! ENV_VAR_MOCHA_CONFIG_PATH
       = Some (Path.resolve cwd [configDir cwd configPath; mocha]).
Proof.
  intros Hr.
  apply validateAndResolve_Ok_inv in Hr
    as (edp & udd & vv & uids & dids & aef & mcp & nyc & wp & iw & dae
        & _ & _ & _ & _ & _ & _ & Hmcp & Hnyc & _ & _ & _ & _ & ->).
  unfold validateNycConfigPath in Hnyc.
  destruct (prop config "nycConfigPath") as [| | | |p| |] eqn:Hprop;
    try discriminate.
  cbn in Hnyc. injection Hnyc as <-.
  exists p, mcp. split; [done|]. split; [done|].
  unfold extensionTestsEnvFor. cbn [nycConfigPath mochaConfigPath].
  split; by repeat (rewrite lookup_insert_eq
                    || rewrite lookup_insert_ne by done).
Qed.


Lemma provisioning_targets_downloaded_host_witness :
  runVSCodeTests demoWorld true resolvedAllPaths (None, [])
  = (Ok tt, (Some "/w.code-workspace", [] ++ fullLaunchEvents))
  /\ ("vscode-cli-path", fullInstallArgs, Pipe, failedInstall)
     ∈ spawnCalls fullLaunchEvents
  /\ exists front,
       fullInstallArgs = front ++ ["--force"; "--user-data-dir"; "/proj/data"].
Proof.
  assert (("vscode-cli-path", fullInstallArgs, Pipe, failedInstall)
          ∈ spawnCalls fullLaunchEvents) as Hin by apply list_elem_of_here.
  split; [exact fullLaunch_run|]. split; [exact Hin|].
  destruct (provisioning_targets_downloaded_host demoWorld true
              resolvedAllPaths None (Some "/w.code-workspace") [] (Ok tt)
              fullLaunchEvents "vscode-cli-path" fullInstallArgs Pipe
              failedInstall fullLaunch_run Hin)
    as (exe & front & rest & _ & _ & Hargs & _).
  by exists front.
Defined.

Lemma default_launch_disables_extensions_witness :
  demoResolve minimalConfig false = Ok resolvedMinimal
  /\ last (launchArgsFor resolvedMinimal) = Some "--disable-extensions".
Proof.
  assert (demoResolve minimalConfig false = Ok resolvedMinimal) as Hr
    by (by vm_compute).
  split; [exact Hr|].
  destruct (default_launch_disables_extensions "/cwd" demoExists demoStat
              "/proj/config.json" minimalConfig false resolvedMinimal Hr)
    as (_ & Hlast).
  apply Hlast; [reflexivity | by left].
Defined.

Lemma coverage_config_path_propagated_witness :
  demoResolve allPathsConfig true = Ok resolvedAllPaths
  /\ extensionTestsEnvFor demoWorld true resolvedAllPaths
     !! ENV_VAR_NYC_CONFIG_PATH = Some "/proj/nyc.config.js".
Proof.
  assert (demoResolve allPathsConfig true = Ok resolvedAllPaths) as Hr
    by (by vm_compute).
  split; [exact Hr|].
  destruct (coverage_config_path_propagated demoWorld "/cwd" demoExists
              demoStat "/proj/config.json" allPathsConfig resolvedAllPaths
              Hr)
    as (nyc & mocha & Hnyc & _ & Henv & _).
  injection Hnyc as <-. exact Henv.
Defined.

(** ** The in-host executor, step by step *)

Section ExecutorStepFacts.

Import MochaTests.

Variable host : Host.
Context {L : Type}.

Lemma requireEach_loaded modules (l : L) trace :
  exists r new,
    requireEach host modules (l, trace) = (r, (l, trace ++ new))
    /\ Loaded modules r new.
Proof.
  revert trace. induction modules as [|module modules IH]; intros trace.
  - exists (Ok tt), []. rewrite app_nil_r. split; [done|constructor].
  - destruct module;
      try (eexists (Throw _), []; rewrite app_nil_r;
           split; [reflexivity|by apply LoadRejected]).
    cbn [requireEach]. rewrite bind_run.
    unfold requireModule at 1, attempt. cbn [fst snd].
    destruct (h_requireModule host trace s) as [[]|e].
    + destruct (IH (trace ++ [ERequireModule s (Ok tt)]))
        as (r & new & -> & Hloaded).
      exists r, (ERequireModule s (Ok tt) :: new).
      rewrite <- app_assoc. split; [done|by constructor].
    + eexists (Throw e), [_]. split; [done|constructor].
Qed.

Lemma handleRequire_loaded config (l : L) trace :
  exists r new,
    handleRequire host config (l, trace)
    = (match r with
       | Ok _ => Ok (delete "require" config)
       | Throw e => Throw e
       end, (l, trace ++ new))
    /\ Loaded (requireList (prop config "require")) r new.
Proof.
  unfold handleRequire. rewrite bind_run.
  assert (forall modules,
            exists r new,
              match requireEach host modules (l, trace) with
              | (Ok _, st') =>
                  (mret (delete "require" config)
                   : Eff L TestEvent (gmap string JsValue)) st'
              | (Throw e, st') => (Throw e, st')
              end
              = (match r with
                 | Ok _ => Ok (delete "require" config)
                 | Throw e => Throw e
                 end, (l, trace ++ new))
              /\ Loaded modules r new)
    as Heach.
  { intros modules.
    destruct (requireEach_loaded modules l trace)
      as ([[]|e] & new & -> & ?); eexists _, _; split; try done; done. }
  destruct (prop config "require");
    try (exists (Ok tt), []; rewrite app_nil_r; split; [done|constructor]);
    apply Heach.
Qed.

Lemma addFiles_added mochaCwd files (l : L) trace :
  addFiles host mochaCwd files (l, trace)
  = (Ok tt, (l, trace ++ addedFiles host mochaCwd files)).
Proof.
  revert trace. induction files as [|f files IH]; intros trace.
  - cbn. by rewrite app_nil_r.
  - cbn [addFiles]. rewrite bind_run. unfold addFile at 1, perform.
    cbn [fst snd]. rewrite IH. cbn. by rewrite <- app_assoc.
Qed.

Lemma runMocha_steps globPattern config mochaCwd (l : L) trace :
  exists r new,
    runMocha host globPattern config mochaCwd (l, trace)
    = (r, (l, trace ++ new))
    /\ MochaSteps host globPattern config mochaCwd r new.
Proof.
  unfold runMocha. rewrite bind_run. unfold newMocha, attempt.
  cbn [fst snd].
  destruct (h_newMocha host trace config) as [[]|e].
  2:{ eexists (Throw e), [_]. split; [done|constructor]. }
  rewrite bind_run. unfold glob, attempt. cbn [fst snd].
  destruct (h_glob host _ globPattern mochaCwd) as [files|e].
  2:{ eexists (Throw e), [_; _]. rewrite <- app_assoc.
      split; [done|constructor]. }
  rewrite bind_run, addFiles_added.
  rewrite bind_run. unfold mochaRun, perform. cbn [fst snd].
  match goal with
  | |- context [h_mochaRun host ?t] => set (outcome := h_mochaRun host t)
  end.
  exists (settled outcome),
    (ENewMocha config (Ok tt) :: EGlob globPattern mochaCwd (Ok files)
     :: addedFiles host mochaCwd files ++ [EMochaRun outcome]).
  split; [|constructor].
  rewrite <- !app_assoc. cbn [List.app].
  destruct outcome as [e|failures]; cbn [settled]; [done|].
  by destruct (Nat.ltb 0 failures).
Qed.

Lemma prop_delete_ne (config : gmap string JsValue) (k k' : string) :
  k <> k' -> prop (delete k config) k' = prop config k'.
Proof. intros Hne. unfold prop. by rewrite lookup_delete_ne. Qed.

Lemma run_steps (l : L) trace :
  exists r body,
    run host (l, trace) = (r, (l, trace ++ body ++ logged r))
    /\ ExecutorSteps host r body.
Proof.
  assert (forall (body : Eff L TestEvent unit),
            (exists r new,
                body (l, trace) = (r, (l, trace ++ new))
                /\ ExecutorSteps host r new) ->
            exists r new,
              tryCatch body (fun e => consoleError e;; throw e) (l, trace)
              = (r, (l, trace ++ new ++ logged r))
              /\ ExecutorSteps host r new) as Hcatch.
  { intros body (r & new & Hbody & Hshape). unfold tryCatch.
    rewrite Hbody. destruct r as [[]|e].
    - exists (Ok tt), new. by rewrite app_nil_r.
    - rewrite bind_run. unfold consoleError, perform, throw. cbn [fst snd].
      exists (Throw e), new. by rewrite app_assoc. }
  unfold run. apply Hcatch.
  destruct (h_env host !! ENV_VAR_MOCHA_CONFIG_PATH) as [configPath|]
    eqn:HconfigPath;
    [|eexists (Throw _), []; rewrite app_nil_r;
      split; [done | constructor; by left]].
  destruct (h_env host !! ENV_VAR_MOCHA_CWD) as [mochaCwd|] eqn:HmochaCwd;
    [|eexists (Throw _), []; rewrite app_nil_r;
      split; [done | constructor; by right]].
  rewrite bind_run. unfold requireConfig, attempt. cbn [fst snd].
  destruct (h_requireConfig host trace configPath) as [config|e].
  2:{ eexists (Throw e), [_]. split; [done|by econstructor]. }
  rewrite bind_run. unfold handleSpec.
  destruct (prop config "spec") as [| | | |spec| |] eqn:Hspec;
    try (eexists (Throw _), [_]; split; [reflexivity|];
         rewrite <- Hspec;
         eapply SpecRejected; [done|done|by rewrite Hspec]).
  rewrite ret_run. rewrite bind_run.
  destruct (handleRequire_loaded (delete "spec" config) l
              (trace ++ [ERequireConfig configPath (Ok config)]))
    as (rr & required & -> & Hloaded).
  rewrite prop_delete_ne in Hloaded by done.
  destruct rr as [[]|e].
  2:{ eexists (Throw e), (_ :: required). rewrite <- app_assoc.
      split; [done|]. by eapply RequireRejected. }
  destruct (runMocha_steps spec (delete "require" (delete "spec" config))
              mochaCwd l
              ((trace ++ [ERequireConfig configPath (Ok config)])
               ++ required))
    as (r & ran & -> & Hran).
  exists r, (ERequireConfig configPath (Ok config) :: required ++ ran).
  rewrite <- !app_assoc. split; [done|]. by eapply MochaStarted.
Qed.

Lemma run_steps_of (l l' : L) trace r new :
  run host (l, trace) = (r, (l', trace ++ new)) ->
  exists body, new = body ++ logged r /\ ExecutorSteps host r body.
Proof.
  intros Hrun. destruct (run_steps l trace) as (r' & body & Hrun' & Hsteps).
  rewrite Hrun in Hrun'. injection Hrun' as -> _ Hnew.
  apply app_inv_head in Hnew as ->. by exists body.
Qed.

End ExecutorStepFacts.

Lemma sorted_const_segment (k : nat) (pre ones post : list nat) :
  Forall (eq k) ones ->
  StronglySorted le (pre ++ k :: post) ->
  StronglySorted le (pre ++ ones ++ post).
Proof.
  intros Hones Hsorted.
  apply StronglySorted_app in Hsorted as (Hcross & Hpre & Hpost).
  apply StronglySorted_cons in Hpost as (Hk & Hpost).
  rewrite Forall_forall in Hones, Hk.
  apply StronglySorted_app_2; [|done|].
  - intros x y Hx Hy. apply elem_of_app in Hy as [Hy|Hy].
    + apply Hones in Hy as <-. apply Hcross; [done|]. by left.
    + apply Hcross; [done|]. by right.
  - apply StronglySorted_app_2; [| |done].
    + intros x y Hx Hy. apply Hones in Hx as <-. by apply Hk.
    + clear Hcross Hk. induction ones as [|x ones IH]; constructor.
      * apply IH. intros y Hy. apply Hones. by right.
      * apply Forall_forall. intros y Hy.
        rewrite <- (Hones x) by (by left).
        rewrite <- (Hones y) by (by right). done.
Qed.

Section ExecutorProperties.

Import MochaTests.

Lemma Loaded_stage modules r loaded :
  Loaded modules r loaded ->
  Forall (eq 1) (map stage loaded)
  /\ omap singleStage loaded = []
  /\ consoleErrors loaded = []
  /\ addedTestFiles loaded = []
  /\ globCalls loaded = [].
Proof. induction 1; cbn; intuition; by constructor. Qed.

Lemma Loaded_success modules loaded :
  Loaded modules (Ok tt) loaded ->
  requiredModules loaded = modules
  /\ Forall (fun module => isJsString module = true) modules
  /\ Forall (fun e => stage e = 1) loaded.
Proof.
  intros Hloaded. remember (Ok tt) as r eqn:Hr.
  induction Hloaded as [|module rest r events _ IH| |]; try discriminate.
  - done.
  - destruct (IH Hr) as (Hrequired & Hstrings & Hstage).
    unfold requiredModules in *. rewrite omap_cons_eq, Hrequired.
    repeat split; by constructor.
Qed.

Lemma addedFiles_stage host mochaCwd files :
  Forall (eq 4) (map stage (addedFiles host mochaCwd files))
  /\ omap singleStage (addedFiles host mochaCwd files) = []
  /\ consoleErrors (addedFiles host mochaCwd files) = []
  /\ addedTestFiles (addedFiles host mochaCwd files)
     = map (fun f => Path.resolve (h_cwd host) [mochaCwd; f]) files
  /\ globCalls (addedFiles host mochaCwd files) = [].
Proof.
  induction files as [|f files (Hstage & Hsingle & Hconsole & Hadded & Hglob)];
    [done|].
  change (addedFiles host mochaCwd (f :: files))
    with (EAddFile (Path.resolve (h_cwd host) [mochaCwd; f])
          :: addedFiles host mochaCwd files).
  unfold consoleErrors, addedTestFiles, globCalls in *.
  rewrite !omap_cons_eq, Hsingle, Hconsole, Hadded, Hglob.
  repeat split. by constructor.
Qed.

Variable host : Host.
Context {L : Type}.

(** X21. The stages of the executor follow one order: the configuration
    file is loaded first, then the modules are required, then the runner
    is constructed, then the test files are discovered, added and run, and
    an error is printed last; each stage other than requiring modules and
    adding files consists of at most one call. *)
Theorem executor_order (l l' : L) trace r new :
  run host (l, trace) = (r, (l', trace ++ new)) ->
  StronglySorted le (map stage new)
  /\ StronglySorted lt (omap singleStage new).
Proof.
  intros Hrun. apply run_steps_of in Hrun as (body & -> & Hsteps).
  destruct Hsteps as [Henv|configPath mochaCwd e _ _
                     |configPath mochaCwd config _ _ _
                     |configPath mochaCwd config spec e loaded _ _ _ Hloaded
                     |configPath mochaCwd config spec loaded ran r _ _ _
                        Hloaded Hran];
    try (split; cbn; sorted_numbers).
  - apply Loaded_stage in Hloaded as (Hones & Hnone & _).
    cbn [logged]. rewrite <- app_comm_cons, map_cons, omap_cons_eq.
    rewrite map_app, omap_app, Hnone. cbn. split; [|sorted_numbers].
    apply (sorted_const_segment 1 [0] _ [6]); [done|sorted_numbers].
  - apply Loaded_stage in Hloaded as (Hones & Hnone & _).
    rewrite <- app_comm_cons, map_cons, omap_cons_eq.
    rewrite <- app_assoc, map_app, omap_app, Hnone.
    destruct Hran as [e|e|files outcome].
    + cbn. split; [|sorted_numbers].
      apply (sorted_const_segment 1 [0] _ [2; 6]); [done|sorted_numbers].
    + cbn. split; [|sorted_numbers].
      apply (sorted_const_segment 1 [0] _ [2; 3; 6]); [done|sorted_numbers].
    + destruct (addedFiles_stage host mochaCwd files)
        as (Hfours & Hnone' & _).
      rewrite <- !app_comm_cons, <- app_assoc.
      rewrite !map_cons, !omap_cons_eq, map_app, omap_app, Hnone'.
      cbn [stage singleStage List.app].
      destruct (settled outcome); cbn; (split; [|sorted_numbers]).
      * apply (sorted_const_segment 1 [0] _ (2 :: 3 :: _ ++ [5]));
          [done|].
        apply (sorted_const_segment 4 [0; 1; 2; 3] _ [5]);
          [done|sorted_numbers].
      * apply (sorted_const_segment 1 [0] _ (2 :: 3 :: _ ++ [5; 6]));
          [done|].
        apply (sorted_const_segment 4 [0; 1; 2; 3] _ [5; 6]);
          [done|sorted_numbers].
Qed.

Lemma Loaded_events modules r loaded :
  Loaded modules r loaded -> Forall (fun e => stage e = 1) loaded.
Proof. induction 1; by repeat constructor. Qed.

Lemma addedFiles_events mochaCwd files :
  Forall (fun e => stage e = 4) (addedFiles host mochaCwd files).
Proof. induction files; by constructor. Qed.


(** An event of a given stage is not found among events of another. *)
Ltac stage_absurd Hin :=
  match type of Hin with
  | _ ∈ ?events =>
      match goal with
      | Hall : Forall (fun e => stage e = _) events |- _ =>
          rewrite Forall_forall in Hall; specialize (Hall _ Hin);
          cbn in Hall; discriminate
      end
  end.

(** Split a membership in a concatenation into its cases. *)
Ltac elem_split Hin :=
  repeat match type of Hin with
         | _ ∈ [] => by apply elem_of_nil in Hin
         | _ ∈ _ :: _ => apply elem_of_cons in Hin as [Hin|Hin]
         | _ ∈ _ ++ _ => apply elem_of_app in Hin as [Hin|Hin]
         end.

(** The run that got as far as constructing the runner. *)
Lemma constructed_steps r body options constructed :
  ExecutorSteps host r body ->
  ENewMocha options constructed ∈ body ++ logged r ->
  exists configPath mochaCwd config spec loaded ran,
    body = ERequireConfig configPath (Ok config) :: loaded ++ ran
    /\ h_env host !! ENV_VAR_MOCHA_CONFIG_PATH = Some configPath
    /\ h_env host !! ENV_VAR_MOCHA_CWD = Some mochaCwd
    /\ prop config "spec" = JsString spec
    /\ Loaded (requireList (prop config "require")) (Ok tt) loaded
    /\ MochaSteps host spec (mochaOptions config) mochaCwd r ran
    /\ options = mochaOptions config
    /\ head ran = Some (ENewMocha options constructed).
Proof.
  intros Hsteps Hin.
  assert (ENewMocha options constructed ∉ logged r) as Hlogged.
  { destruct r; cbn; intros H; elem_split H; discriminate. }
  apply elem_of_app in Hin as [Hin|Hin]; [|by destruct Hlogged].
  destruct Hsteps as [Henv|configPath mochaCwd e _ _
                     |configPath mochaCwd config _ _ _
                     |configPath mochaCwd config spec e loaded _ _ _ Hloaded
                     |configPath mochaCwd config spec loaded ran r
                        HconfigPath HmochaCwd Hspec Hloaded Hran].
  - elem_split Hin.
  - elem_split Hin. discriminate.
  - elem_split Hin. discriminate.
  - apply Loaded_events in Hloaded.
    elem_split Hin; [discriminate|stage_absurd Hin].
  - exists configPath, mochaCwd, config, spec, loaded, ran.
    repeat (split; [done|]).
    pose proof (Loaded_events _ _ _ Hloaded) as Hones.
    destruct Hran as [e|e|files outcome];
      elem_split Hin; try discriminate; try stage_absurd Hin;
      try (injection Hin as -> ->; by split).
    pose proof (addedFiles_events mochaCwd files) as Hfiles.
    stage_absurd Hin.
Qed.


(** X23. The runner is constructed once the configuration file is
    loaded and every entry of its [require] (a single string counting as
    one entry) has been found to be a string and loaded, in the order
    given; nothing is loaded later. It is constructed with the file's
    content without its [spec] and [require] properties, which the
    constructor does not support, every other property being passed as it
    is; and only for a configuration whose [spec] is a string. *)
Theorem runner_construction (l l' : L) trace r new options constructed :
  run host (l, trace) = (r, (l', trace ++ new)) ->
  ENewMocha options constructed ∈ new ->
  exists configPath config spec loaded rest,
    h_env host !! ENV_VAR_MOCHA_CONFIG_PATH = Some configPath
    /\ new = ERequireConfig configPath (Ok config)
             :: loaded ++ ENewMocha options constructed :: rest
    /\ prop config "spec" = JsString spec
    /\ Forall (fun e => stage e = 1) loaded
    /\ requiredModules loaded = requireList (prop config "require")
    /\ requiredModules rest = []
    /\ options !! "spec" = None
    /\ options !! "require" = None
    /\ forall key,
         key <> "spec" -> key <> "require" -> options !! key = config !! key.
Proof.
  intros Hrun Hin. apply run_steps_of in Hrun as (body & -> & Hsteps).
  destruct (constructed_steps _ _ _ _ Hsteps Hin)
    as (configPath & mochaCwd & config & spec & loaded & ran & -> & Hpath
        & _ & Hspec & Hloaded & Hran & -> & Hhead).
  apply Loaded_success in Hloaded as (Hrequired & _ & Hones).
  destruct ran as [|first rest]; [discriminate|]. injection Hhead as ->.
  exists configPath, config, spec, loaded, (rest ++ logged r).
  split; [done|].
  split; [by rewrite <- !app_comm_cons, <- !app_assoc, <- app_comm_cons|].
  split; [done|]. split; [done|]. split; [done|].
  split.
  { unfold requiredModules. rewrite omap_app.
    assert (omap (fun e => match e with
                           | ERequireModule module (Ok _) =>
                               Some (JsString module)
                           | _ => None
                           end) (logged r) = []) as -> by by destruct r.
    rewrite app_nil_r.
    inversion Hran as [e|e|files outcome]; subst; try done.
    rewrite omap_cons_eq, omap_app. cbn. rewrite app_nil_r.
    clear. induction files as [|f files IH]; [done|]. exact IH. }
  unfold mochaOptions.
  split; [by rewrite lookup_delete_ne, lookup_delete_eq|].
  split; [by rewrite lookup_delete_eq|].
  intros key Hspec' Hrequire. by rewrite !lookup_delete_ne.
Qed.

(** X24. When the tests are run, the test files were discovered once,
    with the [spec] pattern of the configuration file in the working
    directory of the context; the files given to the runner are the
    discovered ones, in that order, each resolved against that directory;
    the run is the last step before any error is printed; and its outcome
    settles the executor. *)
Theorem test_files_added_in_glob_order (l l' : L) trace r new outcome :
  run host (l, trace) = (r, (l', trace ++ new)) ->
  EMochaRun outcome ∈ new ->
  exists configPath config spec mochaCwd files before,
    h_env host !! ENV_VAR_MOCHA_CWD = Some mochaCwd
    /\ head new = Some (ERequireConfig configPath (Ok config))
    /\ prop config "spec" = JsString spec
    /\ new = before ++ EMochaRun outcome :: logged r
    /\ EGlob spec mochaCwd (Ok files) ∈ before
    /\ globCalls new = [(spec, mochaCwd)]
    /\ addedTestFiles before
       = map (fun f => Path.resolve (h_cwd host) [mochaCwd; f]) files
    /\ r = settled outcome.
Proof.
  intros Hrun Hin. apply run_steps_of in Hrun as (body & -> & Hsteps).
  assert (EMochaRun outcome ∉ logged r) as Hlogged.
  { destruct r; cbn; intros H; elem_split H; discriminate. }
  apply elem_of_app in Hin as [Hin|Hin]; [|by destruct Hlogged].
  destruct Hsteps as [Henv|configPath mochaCwd e _ _
                     |configPath mochaCwd config _ _ _
                     |configPath mochaCwd config spec e loaded _ _ _ Hloaded
                     |configPath mochaCwd config spec loaded ran r
                        HconfigPath HmochaCwd Hspec Hloaded Hran].
  - elem_split Hin.
  - elem_split Hin. discriminate.
  - elem_split Hin. discriminate.
  - apply Loaded_events in Hloaded.
    elem_split Hin; [discriminate|stage_absurd Hin].
  - pose proof (Loaded_events _ _ _ Hloaded) as Hones.
    apply Loaded_stage in Hloaded as (_ & _ & _ & Hadded & Hglobs).
    destruct Hran as [e|e|files outcome'];
      elem_split Hin; try discriminate; try stage_absurd Hin.
    { pose proof (addedFiles_events mochaCwd files) as Hfiles.
      stage_absurd Hin. }
    injection Hin as ->.
    destruct (addedFiles_stage host mochaCwd files)
      as (_ & _ & _ & Hfiles & Hnoglob).
    exists configPath, config, spec, mochaCwd, files,
      (ERequireConfig configPath (Ok config)
       :: loaded ++ ENewMocha (mochaOptions config) (Ok tt)
       :: EGlob spec mochaCwd (Ok files) :: addedFiles host mochaCwd files).
    split; [done|]. split; [done|]. split; [done|].
    split.
    { rewrite <- !app_comm_cons, <- !app_assoc. cbn [List.app].
      by rewrite <- !app_assoc. }
    split.
    { apply list_elem_of_further, elem_of_app. right.
      apply list_elem_of_further, list_elem_of_here. }
    split.
    { rewrite <- !app_comm_cons, <- !app_assoc.
      unfold globCalls in *. rewrite omap_cons_eq, !omap_app, Hglobs.
      rewrite !omap_cons_eq, omap_app, Hnoglob. cbn.
      by destruct (settled outcome'). }
    split; [|done].
    unfold addedTestFiles in *.
    by rewrite omap_cons_eq, omap_app, Hadded, !omap_cons_eq, Hfiles.
Qed.

(** X25. The executor rejects before it loads anything when the context
    lacks one of its two variables, with the error that says so; and when
    the [spec] of the configuration file is not a string it rejects before
    it requires a module or constructs the runner, whatever [require]
    holds, with an error that is printed and nothing else done. That error
    is the one about [spec], ending with the value as a string, for every
    value that [printsPlainly]. *)
Theorem early_rejections_load_nothing (l l' : L) trace r new :
  run host (l, trace) = (r, (l', trace ++ new)) ->
  (h_env host !! ENV_VAR_MOCHA_CONFIG_PATH = None
   \/ h_env host !! ENV_VAR_MOCHA_CWD = None ->
   r = Throw contextMessage /\ new = [EConsoleError contextMessage])
  /\ (forall configPath config,
        head new = Some (ERequireConfig configPath (Ok config)) ->
        isJsString (prop config "spec") = false ->
        exists e,
          r = Throw e
          /\ new = [ERequireConfig configPath (Ok config); EConsoleError e]
          /\ (printsPlainly (prop config "spec") = true ->
              e = specMessage (prop config "spec"))).
Proof.
  intros Hrun. apply run_steps_of in Hrun as (body & -> & Hsteps).
  split.
  - intros Henv.
    destruct Hsteps as [_|? ? ? HconfigPath HmochaCwd
                       |? ? ? HconfigPath HmochaCwd _
                       |? ? ? ? ? ? HconfigPath HmochaCwd _ _
                       |? ? ? ? ? ? ? HconfigPath HmochaCwd _ _ _];
      [done|destruct Henv; congruence..].
  - intros configPath config Hhead Hspec.
    destruct Hsteps as [_|? ? ? _ _
                       |configPath' mochaCwd config' _ _ _
                       |? ? config' spec ? ? _ _ Hspec' _
                       |? ? config' spec ? ? ? _ _ Hspec' _ _];
      try (destruct r; discriminate); try discriminate.
    + injection Hhead as -> ->. by eexists.
    + injection Hhead as -> ->. by rewrite Hspec' in Hspec.
    + injection Hhead as -> ->. by rewrite Hspec' in Hspec.
Qed.

End ExecutorProperties.

Lemma requiring_run :
  MochaTests.run (hostReporting requiringConfig 2) (tt, [])
  = (Throw "2 tests failed.", (tt, [] ++ requiringEvents)).
Proof. by vm_compute. Qed.

Lemma specLess_run :
  MochaTests.run specLessHost (tt, [])
  = (Throw "spec property in Mocha configuration must be a string. Unexpected value: undefined",
     (tt, [] ++ specLessEvents)).
Proof. by vm_compute. Qed.

Lemma requiring_constructed :
  MochaTests.ENewMocha plainMochaOptions (Ok tt) ∈ requiringEvents.
Proof.
  unfold requiringEvents. do 3 apply list_elem_of_further.
  apply list_elem_of_here.
Qed.

Lemma executor_order_witness :
  MochaTests.run (hostReporting requiringConfig 2) (tt, [])
  = (Throw "2 tests failed.", (tt, [] ++ requiringEvents))
  /\ StronglySorted le (map stage requiringEvents)
  /\ StronglySorted lt (omap singleStage requiringEvents).
Proof.
  split; [exact requiring_run|].
  exact (executor_order (hostReporting requiringConfig 2) tt tt []
           (Throw "2 tests failed.") requiringEvents requiring_run).
Defined.


Lemma runner_construction_witness :
  MochaTests.run (hostReporting requiringConfig 2) (tt, [])
  = (Throw "2 tests failed.", (tt, [] ++ requiringEvents))
  /\ MochaTests.ENewMocha plainMochaOptions (Ok tt) ∈ requiringEvents
  /\ (exists configPath config loaded rest,
         requiringEvents
         = MochaTests.ERequireConfig configPath (Ok config)
           :: loaded ++ MochaTests.ENewMocha plainMochaOptions (Ok tt)
           :: rest
         /\ requiredModules loaded = requireList (prop config "require"))
  /\ plainMochaOptions !! "spec" = None
  /\ plainMochaOptions !! "require" = None.
Proof.
  split; [exact requiring_run|]. split; [exact requiring_constructed|].
  destruct (runner_construction (hostReporting requiringConfig 2)
              tt tt [] (Throw "2 tests failed.") requiringEvents
              plainMochaOptions (Ok tt) requiring_run requiring_constructed)
    as (configPath & config & spec & loaded & rest & _ & Hevents & _ & _
        & Hrequired & _ & Hspec & Hrequire & _).
  split; [by exists configPath, config, loaded, rest|by split].
Defined.

Lemma test_files_added_in_glob_order_witness :
  MochaTests.run (hostReporting requiringConfig 2) (tt, [])
  = (Throw "2 tests failed.", (tt, [] ++ requiringEvents))
  /\ MochaTests.EMochaRun (MochaTests.RunReports 2) ∈ requiringEvents
  /\ exists files,
       globCalls requiringEvents = [("test/**/*.test.js", "/proj")]
       /\ addedTestFiles requiringEvents
          = map (fun f => Path.resolve "/" ["/proj"; f]) files.
Proof.
  assert (MochaTests.EMochaRun (MochaTests.RunReports 2) ∈ requiringEvents)
    as Hin.
  { unfold requiringEvents. do 6 apply list_elem_of_further.
    apply list_elem_of_here. }
  split; [exact requiring_run|]. split; [exact Hin|].
  destruct (test_files_added_in_glob_order (hostReporting requiringConfig 2)
              tt tt [] (Throw "2 tests failed.") requiringEvents
              (MochaTests.RunReports 2) requiring_run Hin)
    as (configPath & config & spec & mochaCwd & files & before & _ & _ & _
        & Hbefore & _ & Hglobs & Hadded & _).
  exists files.
  assert (spec = "test/**/*.test.js" /\ mochaCwd = "/proj") as (-> & ->).
  { cbn in Hglobs. by injection Hglobs as <- <-. }
  split; [exact Hglobs|].
  rewrite Hbefore. unfold addedTestFiles in *.
  rewrite omap_app, Hadded. cbn. by rewrite app_nil_r.
Defined.

Lemma early_rejections_load_nothing_witness :
  MochaTests.run specLessHost (tt, [])
  = (Throw "spec property in Mocha configuration must be a string. Unexpected value: undefined",
     (tt, [] ++ specLessEvents))
  /\ isJsString (prop {[ "require" := JsNumber 5 ]} "spec") = false
  /\ printsPlainly (prop {[ "require" := JsNumber 5 ]} "spec") = true
  /\ specLessEvents
     = [MochaTests.ERequireConfig "/proj/mocha.config.js"
          (Ok {[ "require" := JsNumber 5 ]});
        MochaTests.EConsoleError
          (specMessage (prop {[ "require" := JsNumber 5 ]} "spec"))].
Proof.
  split; [exact specLess_run|]. split; [reflexivity|]. split; [reflexivity|].
  destruct (early_rejections_load_nothing specLessHost tt tt [] _
              specLessEvents specLess_run)
    as (_ & Hspec).
  destruct (Hspec "/proj/mocha.config.js" {[ "require" := JsNumber 5 ]}
              eq_refl eq_refl)
    as (e & _ & Hevents & Hmessage).
  rewrite <- (Hmessage eq_refl). exact Hevents.
Defined.

(** ** The in-host coverage wrapper *)

Section WrapperFacts.

Import NycCoverage.

Variable host : Host.
Context {L : Type}.

Lemma setupCoverage_steps (l : L) trace :
  exists r new,
    setupCoverage host (l, trace) = (r, (l, trace ++ new))
    /\ SetupSteps host r new.
Proof.
  unfold setupCoverage.
  destruct (h_env host !! ENV_VAR_NYC_CONFIG_PATH) as [nyConfigPath|]
    eqn:Hpath;
    [|eexists (Throw _), []; rewrite app_nil_r;
      split; [done|constructor; by left]].
  destruct (h_env host !! ENV_VAR_NYC_CWD) as [nycCwd|] eqn:Hcwd;
    [|eexists (Throw _), []; rewrite app_nil_r;
      split; [done|constructor; by right]].
  destruct ((nycConfig ← requireNycConfig host nyConfigPath;
             newNyc host (nycOptions nycConfig nycCwd);;
             reset host;;
             (if isTrue (prop nycConfig "all") then addAllFiles host
              else mret tt);;
             wrap host) (l, trace)) as (r, (l', trace')) eqn:E.
  unfold requireNycConfig, newNyc, reset, addAllFiles, wrap in E.
  eff_run_in E.
  destruct (h_requireNycConfig host trace nyConfigPath) as [nycConfig|e].
  2:{ injection E as <- <- <-. eexists _, [_]. split; [done|].
      by econstructor. }
  assert (forall r events,
             Chain (setupCalls nycConfig nycCwd) r events ->
             SetupSteps host r
               (ERequireNycConfig nyConfigPath (Ok nycConfig) :: events))
    as Hsetup by (intros; by econstructor).
  unfold setupCalls in Hsetup.
  destruct (h_newNyc host _ _) as [[]|e] in E;
    cbn beta iota zeta delta [fst snd] in E.
  2:{ injection E as <- <- <-. rewrite <- app_assoc. eexists _, _.
      split; [reflexivity|]. apply Hsetup. constructor. }
  destruct (h_reset host _) as [[]|e] in E;
    cbn beta iota zeta delta [fst snd] in E.
  2:{ injection E as <- <- <-. rewrite <- !app_assoc. eexists _, _.
      split; [reflexivity|]. apply Hsetup. repeat constructor. }
  destruct (isTrue (prop nycConfig "all")); eff_run_in E.
  - destruct (h_addAllFiles host _) as [[]|e] in E;
      cbn beta iota zeta delta [fst snd] in E.
    2:{ injection E as <- <- <-. rewrite <- !app_assoc. eexists _, _.
        split; [reflexivity|]. apply Hsetup. repeat constructor. }
    destruct (h_wrap host _) as [[]|e] in E;
      injection E as <- <- <-; rewrite <- !app_assoc; eexists _, _;
      (split; [reflexivity|]); apply Hsetup; repeat constructor.
  - destruct (h_wrap host _) as [[]|e] in E;
      injection E as <- <- <-; rewrite <- !app_assoc; eexists _, _;
      (split; [reflexivity|]); apply Hsetup; repeat constructor.
Qed.

Lemma coverage_run_steps (l : L) trace :
  exists r body,
    run host (l, trace) = (r, (l, trace ++ body ++ coverageLogged r))
    /\ WrapperSteps host r body.
Proof.
  assert (forall (body : Eff L CoverageEvent unit),
            (exists r new,
                body (l, trace) = (r, (l, trace ++ new))
                /\ WrapperSteps host r new) ->
            exists r new,
              tryCatch body (fun e => consoleLog e;; throw e) (l, trace)
              = (r, (l, trace ++ new ++ coverageLogged r))
              /\ WrapperSteps host r new) as Hcatch.
  { intros body (r & new & Hbody & Hshape). unfold tryCatch.
    rewrite Hbody. destruct r as [[]|e].
    - exists (Ok tt), new. by rewrite app_nil_r.
    - rewrite bind_run. unfold consoleLog, perform, throw. cbn [fst snd].
      exists (Throw e), new. by rewrite app_assoc. }
  unfold run. apply Hcatch.
  destruct (h_env host !! ENV_VAR_BASE_TEST_PATH) as [baseRunPath|]
    eqn:Hbase;
    [|eexists (Throw _), []; rewrite app_nil_r;
      split; [done|by constructor]].
  rewrite bind_run. unfold requireBase, attempt. cbn [fst snd].
  destruct (h_requireBase host trace baseRunPath) as [[members|]|e].
  3:{ eexists (Throw e), [_]. split; [done|by constructor]. }
  2:{ eexists (Throw _), [_]. split; [done|by constructor]. }
  destruct (members !! "run") as [[|value]|] eqn:Hrun;
    try (eexists (Throw _), [_]; split; [done|];
         apply BaseWithoutRun; [done|by rewrite Hrun]).
  rewrite bind_run.
  destruct (setupCoverage_steps l
              (trace ++ [ERequireBase baseRunPath
                           (Ok (PlainObject members))]))
    as ([[]|e] & setup & -> & Hsetup).
  2:{ eexists (Throw e), (_ :: setup). rewrite <- app_assoc.
      split; [done|]. by constructor. }
  unfold tryFinally, baseRun, writeProcessIndex, writeCoverageFile.
  unfold attempt. rewrite bind_run. cbn [fst snd].
  match goal with
  | |- context [h_baseRun host ?t] => set (tests := h_baseRun host t)
  end.
  assert (forall writes written,
             Chain writeCalls writes written ->
             WrapperSteps host (afterWrites tests writes)
               (ERequireBase baseRunPath (Ok (PlainObject members))
                :: setup ++ EBaseRun tests :: written))
    as Hran by (intros; by constructor).
  unfold writeCalls in Hran.
  destruct (h_writeProcessIndex host _) as [[]|e].
  2:{ eexists (Throw e), _. rewrite <- ?app_assoc. cbn [List.app].
      rewrite <- ?app_assoc. split; [reflexivity|].
      apply (Hran (Throw e)). constructor. }
  cbn [fst snd].
  destruct (h_writeCoverageFile host _) as [[]|e].
  - eexists tests, _. rewrite <- ?app_assoc. cbn [List.app].
    rewrite <- ?app_assoc. split; [reflexivity|].
    apply (Hran (Ok tt)). repeat constructor.
  - eexists (Throw e), _. rewrite <- ?app_assoc. cbn [List.app].
    rewrite <- ?app_assoc. split; [reflexivity|].
    apply (Hran (Throw e)). repeat constructor.
Qed.

Lemma coverage_run_steps_of (l l' : L) trace r new :
  run host (l, trace) = (r, (l', trace ++ new)) ->
  exists body, new = body ++ coverageLogged r /\ WrapperSteps host r body.
Proof.
  intros Hrun.
  destruct (coverage_run_steps l trace) as (r' & body & Hrun' & Hsteps).
  rewrite Hrun in Hrun'. injection Hrun' as -> _ Hnew.
  apply app_inv_head in Hnew as ->. by exists body.
Qed.

End WrapperFacts.

Lemma Chain_events calls r events :
  Chain calls r events ->
  Forall (fun e => exists step rr, step ∈ calls /\ e = step rr) events.
Proof.
  induction 1 as [|step rest e|step rest r events _ IH].
  - constructor.
  - repeat constructor. exists step, (Throw e). split; [by left|done].
  - constructor.
    + exists step, (Ok tt). split; [by left|done].
    + eapply Forall_impl; [exact IH|].
      intros e (step' & rr & Hin & ->). exists step', rr.
      split; [by right|done].
Qed.

Lemma Chain_success calls events :
  Chain calls (Ok tt) events ->
  events = map (fun step => step (Ok tt)) calls.
Proof.
  intros Hchain. remember (Ok tt) as r eqn:Hr in Hchain.
  induction Hchain as [| |step rest r events _ IH]; try discriminate.
  - done.
  - cbn. by rewrite (IH Hr).
Qed.

Section WrapperProperties.

Import NycCoverage.

Variable host : Host.
Context {L : Type}.

Lemma setupCalls_no_tests nycConfig nycCwd step rr :
  step ∈ setupCalls nycConfig nycCwd -> isBaseRun (step rr) = false.
Proof.
  unfold setupCalls. destruct (isTrue (prop nycConfig "all"));
    cbn; intros Hin; elem_cases Hin; by subst.
Qed.

Lemma SetupSteps_no_tests r setup :
  SetupSteps host r setup -> Forall (fun e => isBaseRun e = false) setup.
Proof.
  intros [Henv|nyConfigPath nycCwd e _ _
         |nyConfigPath nycCwd nycConfig r' events _ _ Hchain];
    try by repeat constructor.
  constructor; [done|]. apply Chain_events in Hchain.
  eapply Forall_impl; [exact Hchain|].
  intros e (step & rr & Hin & ->). by eapply setupCalls_no_tests.
Qed.

Lemma writeCalls_no_tests writes written :
  Chain writeCalls writes written ->
  Forall (fun e => isBaseRun e = false) written.
Proof.
  intros Hchain. apply Chain_events in Hchain.
  eapply Forall_impl; [exact Hchain|].
  intros e (step & rr & Hin & ->). unfold writeCalls in Hin.
  elem_cases Hin; by subst.
Qed.

(** An event of the test run is not found where there is none. *)
Ltac tests_absurd Hin :=
  match type of Hin with
  | _ ∈ ?events =>
      match goal with
      | Hall : Forall (fun e => isBaseRun e = false) events |- _ =>
          rewrite Forall_forall in Hall; specialize (Hall _ Hin);
          cbn in Hall; discriminate
      end
  end.

(** A run in which the tests were started. *)
Lemma tests_started r body tests :
  WrapperSteps host r body ->
  EBaseRun tests ∈ body ++ coverageLogged r ->
  exists baseRunPath members setup written writes,
    h_env host !! ENV_VAR_BASE_TEST_PATH = Some baseRunPath
    /\ members !! "run" = Some MemberFunction
    /\ SetupSteps host (Ok tt) setup
    /\ Chain writeCalls writes written
    /\ r = afterWrites tests writes
    /\ body = ERequireBase baseRunPath (Ok (PlainObject members))
              :: setup ++ EBaseRun tests :: written.
Proof.
  intros Hsteps Hin.
  assert (EBaseRun tests ∉ coverageLogged r) as Hlogged.
  { destruct r; cbn; intros H; elem_cases H; discriminate. }
  apply elem_of_app in Hin as [Hin|Hin]; [|by destruct Hlogged].
  destruct Hsteps as [Hbase|baseRunPath e Hbase|baseRunPath Hbase
                     |baseRunPath members Hbase Hrun
                     |baseRunPath members e setup Hbase Hrun Hsetup
                     |baseRunPath members setup written tests' writes
                        Hbase Hrun Hsetup Hwrites].
  - elem_cases Hin.
  - elem_cases Hin. discriminate.
  - elem_cases Hin. discriminate.
  - elem_cases Hin. discriminate.
  - apply SetupSteps_no_tests in Hsetup.
    apply elem_of_cons in Hin as [Hin|Hin]; [discriminate|].
    tests_absurd Hin.
  - pose proof (SetupSteps_no_tests _ _ Hsetup) as Hquiet.
    pose proof (writeCalls_no_tests _ _ Hwrites) as Hquiet'.
    apply elem_of_cons in Hin as [Hin|Hin]; [discriminate|].
    apply elem_of_app in Hin as [Hin|Hin]; [tests_absurd Hin|].
    apply elem_of_cons in Hin as [Hin|Hin]; [|tests_absurd Hin].
    injection Hin as ->.
    by exists baseRunPath, members, setup, written, writes.
Qed.

(** X26. The tests are only ever run instrumented: when the wrapper runs
    them, it has before that, in this order, loaded the base module (a
    plain object exporting a [run] function), read the [nyc] configuration,
    constructed [Nyc], reset it, added all files exactly when the
    configuration has [all: true], and wrapped the process, each without
    error; and it runs them once. *)
Theorem tests_run_only_instrumented (l l' : L) trace r new tests :
  run host (l, trace) = (r, (l', trace ++ new)) ->
  EBaseRun tests ∈ new ->
  exists baseRunPath members nyConfigPath nycCwd nycConfig after,
    h_env host !! ENV_VAR_BASE_TEST_PATH = Some baseRunPath
    /\ members !! "run" = Some MemberFunction
    /\ h_env host !! ENV_VAR_NYC_CONFIG_PATH = Some nyConfigPath
    /\ h_env host !! ENV_VAR_NYC_CWD = Some nycCwd
    /\ new = [ERequireBase baseRunPath (Ok (PlainObject members));
              ERequireNycConfig nyConfigPath (Ok nycConfig);
              ENewNyc (nycOptions nycConfig nycCwd) (Ok tt);
              EReset (Ok tt)]
             ++ (if isTrue (prop nycConfig "all")
                 then [EAddAllFiles (Ok tt)] else [])
             ++ EWrap (Ok tt) :: EBaseRun tests :: after
    /\ Forall (fun e => isBaseRun e = false) after.
Proof.
  intros Hrun Hin. apply coverage_run_steps_of in Hrun as (body & -> & Hsteps).
  destruct (tests_started _ _ _ Hsteps Hin)
    as (baseRunPath & members & setup & written & writes & Hbase & Hmember
        & Hsetup & Hwrites & -> & ->).
  inversion Hsetup as [|
                      |nyConfigPath nycCwd nycConfig r' events Hpath Hcwd
                         Hchain]; subst.
  apply Chain_success in Hchain as ->.
  exists baseRunPath, members, nyConfigPath, nycCwd, nycConfig,
    (written ++ coverageLogged (afterWrites tests writes)).
  repeat (split; [done|]). split.
  - unfold setupCalls.
    destruct (isTrue (prop nycConfig "all")); cbn;
      by rewrite <- ?app_assoc.
  - apply Forall_app. split; [by eapply writeCalls_no_tests|].
    destruct (afterWrites tests writes); by repeat constructor.
Qed.


(** X28. [Nyc] is constructed with the configuration file's content in
    which the working directory is the one of the context and the
    instrumentation and the three hooks are switched on, whatever the file
    says about them; every other property is passed as it is. *)
Theorem nyc_options_forced (l l' : L) trace r new options constructed :
  run host (l, trace) = (r, (l', trace ++ new)) ->
  ENewNyc options constructed ∈ new ->
  exists nyConfigPath nycCwd nycConfig,
    h_env host !! ENV_VAR_NYC_CONFIG_PATH = Some nyConfigPath
    /\ h_env host !! ENV_VAR_NYC_CWD = Some nycCwd
    /\ ERequireNycConfig nyConfigPath (Ok nycConfig) ∈ new
    /\ options !! "cwd" = Some (JsString nycCwd)
    /\ options !! "instrument" = Some (JsBool true)
    /\ options !! "hookRequire" = Some (JsBool true)
    /\ options !! "hookRunInContext" = Some (JsBool true)
    /\ options !! "hookRunInThisContext" = Some (JsBool true)
    /\ forall key, key ∉ forcedKeys -> options !! key = nycConfig !! key.
Proof.
  intros Hrun Hin. apply coverage_run_steps_of in Hrun as (body & -> & Hsteps).
  assert (forall r' setup,
             SetupSteps host r' setup ->
             ENewNyc options constructed ∈ setup ->
             exists nyConfigPath nycCwd nycConfig,
               h_env host !! ENV_VAR_NYC_CONFIG_PATH = Some nyConfigPath
               /\ h_env host !! ENV_VAR_NYC_CWD = Some nycCwd
               /\ ERequireNycConfig nyConfigPath (Ok nycConfig) ∈ setup
               /\ options = nycOptions nycConfig nycCwd) as Hsetup.
  { intros r' setup
      [Henv|nyConfigPath nycCwd e _ _
      |nyConfigPath nycCwd nycConfig r'' events Hpath Hcwd Hchain] Hin'.
    - elem_cases Hin'.
    - elem_cases Hin'. discriminate.
    - apply elem_of_cons in Hin' as [Hin'|Hin']; [discriminate|].
      apply Chain_events in Hchain. rewrite Forall_forall in Hchain.
      destruct (Hchain _ Hin') as (step & rr & Hstep & Hevent).
      exists nyConfigPath, nycCwd, nycConfig.
      split; [done|]. split; [done|]. split; [by left|].
      unfold setupCalls in Hstep.
      destruct (isTrue (prop nycConfig "all")); cbn in Hstep;
        elem_cases Hstep; subst; try discriminate; by injection Hevent. }
  assert (exists r' setup,
             SetupSteps host r' setup
             /\ ENewNyc options constructed ∈ setup
             /\ forall e, e ∈ setup -> e ∈ body ++ coverageLogged r)
    as (r' & setup & Hsteps' & Hin' & Hsub).
  { assert (ENewNyc options constructed ∉ coverageLogged r) as Hlogged.
    { destruct r; cbn; intros H; elem_cases H; discriminate. }
    apply elem_of_app in Hin as [Hin|Hin]; [|by destruct Hlogged].
    destruct Hsteps as [Hbase|baseRunPath e Hbase|baseRunPath Hbase
                       |baseRunPath members Hbase Hrun
                       |baseRunPath members e setup Hbase Hrun Hsetup'
                       |baseRunPath members setup written tests writes
                          Hbase Hrun Hsetup' Hwrites];
      try (elem_cases Hin; discriminate).
    - apply elem_of_cons in Hin as [Hin|Hin]; [discriminate|].
      exists (Throw e), setup. split; [done|]. split; [done|].
      intros e' He'. apply elem_of_app. left. by right.
    - apply elem_of_cons in Hin as [Hin|Hin]; [discriminate|].
      apply elem_of_app in Hin as [Hin|Hin].
      + exists (Ok tt), setup. split; [done|]. split; [done|].
        intros e' He'. apply elem_of_app. left. right.
        apply elem_of_app. by left.
      + apply elem_of_cons in Hin as [Hin|Hin]; [discriminate|].
        apply Chain_events in Hwrites. rewrite Forall_forall in Hwrites.
        destruct (Hwrites _ Hin) as (step & rr & Hstep & Hevent).
        unfold writeCalls in Hstep. elem_cases Hstep; by subst. }
  destruct (Hsetup _ _ Hsteps' Hin')
    as (nyConfigPath & nycCwd & nycConfig & Hpath & Hcwd & Hread & ->).
  exists nyConfigPath, nycCwd, nycConfig.
  split; [done|]. split; [done|]. split; [by apply Hsub|].
  unfold nycOptions.
  repeat (split;
          [by repeat (rewrite lookup_insert_eq
                      || rewrite lookup_insert_ne by done)|]).
  intros key. unfold forcedKeys. rewrite !not_elem_of_cons.
  intros (? & ? & ? & ? & ? & _).
  by repeat (rewrite lookup_insert_ne by done).
Qed.

End WrapperProperties.

Lemma allFiles_run :
  NycCoverage.run
    (coverageHost allFilesConfig (Throw "1 tests failed.") (Ok tt)) (tt, [])
  = (Throw "1 tests failed.", (tt, [] ++ allFilesEvents)).
Proof. by vm_compute. Qed.


Lemma tests_run_only_instrumented_witness :
  NycCoverage.run
    (coverageHost allFilesConfig (Throw "1 tests failed.") (Ok tt)) (tt, [])
  = (Throw "1 tests failed.", (tt, [] ++ allFilesEvents))
  /\ NycCoverage.EBaseRun (Throw "1 tests failed.") ∈ allFilesEvents
  /\ exists before after,
       allFilesEvents
       = before
         ++ (if NycCoverage.isTrue (prop allFilesConfig "all")
             then [NycCoverage.EAddAllFiles (Ok tt)] else [])
         ++ NycCoverage.EWrap (Ok tt)
            :: NycCoverage.EBaseRun (Throw "1 tests failed.") :: after.
Proof.
  assert (NycCoverage.EBaseRun (Throw "1 tests failed.") ∈ allFilesEvents)
    as Hin.
  { unfold allFilesEvents. do 6 apply list_elem_of_further.
    apply list_elem_of_here. }
  split; [exact allFiles_run|]. split; [exact Hin|].
  destruct (tests_run_only_instrumented _ tt tt [] _ allFilesEvents _
              allFiles_run Hin)
    as (baseRunPath & members & nyConfigPath & nycCwd & nycConfig & after
        & _ & _ & _ & _ & Hevents & _).
  assert (nycConfig = allFilesConfig) as ->.
  { unfold allFilesEvents in Hevents. by injection Hevents as _ _ <-. }
  by eexists _, after.
Defined.


Lemma nyc_options_forced_witness :
  NycCoverage.run
    (coverageHost allFilesConfig (Throw "1 tests failed.") (Ok tt)) (tt, [])
  = (Throw "1 tests failed.", (tt, [] ++ allFilesEvents))
  /\ allFilesConfig !! "instrument" = Some (JsBool false)
  /\ NycCoverage.ENewNyc (NycCoverage.nycOptions allFilesConfig "/proj")
       (Ok tt) ∈ allFilesEvents
  /\ NycCoverage.nycOptions allFilesConfig "/proj" !! "instrument"
     = Some (JsBool true).
Proof.
  assert (NycCoverage.ENewNyc (NycCoverage.nycOptions allFilesConfig "/proj")
            (Ok tt) ∈ allFilesEvents) as Hin.
  { unfold allFilesEvents. do 2 apply list_elem_of_further.
    apply list_elem_of_here. }
  split; [exact allFiles_run|]. split; [reflexivity|]. split; [exact Hin|].
  destruct (nyc_options_forced _ tt tt [] _ allFilesEvents _ _
              allFiles_run Hin)
    as (nyConfigPath & nycCwd & nycConfig & _ & _ & _ & _ & Hinstrument & _).
  exact Hinstrument.
Defined.

(** ** The command-line entry *)

Lemma Probes_no_report folders r probes err :
  Probes folders r probes -> failureReport err ∉ probes.
Proof.
  intros Hprobes Hin. apply Probes_isProbe in Hprobes.
  rewrite Forall_forall in Hprobes. by specialize (Hprobes _ Hin).
Qed.

Lemma ProvisioningSteps_no_report world exe udd uninstall install r new err :
  ProvisioningSteps world exe udd uninstall install r new ->
  failureReport err ∉ new.
Proof.
  intros [Hnothing|e probes _ Hprobes|listed probes u i t _ Hprobes] Hin.
  - by apply elem_of_nil in Hin.
  - by eapply Probes_no_report.
  - apply elem_of_app in Hin as [Hin|Hin];
      [by eapply Probes_no_report|].
    unfold uninstallSteps, installSteps in Hin.
    destruct (Nat.ltb 0 _), (Nat.ltb 0 _), (installFailedAskingForRestart i);
      cbn in Hin; elem_cases Hin; discriminate.
Qed.

Lemma LaunchSteps_no_report world isCoverage config r new err :
  LaunchSteps world isCoverage config r new -> failureReport err ∉ new.
Proof.
  intros Hrun Hin.
  assert (forall workspace deleted,
             failureReport err ∉ deletionLog workspace deleted) as Hlog.
  { intros workspace [[]|e] H; cbn in H; elem_cases H.
    unfold failureReport in H. injection H. intros. discriminate. }
  destruct Hrun as [e _|exe prov e Hprov _|exe prov e Hprov _ _
                   |exe prov e Hprov _ _|exe prov deleted Hprov _
                   |exe prov Hprov _];
    try (pose proof (ProvisioningSteps_no_report _ _ _ _ _ _ _ err Hprov)
           as Hquiet);
    apply elem_of_cons in Hin as [Hin|Hin]; try discriminate;
    try (by apply elem_of_nil in Hin); try done;
    apply elem_of_app in Hin as [Hin|Hin]; try done.
  - elem_cases Hin. discriminate.
  - elem_cases Hin; discriminate.
  - apply elem_of_app in Hin as [Hin|Hin]; [|by eapply Hlog].
    elem_cases Hin; discriminate.
  - elem_cases Hin. discriminate.
Qed.

Section EntryFacts.

Import CommandLine.

Variable world : World.
Variable pathExists : string -> bool.
Variable stat : string -> Result Stats.
Variable yargs : list string -> YargsOutcome.
Variable load : string -> Result (option CosmiconfigResult).
Variable search : Result (option CosmiconfigResult).
Variable cannotReadProperty : ConfigurationValue -> string -> string.

Lemma runTestsFromCommandLineInner_run {L} processArgs (l : L) trace :
  exists ending new,
    runTestsFromCommandLineInner world pathExists stat yargs load search
      cannotReadProperty processArgs (l, trace)
    = (ending, (l, trace ++ new))
    /\ ((exists code,
            readCommandLineParameters yargs processArgs = inl code
            /\ ending = Exited code
            /\ new = [])
        \/ exists configPath isCoverage r,
             readCommandLineParameters yargs processArgs
             = inr (configPath, isCoverage)
             /\ ending = Settled r
             /\ ((exists configResult resolved workspaceFileToDelete,
                     readConfiguration world load search configPath
                     = Ok configResult
                     /\ validateAndResolveFileContent world pathExists stat
                          cannotReadProperty (filepath configResult)
                          (config configResult) isCoverage
                        = Ok resolved
                     /\ runVSCodeTests world isCoverage resolved
                          (None, trace)
                        = (r, (workspaceFileToDelete, trace ++ new)))
                 \/ new = []
                    /\ exists e,
                         r = Throw e
                         /\ (readConfiguration world load search configPath
                             = Throw e
                             \/ exists configResult,
                                  readConfiguration world load search
                                    configPath
                                  = Ok configResult
                                  /\ validateAndResolveFileContent world
                                       pathExists stat cannotReadProperty
                                       (filepath configResult)
                                       (config configResult) isCoverage
                                     = Throw e))).
Proof.
  unfold runTestsFromCommandLineInner.
  destruct (readCommandLineParameters yargs processArgs)
    as [code|(configPath, isCoverage)] eqn:Hparameters.
  { exists (Exited code), []. rewrite app_nil_r. split; [done|].
    left. by exists code. }
  rewrite bind_run. unfold await at 1.
  destruct (readConfiguration world load search configPath)
    as [configResult|e] eqn:Hread.
  2:{ exists (Settled (Throw e)), []. rewrite app_nil_r. split; [done|].
      right. exists configPath, isCoverage, (Throw e).
      split; [done|]. split; [done|]. right. split; [done|].
      exists e. split; [done|]. by left. }
  rewrite bind_run. unfold await at 1.
  destruct (validateAndResolveFileContent world pathExists stat
              cannotReadProperty (filepath configResult)
              (config configResult) isCoverage)
    as [resolved|e] eqn:Hvalid.
  2:{ exists (Settled (Throw e)), []. rewrite app_nil_r. split; [done|].
      right. exists configPath, isCoverage, (Throw e).
      split; [done|]. split; [done|]. right. split; [done|].
      exists e. split; [done|]. right. by exists configResult. }
  destruct (runVSCodeTests_steps world isCoverage resolved None trace)
    as (r & l' & new & Hrun & Hsteps).
  exists (Settled r), new. unfold call. cbn [fst snd]. rewrite Hrun.
  split; [done|]. right. exists configPath, isCoverage, r.
  split; [done|]. split; [done|]. left.
  by exists configResult, resolved, l'.
Qed.

(** X29. The entry ends in one of three ways. When yargs ends the process
    while reading the command line ([--help], [--version], arguments that
    do not fit), the process is gone with the exit code of yargs and
    nothing else has happened. Otherwise the entry touches the outside
    world only for a configuration that was found and is valid: then what
    it does, and how it settles, is what [runVSCodeTests] does on the
    resolved configuration with the coverage flag of the command line,
    starting with the download of the host. In the remaining case nothing
    is downloaded, provisioned or launched, and it rejects with the error
    of the reading or of the validation, which for an empty configuration
    file is the [TypeError] of reading a property of [undefined]. *)
Theorem invalid_configuration_launches_nothing {L} processArgs (l l' : L)
    trace ending new :
  runTestsFromCommandLineInner world pathExists stat yargs load search
    cannotReadProperty processArgs (l, trace)
  = (ending, (l', trace ++ new)) ->
  (exists code,
      readCommandLineParameters yargs processArgs = inl code
      /\ ending = Exited code
      /\ new = [])
  \/ exists configPath isCoverage r,
       readCommandLineParameters yargs processArgs
       = inr (configPath, isCoverage)
       /\ ending = Settled r
       /\ ((exists configResult resolved workspaceFileToDelete downloaded
                   rest,
               readConfiguration world load search configPath
               = Ok configResult
               /\ validateAndResolveFileContent world pathExists stat
                    cannotReadProperty (filepath configResult)
                    (config configResult) isCoverage
                  = Ok resolved
               /\ runVSCodeTests world isCoverage resolved (None, trace)
                  = (r, (workspaceFileToDelete, trace ++ new))
               /\ new = EDownloadAndUnzipVSCode (vscodeVersion resolved)
                          downloaded :: rest)
           \/ new = []
              /\ exists e,
                   r = Throw e
                   /\ (readConfiguration world load search configPath
                       = Throw e
                       \/ exists configResult,
                            readConfiguration world load search configPath
                            = Ok configResult
                            /\ validateAndResolveFileContent world
                                 pathExists stat cannotReadProperty
                                 (filepath configResult)
                                 (config configResult) isCoverage
                               = Throw e
                            /\ (config configResult = ConfigUndefined ->
                                e = cannotReadProperty ConfigUndefined
                                      "extensionDevelopmentPath"))).
Proof.
  intros Hrun.
  destruct (runTestsFromCommandLineInner_run processArgs l trace)
    as (ending' & new' & Hrun' & Hshape).
  rewrite Hrun in Hrun'. injection Hrun' as -> _ Hnew.
  apply app_inv_head in Hnew as ->.
  destruct Hshape as [?|(configPath & isCoverage & r & Hparameters & ->
                         & Hshape)]; [by left|right].
  exists configPath, isCoverage, r. split; [done|]. split; [done|].
  destruct Hshape
    as [(configResult & resolved & local & Hread & Hvalid & Hlaunch)
       |(-> & e & -> & Hrejected)].
  - left.
    assert (exists downloaded rest,
               new' = EDownloadAndUnzipVSCode (vscodeVersion resolved)
                        downloaded :: rest) as (downloaded & rest & Hhead).
    { apply runVSCodeTests_steps_of in Hlaunch.
      destruct Hlaunch; by eexists _, _. }
    by exists configResult, resolved, local, downloaded, rest.
  - right. split; [done|]. exists e. split; [done|].
    destruct Hrejected as [?|(configResult & Hread & Hvalid)]; [by left|].
    right. exists configResult. split; [done|]. split; [done|].
    intros Hempty. rewrite Hempty in Hvalid. cbn in Hvalid.
    by injection Hvalid.
Qed.

(** X30. The process always ends with an exit code. When yargs ends the
    process while reading the command line, the code is the one of yargs,
    and nothing has been launched or reported. Otherwise the code is [0]
    or [1]: [0] exactly when the host was launched and its run resolved,
    and then no failure is reported; [1] otherwise, and then the last
    thing done is to print ["Failed to run tests"] with the error. *)
Theorem command_line_exit_code processArgs (l l' : nat) trace exitCode new :
  runTestsFromCommandLine world pathExists stat yargs load search
    cannotReadProperty processArgs (l, trace)
  = (exitCode, (l', trace ++ new)) ->
  readCommandLineParameters yargs processArgs = inl exitCode /\ new = []
  \/ (exists parameters,
         readCommandLineParameters yargs processArgs = inr parameters)
     /\ l' = exitCode
     /\ (exitCode = 0
         /\ (exists options, ERunTests options (Ok tt) ∈ new)
         /\ (forall err, failureReport err ∉ new)
         \/ exitCode = 1
            /\ (forall options, ERunTests options (Ok tt) ∉ new)
            /\ exists err, last new = Some (failureReport err)).
Proof.
  unfold runTestsFromCommandLine, processExit. cbn [fst snd].
  destruct (runTestsFromCommandLineInner_run processArgs 0 trace)
    as (ending & newi & -> & Hshape).
  destruct Hshape as [(code & Hparameters & -> & ->)
                     |(configPath & isCoverage & ri & Hparameters & ->
                       & Hshape)].
  { intros [= <- _ Hnew]. apply app_inv_head in Hnew as <-. by left. }
  assert ((exists resolved, LaunchSteps world isCoverage resolved ri newi)
          \/ newi = [] /\ exists e, ri = Throw e) as Hsteps.
  { destruct Hshape as [(configResult & resolved & local & _ & _ & Hlaunch)
                       |(-> & e & -> & _)]; [left|right; by eauto].
    exists resolved. by eapply runVSCodeTests_steps_of. }
  clear Hshape. destruct ri as [[]|e].
  - intros [= <- <- Hnew]. apply app_inv_head in Hnew as <-.
    right. split; [by eexists|].
    split; [done|]. left. split; [done|].
    destruct Hsteps as [(resolved & Hsteps)|(_ & e & ?)]; [|discriminate].
    split; [by apply (LaunchSteps_resolves _ _ _ _ _ Hsteps)|].
    intros err. by eapply LaunchSteps_no_report.
  - rewrite bind_run. unfold setLocal, consoleError, perform.
    cbn [fst snd].
    intros [= <- <- Hnew]. rewrite <- app_assoc in Hnew.
    apply app_inv_head in Hnew as <-.
    right. split; [by eexists|].
    split; [done|]. right. split; [done|].
    split; [|exists e; by rewrite last_snoc].
    intros options Hin. apply elem_of_app in Hin as [Hin|Hin];
      [|elem_cases Hin; discriminate].
    destruct Hsteps as [(resolved & Hsteps)|(-> & _)];
      [|by apply elem_of_nil in Hin].
    assert (Throw e = Ok tt) as Habsurd; [|discriminate].
    apply (LaunchSteps_resolves _ _ _ _ _ Hsteps). by exists options.
Qed.

End EntryFacts.

Lemma demoEntry_run :
  CommandLine.runTestsFromCommandLineInner projWorld demoExists demoStat
    demoYargs demoLoad demoSearch demoCannotReadProperty
    ["--config"; "config.json"; "--coverage"] (tt, [])
  = (CommandLine.Settled (Ok tt), (tt, [] ++ fullLaunchEvents)).
Proof. by vm_compute. Qed.

Lemma emptyFile_run :
  CommandLine.runTestsFromCommandLine projWorld demoExists demoStat
    demoYargs demoLoad demoSearch demoCannotReadProperty
    ["--config"; "empty.json"] (0, [])
  = (1, (1, [] ++ [failureReport
                     "Cannot read property 'extensionDevelopmentPath' of undefined"])).
Proof. by vm_compute. Qed.

Lemma help_run :
  CommandLine.runTestsFromCommandLine projWorld demoExists demoStat
    demoYargs demoLoad demoSearch demoCannotReadProperty ["--help"] (0, [])
  = (0, (0, [] ++ [])).
Proof. by vm_compute. Qed.

Lemma invalid_configuration_launches_nothing_witness :
  CommandLine.runTestsFromCommandLineInner projWorld demoExists demoStat
    demoYargs demoLoad demoSearch demoCannotReadProperty
    ["--config"; "config.json"; "--coverage"] (tt, [])
  = (CommandLine.Settled (Ok tt), (tt, [] ++ fullLaunchEvents))
  /\ exists configResult resolved workspaceFileToDelete,
       CommandLine.readConfiguration projWorld demoLoad demoSearch
         (Some "config.json")
       = Ok configResult
       /\ CommandLine.validateAndResolveFileContent projWorld demoExists
            demoStat demoCannotReadProperty
            (CommandLine.filepath configResult)
            (CommandLine.config configResult) true
          = Ok resolved
       /\ runVSCodeTests projWorld true resolved (None, [])
          = (Ok tt, (workspaceFileToDelete, [] ++ fullLaunchEvents)).
Proof.
  split; [exact demoEntry_run|].
  destruct (invalid_configuration_launches_nothing projWorld demoExists
              demoStat demoYargs demoLoad demoSearch demoCannotReadProperty
              ["--config"; "config.json"; "--coverage"] tt tt []
              (CommandLine.Settled (Ok tt)) fullLaunchEvents demoEntry_run)
    as [(code & Hexits & _)
       |(configPath & isCoverage & r & Hparameters & Hsettled
         & [(configResult & resolved & local & downloaded & rest & Hread
             & Hvalid & Hlaunch & _)|(Hnone & _)])];
    [discriminate Hexits| |discriminate Hnone].
  injection Hparameters as <- <-. injection Hsettled as <-.
  by exists configResult, resolved, local.
Defined.

Lemma command_line_exit_code_witness :
  (CommandLine.runTestsFromCommandLine projWorld demoExists demoStat
     demoYargs demoLoad demoSearch demoCannotReadProperty
     ["--config"; "empty.json"] (0, [])
   = (1, (1, [] ++ [failureReport
                      "Cannot read property 'extensionDevelopmentPath' of undefined"]))
   /\ exists err,
        last [failureReport
                "Cannot read property 'extensionDevelopmentPath' of undefined"]
        = Some (failureReport err))
  /\ (CommandLine.runTestsFromCommandLine projWorld demoExists demoStat
        demoYargs demoLoad demoSearch demoCannotReadProperty ["--help"]
        (0, [])
      = (0, (0, [] ++ []))
      /\ CommandLine.readCommandLineParameters demoYargs ["--help"] = inl 0).
Proof.
  split.
  - split; [exact emptyFile_run|].
    destruct (command_line_exit_code projWorld demoExists demoStat demoYargs
                demoLoad demoSearch demoCannotReadProperty
                ["--config"; "empty.json"] 0 1 [] 1 _ emptyFile_run)
      as [(Hexits & _)|(_ & _ & [(Hzero & _)|(_ & _ & Hlast)])];
      [discriminate Hexits|discriminate Hzero|exact Hlast].
  - split; [exact help_run|].
    destruct (command_line_exit_code projWorld demoExists demoStat demoYargs
                demoLoad demoSearch demoCannotReadProperty ["--help"]
                0 0 [] 0 [] help_run)
      as [(Hexits & _)|((parameters & Hparameters) & _)];
      [exact Hexits|discriminate Hparameters].
Defined.
